(** * Smart DNS Proxy: the management console, embedded and verified

    The repository is a Node.js console that stores settings and a
    domain-to-resolver override list as JSON files, renders them into a
    forwarder (dnsmasq) configuration file and answers a small HTTP API.

    The embedding follows the source files:
    - [logger.js]      -> Module [Logger];
    - [config.js]      -> Module [Config];
    - [dnsconfig.js]   -> Module [DnsConfig];
    - [routes/api.js]  -> Modules [Api], [Request] and [ApiMore];
    - [scripts/configure-dnsmasq.js] -> Module [Script];
    - [app.js]         -> Module [App].

    Asynchronous functions are modelled as computations of an error-and-state
    monad over a [world]: the files on disk, the console, a schedule of I/O
    faults and a clock.  Calls are sequenced in program order (every [await]
    is a sequence point; the logger's promises, which never reject, are
    treated as awaited). *)

From Stdlib Require Import ZArith List Ascii String Bool Lia.
From stdpp Require Import base gmap strings list pretty.

Set Warnings "-register-all".
Local Open Scope Z_scope.

(** ** Strings *)

Module Str.

(** The line feed, as a character and as the string ['\n']. *)
Definition LF : ascii := "010"%char.
Definition nl : string := String LF "".

(** [s.split('\n')]: the pieces between line feeds; never empty. *)
Fixpoint split_lines (s : string) : list string :=
  match s with
  | "" => [""]
  | String c s' =>
      if Ascii.eqb c LF then "" :: split_lines s'
      else match split_lines s' with
           | [] => [String c ""]
           | line :: rest => String c line :: rest
           end
  end.

(** [s.includes(needle)] *)
Fixpoint includes (needle s : string) : bool :=
  String.prefix needle s ||
  match s with
  | "" => false
  | String _ s' => includes needle s'
  end.

(** [s.trim()], over the ASCII white space characters. *)
Fixpoint trim_start (s : string) : string :=
  match s with
  | "" => ""
  | String c s' => if Ascii.is_space c then trim_start s' else s
  end.
Definition trim (s : string) : string :=
  String.rev (trim_start (String.rev (trim_start s))).

(** A string without line feed. *)
Fixpoint no_LF (s : string) : bool :=
  match s with
  | "" => true
  | String c s' => negb (Ascii.eqb c LF) && no_LF s'
  end.

(** [concat_map f l]: what a [forEach] that appends [f x] for each [x]
    adds to the accumulator. *)
Definition concat_map {A} (f : A -> string) (l : list A) : string :=
  fold_right (fun x acc => f x +:+ acc) "" l.

End Str.

(** ** JavaScript scalars

    Scalar settings are interpolated into template strings and tested for
    truthiness, so they are kept dynamically typed.  Numbers are the
    integers (a JSON number with a fraction is outside the model). *)

Inductive jsval :=
| JUndefined
| JNull
| JBool (b : bool)
| JNum (n : Z)
| JStr (s : string).

Definition truthy (v : jsval) : bool :=
  match v with
  | JUndefined | JNull => false
  | JBool b => b
  | JNum n => negb (n =? 0)
  | JStr s => negb (String.eqb s "")
  end.

(** Template-literal interpolation [`${v}`]. *)
Definition toStr (v : jsval) : string :=
  match v with
  | JUndefined => "undefined"
  | JNull => "null"
  | JBool true => "true"
  | JBool false => "false"
  | JNum n => pretty n
  | JStr s => s
  end.

(** JSON values, for response bodies ([res.json(...)]). *)
Inductive json :=
| JsNull
| JsBool (b : bool)
| JsNum (n : Z)
| JsStr (s : string)
| JsArr (l : list json)
| JsObj (fields : list (string * json)).

(** Truthiness of a JSON value: [null], [false], [0] and the empty string
    are falsy, every array and every object is truthy. *)
Definition truthyJson (j : json) : bool :=
  match j with
  | JsNull => false
  | JsBool b => b
  | JsNum n => negb (n =? 0)
  | JsStr s => negb (String.eqb s "")
  | JsArr _ | JsObj _ => true
  end.

Definition keys (j : json) : list string :=
  match j with
  | JsObj fields => map fst fields
  | _ => []
  end.

Fixpoint assoc (k : string) (fields : list (string * json)) : option json :=
  match fields with
  | [] => None
  | (k', v) :: rest => if String.eqb k k' then Some v else assoc k rest
  end.

Definition field (k : string) (j : json) : option json :=
  match j with
  | JsObj fields => assoc k fields
  | _ => None
  end.

(** A property whose value is [undefined] is left out by JSON
    serialisation. *)
Definition prop (k : string) (v : jsval) : list (string * json) :=
  match v with
  | JUndefined => []
  | JNull => [(k, JsNull)]
  | JBool b => [(k, JsBool b)]
  | JNum n => [(k, JsNum n)]
  | JStr s => [(k, JsStr s)]
  end.

(** ** Data model (config.js)

    A field that the code itself tests for presence is an [option]:
    [None] is a missing (undefined) property. *)

Record dnsServerSettings := {
  port : jsval;
  cacheSize : jsval;
  logQueries : jsval
}.

Record webInterfaceSettings := {
  webPort : jsval;          (* webInterface.port *)
  enableAuth : jsval;
  username : jsval;
  password : option json    (* any JSON value: only its truthiness is used *)
}.

Record appConfig := {
  dnsServer : option dnsServerSettings;
  alternativeDNS : option (list string);
  webInterface : option webInterfaceSettings
}.

Record overrideEntry := {
  domain : string;
  resolveVia : string
}.

Record domainList := {
  domains : option (list overrideEntry)
}.

(** A count of the report's table of resolvers: a number, or [NaN], which
    the report file shows as [null]. *)
Inductive tally :=
| NaN
| Tally (n : nat).

Record bypassReport := {
  timestamp : string;
  totalDomains : nat;
  reportDomains : list overrideEntry;   (* report.domains *)
  dnsServers : gmap string tally
}.

Definition defaultConfig : appConfig := {|
  dnsServer := Some {| port := JNum 53; cacheSize := JNum 1000;
                       logQueries := JBool true |};
  alternativeDNS := Some ["8.8.8.8"; "1.1.1.1"];
  webInterface := Some {| webPort := JNum 5000; enableAuth := JBool false;
                          username := JStr "admin";
                          password := Some (JsStr "admin") |}
|}.

Definition defaultIpList : domainList := {|
  domains := Some [ {| domain := "netflix.com"; resolveVia := "1.1.1.1" |};
                    {| domain := "spotify.com"; resolveVia := "8.8.8.8" |} ]
|}.

(** ** The world: files, console, I/O faults, clock *)

Inductive jsonDoc :=
| ConfigDoc (c : appConfig)
| DomainsDoc (d : domainList)
| ReportDoc (r : bypassReport).

(** What a file holds: either text that is not a JSON document (log files,
    the generated forwarder configuration: [JSON.parse] throws on it), or
    the text [JSON.stringify(doc, null, 2)] of a document, kept as the
    document it parses back to. *)
Inductive fileData :=
| Text (s : string)
| Json (doc : jsonDoc).

Inductive channel := Stdout | Stderr.

Inductive errorKind := IOError | SyntaxError | TypeError.

Record error := {
  kind : errorKind;
  message : string
}.

Record world := {
  files : gmap string fileData;
  console : list (channel * string);
  (** outcome of the coming file-system calls, in order: [Some msg] makes
      the call reject with message [msg]; when the schedule is used up,
      calls are not disturbed any more *)
  faults : list (option string);
  (** what a failing [writeFile] leaves of the file at a path: [None] when
      the call fails before the file is opened, so that the file is as it
      was; [Some n] when it fails after the file was opened, and so
      truncated, with the first [n] characters of the new text written *)
  torn : string -> option nat;
  (** the string the [n]-th date rendering yields ([toISOString],
      [toLocaleString]) *)
  clock : nat -> string;
  ticks : nat;
  (** the runtime's [JSON.stringify(doc, null, 2)], left abstract: it only
      matters when a stored document is read or extended as text *)
  JSON_stringify : jsonDoc -> string
}.

Definition set_files (f : gmap string fileData) (w : world) : world :=
  {| files := f; console := console w; faults := faults w;
     torn := torn w; clock := clock w; ticks := ticks w;
     JSON_stringify := JSON_stringify w |}.
Definition set_console (c : list (channel * string)) (w : world) : world :=
  {| files := files w; console := c; faults := faults w;
     torn := torn w; clock := clock w; ticks := ticks w;
     JSON_stringify := JSON_stringify w |}.
Definition set_faults (f : list (option string)) (w : world) : world :=
  {| files := files w; console := console w; faults := f;
     torn := torn w; clock := clock w; ticks := ticks w;
     JSON_stringify := JSON_stringify w |}.
Definition set_ticks (n : nat) (w : world) : world :=
  {| files := files w; console := console w; faults := faults w;
     torn := torn w; clock := clock w; ticks := n;
     JSON_stringify := JSON_stringify w |}.

(** ** The monad of asynchronous functions: a promise either fulfils with a
    value or rejects with an error, and changes the world on the way. *)

Inductive result (A : Type) :=
| Ok (a : A)
| Throw (e : error).
Arguments Ok {A} a.
Arguments Throw {A} e.

Definition M (A : Type) : Type := world -> result A * world.

Definition ret {A} (a : A) : M A := fun w => (Ok a, w).

Definition throw {A} (e : error) : M A := fun w => (Throw e, w).

Definition bind {A B} (m : M A) (k : A -> M B) : M B :=
  fun w => match m w with
           | (Ok a, w') => k a w'
           | (Throw e, w') => (Throw e, w')
           end.

(** [try { m } catch (e) { h e }] *)
Definition try_catch {A} (m : M A) (h : error -> M A) : M A :=
  fun w => match m w with
           | (Ok a, w') => (Ok a, w')
           | (Throw e, w') => h e w'
           end.

Declare Scope js_scope.
Delimit Scope js_scope with js.
Notation "'let*' x ':=' m 'in' k" := (bind m (fun x => k))
  (at level 10, x name, m at level 100, k at level 200) : js_scope.
Notation "'await' m 'in' k" := (bind m (fun _ => k))
  (at level 10, m at level 100, k at level 200) : js_scope.
Local Open Scope js_scope.

Definition typeError {A} (msg : string) : M A :=
  throw {| kind := TypeError; message := msg |}.

(** [new Date(...).toISOString()] and the like: the next string of the
    clock. *)
Definition date_string : M string :=
  fun w => (Ok (clock w (ticks w)), set_ticks (S (ticks w)) w).

Definition console_out (ch : channel) (line : string) : M unit :=
  fun w => (Ok tt, set_console (console w ++ [(ch, line)]) w).
Definition console_log := console_out Stdout.
Definition console_error := console_out Stderr.

(** ** fs.promises *)

Module Fs.

(** Every call first consults the fault schedule. *)
Definition io {A} (act : M A) : M A :=
  fun w => match faults w with
           | Some msg :: rest =>
               (Throw {| kind := IOError; message := msg |},
                set_faults rest w)
           | None :: rest => act (set_faults rest w)
           | [] => act w
           end.

Definition enoent {A} (syscall path : string) : M A :=
  throw {| kind := IOError;
           message := "ENOENT: no such file or directory, " +:+ syscall
                      +:+ " '" +:+ path +:+ "'" |}.

Definition access (path : string) : M unit :=
  io (fun w => match files w !! path with
               | Some _ => ret tt w
               | None => enoent "access" path w
               end).

(** [fs.mkdir(dir, { recursive: true })]: directories are not tracked, an
    existing one is no error. *)
Definition mkdir (dir : string) : M unit := io (ret tt).

Definition readFile (path : string) : M fileData :=
  io (fun w => match files w !! path with
               | Some d => ret d w
               | None => enoent "open" path w
               end).

(** The text of a file. *)
Definition text (w : world) (d : fileData) : string :=
  match d with
  | Text s => s
  | Json doc => JSON_stringify w doc
  end.

(** The file that holds the first [n] characters of the text of [d]: [d]
    itself when that is the whole text. *)
Definition tornData (w : world) (d : fileData) (n : nat) : fileData :=
  let s := text w d in
  if (n <? String.length s)%nat then Text (String.substring 0 n s) else d.

(** [fs.writeFile(path, text)] opens the file, which truncates it, and
    writes the text in place.  A call that fails may have done a part of
    this: what it leaves is told by [torn]. *)
Definition writeFile (path : string) (d : fileData) : M unit :=
  fun w =>
    match faults w with
    | Some msg :: rest =>
        (Throw {| kind := IOError; message := msg |},
         set_faults rest
           match torn w path with
           | Some n => set_files (<[path := tornData w d n]> (files w)) w
           | None => w
           end)
    | None :: rest =>
        (Ok tt, set_files (<[path := d]> (files w)) (set_faults rest w))
    | [] => (Ok tt, set_files (<[path := d]> (files w)) w)
    end.

Definition appendFile (path : string) (s : string) : M unit :=
  io (fun w =>
        let old := match files w !! path with
                   | Some d => text w d
                   | None => ""
                   end in
        (Ok tt, set_files (<[path := Text (old +:+ s)]> (files w)) w)).

(** [fs.stat(path)]: only the existence of the file is modelled; the
    modification time is rendered by the clock. *)
Definition stat (path : string) : M unit :=
  io (fun w => match files w !! path with
               | Some _ => ret tt w
               | None => enoent "stat" path w
               end).

End Fs.

(** ** logger.js *)

Module Logger.

Definition accessLogPath : string := "logs/access.log".
Definition errorLogPath : string := "logs/error.log".
Definition dnsLogPath : string := "logs/dns.log".

Definition formatLogMessage (msg : string) : M string :=
  let* timestamp := date_string in
  ret ("[" +:+ timestamp +:+ "] " +:+ msg +:+ Str.nl).

Definition info (msg : string) : M unit :=
  let* formattedMessage := formatLogMessage ("INFO: " +:+ msg) in
  await console_log (Str.trim formattedMessage) in
  try_catch (Fs.appendFile accessLogPath formattedMessage)
    (fun err => console_error
                  ("Failed to write to access log: " +:+ message err)).

Definition error (msg : string) : M unit :=
  let* formattedMessage := formatLogMessage ("ERROR: " +:+ msg) in
  await console_error (Str.trim formattedMessage) in
  try_catch (Fs.appendFile errorLogPath formattedMessage)
    (fun err => console_error
                  ("Failed to write to error log: " +:+ message err)).

Definition warn (msg : string) : M unit :=
  let* formattedMessage := formatLogMessage ("WARN: " +:+ msg) in
  await console_error (Str.trim formattedMessage) in
  try_catch (Fs.appendFile accessLogPath formattedMessage)
    (fun err => console_error
                  ("Failed to write to access log: " +:+ message err)).

Definition dnsQuery (query response : string) : M unit :=
  let* formattedMessage :=
    formatLogMessage ("DNS QUERY: " +:+ query +:+ " -> " +:+ response) in
  try_catch (Fs.appendFile dnsLogPath formattedMessage)
    (fun err => console_error
                  ("Failed to write to DNS log: " +:+ message err)).

End Logger.

(** ** Arrays *)

Module Arr.

(** [arr.findIndex(p)]: the first index whose element satisfies [p],
    or -1. *)
Fixpoint findIndex {A} (p : A -> bool) (l : list A) : Z :=
  match l with
  | [] => -1
  | x :: rest =>
      if p x then 0
      else let i := findIndex p rest in
           if i =? -1 then -1 else i + 1
  end.

(** [arr.forEach(x => { acc += f x })] *)
Definition forEach_append {A} (f : A -> string) (l : list A)
    (acc : string) : string :=
  fold_left (fun a x => a +:+ f x) l acc.

End Arr.

(** ** config.js *)

Module Config.

Definition CONFIG_PATH : string := "data/config.json".
Definition IPS_PATH : string := "data/ips.json".
Definition DATA_DIR : string := "data".   (* path.dirname of both *)

Definition ensureConfigExists : M unit :=
  await try_catch (Fs.access CONFIG_PATH)
    (fun _ =>
       await Logger.info "Creating default configuration file" in
       await Fs.mkdir DATA_DIR in
       Fs.writeFile CONFIG_PATH (Json (ConfigDoc defaultConfig))) in
  try_catch (Fs.access IPS_PATH)
    (fun _ =>
       await Logger.info "Creating default IP list file" in
       await Fs.mkdir DATA_DIR in
       Fs.writeFile IPS_PATH (Json (DomainsDoc defaultIpList))).

(** [JSON.parse] of a file's text.  The message of the syntax error
    depends on the text; one representative message stands for all. *)
Definition JSON_parse (d : fileData) : M jsonDoc :=
  match d with
  | Json doc => ret doc
  | Text _ => throw {| kind := SyntaxError;
                       message := "Unexpected token in JSON at position 0" |}
  end.

(** The parsed document seen as a settings object: a document of another
    shape has none of the settings' properties. *)
Definition asConfig (doc : jsonDoc) : appConfig :=
  match doc with
  | ConfigDoc c => c
  | _ => {| dnsServer := None; alternativeDNS := None;
            webInterface := None |}
  end.

(** The parsed document seen as a domain list: only its [domains]
    property is ever read. *)
Definition asDomainList (doc : jsonDoc) : domainList :=
  match doc with
  | DomainsDoc d => d
  | ReportDoc r => {| domains := Some (reportDomains r) |}
  | ConfigDoc _ => {| domains := None |}
  end.

Definition getConfig : M appConfig :=
  await ensureConfigExists in
  let* configData := Fs.readFile CONFIG_PATH in
  let* doc := JSON_parse configData in
  ret (asConfig doc).

Definition getDomainList : M domainList :=
  await ensureConfigExists in
  let* ipData := Fs.readFile IPS_PATH in
  let* doc := JSON_parse ipData in
  ret (asDomainList doc).

Definition saveConfig (config : appConfig) : M bool :=
  await Fs.writeFile CONFIG_PATH (Json (ConfigDoc config)) in
  await Logger.info "Configuration saved successfully" in
  ret true.

Definition saveDomainList (l : list overrideEntry) : M bool :=
  await Fs.writeFile IPS_PATH (Json (DomainsDoc {| domains := Some l |})) in
  await Logger.info "Domain list saved successfully" in
  ret true.

(** [domainList.domains[existingIndex].resolveVia = resolveVia] *)
Definition setResolveVia (rv : string) (e : overrideEntry) : overrideEntry :=
  {| domain := domain e; resolveVia := rv |}.

(** [domainList.domains[existingIndex]] when [existingIndex !== -1]:
    the entry that [addDomain]'s lookup of [d] selects. *)
Definition existingEntry (d : string) (l : list overrideEntry)
    : option overrideEntry :=
  let existingIndex := Arr.findIndex (fun e => String.eqb (domain e) d) l in
  if negb (existingIndex =? -1) then l !! Z.to_nat existingIndex else None.

(** The list after [addDomain]'s update of the array. *)
Definition addToList (d rv : string) (l : list overrideEntry)
    : list overrideEntry :=
  let existingIndex := Arr.findIndex (fun e => String.eqb (domain e) d) l in
  if negb (existingIndex =? -1)
  then alter (setResolveVia rv) (Z.to_nat existingIndex) l
  else l ++ [ {| domain := d; resolveVia := rv |} ].

Definition addDomain (d rv : string) : M domainList :=
  let* domainList := getDomainList in
  match domains domainList with
  | None =>
      typeError "Cannot read properties of undefined (reading 'findIndex')"
  | Some l =>
      let l' := addToList d rv l in
      await saveDomainList l' in
      ret {| domains := Some l' |}
  end.

(** The list after [removeDomain]'s filter. *)
Definition removeFromList (d : string) (l : list overrideEntry)
    : list overrideEntry :=
  filter (fun e => domain e <> d) l.

Definition removeDomain (d : string) : M domainList :=
  let* domainList := getDomainList in
  match domains domainList with
  | None =>
      typeError "Cannot read properties of undefined (reading 'filter')"
  | Some l =>
      let l' := removeFromList d l in
      await saveDomainList l' in
      ret {| domains := Some l' |}
  end.

End Config.

(** ** dnsconfig.js *)

Module DnsConfig.

Definition DNSMASQ_CONFIG_DIR : string := "data/dns_config".
Definition CUSTOM_CONFIG_FILE : string := "data/dns_config/smartdns.conf".
Definition REPORT_PATH : string := "data/bypass_report.json".

(** The text that [generateDnsmasqConfig] builds in [configContent],
    statement by statement. *)
Definition configContent (generatedAt : string) (ds : dnsServerSettings)
    (alt : list string) (dl : domainList) : string :=
  let c := "# Smart DNS Proxy Configuration" +:+ Str.nl in
  let c := c +:+ ("# Generated at " +:+ generatedAt +:+ Str.nl +:+ Str.nl) in
  let c := c +:+ ("# Basic configuration" +:+ Str.nl) in
  let c := c +:+ ("port=" +:+ toStr (port ds) +:+ Str.nl) in
  let c := c +:+ ("cache-size=" +:+ toStr (cacheSize ds) +:+ Str.nl) in
  let c := c +:+ ("log-queries="
                  +:+ (if truthy (logQueries ds) then "true" else "false")
                  +:+ Str.nl +:+ Str.nl) in
  let c := c +:+ ("# Alternative DNS servers" +:+ Str.nl) in
  let c := Arr.forEach_append
             (fun dns => "server=" +:+ dns +:+ Str.nl) alt c in
  let c := c +:+ (Str.nl +:+ "# Domain specific configurations" +:+ Str.nl) in
  match domains dl with
  | Some ((_ :: _) as items) =>
      Arr.forEach_append
        (fun item => "server=/" +:+ domain item +:+ "/"
                     +:+ resolveVia item +:+ Str.nl) items c
  | _ => c +:+ ("# No domains configured yet" +:+ Str.nl)
  end.

Definition generateDnsmasqConfig (appConfig : appConfig)
    (domainList : domainList) : M unit :=
  await Logger.info "Generating DNS configuration" in
  let* generatedAt := date_string in
  match dnsServer appConfig with
  | None =>
      typeError "Cannot read properties of undefined (reading 'port')"
  | Some ds =>
      match alternativeDNS appConfig with
      | None =>
          typeError
            "Cannot read properties of undefined (reading 'forEach')"
      | Some alt =>
          await Fs.writeFile CUSTOM_CONFIG_FILE
                  (Text (configContent generatedAt ds alt domainList)) in
          Logger.info ("DNS configuration generated at "
                       +:+ CUSTOM_CONFIG_FILE)
      end
  end.

Definition initializeDNSConfig : M bool :=
  await Logger.info "Initializing DNS configuration" in
  try_catch
    (await Fs.mkdir DNSMASQ_CONFIG_DIR in
     let* appConfig := Config.getConfig in
     let* domainList := Config.getDomainList in
     await generateDnsmasqConfig appConfig domainList in
     await Logger.info "DNS configuration initialized successfully" in
     ret true)
    (fun err =>
       await Logger.error ("Failed to initialize DNS configuration: "
                           +:+ message err) in
       throw err).

Definition restartDnsmasq : M bool :=
  try_catch
    (await Logger.info "Simulating DNS service restart" in
     let* now := date_string in
     await Fs.appendFile Logger.dnsLogPath
             ("[" +:+ now +:+ "] INFO: DNS service restarted" +:+ Str.nl) in
     await Logger.info "DNS service restart simulated successfully" in
     ret true)
    (fun err =>
       await Logger.error ("Failed to simulate DNS restart: "
                           +:+ message err) in
       throw err).

(** The properties that the table, a plain object, has from
    [Object.prototype] before any is set: functions, and so truthy. *)
Definition inheritedNames : list string :=
  [ "constructor"; "toString"; "toLocaleString"; "valueOf";
    "hasOwnProperty"; "isPrototypeOf"; "propertyIsEnumerable";
    "__defineGetter__"; "__defineSetter__";
    "__lookupGetter__"; "__lookupSetter__" ].

(** [if (!t[k]) { t[k] = 1 } else { t[k]++ }] on the table [t], for the
    key [k = item.resolveVia].  A value the table holds itself is falsy
    when it is [0] or [NaN].  For a key it does not hold, [t[k]] is the
    inherited function when there is one: incrementing it sets [t[k]] to
    [NaN].  [__proto__] is an accessor: it reads as the prototype object,
    and its setter ignores the [NaN] that the increment gives, so the
    table never holds that key. *)
Definition countStep (m : gmap string tally) (item : overrideEntry)
    : gmap string tally :=
  let k := resolveVia item in
  if String.eqb k "__proto__" then m
  else match m !! k with
       | Some (Tally (S n)) => <[k := Tally (S (S n))]> m
       | Some (Tally O) | Some NaN => <[k := Tally 1]> m
       | None =>
           if bool_decide (k ∈ inheritedNames) then <[k := NaN]> m
           else <[k := Tally 1]> m
       end.

(** Count domains per DNS server. *)
Definition countServers (l : list overrideEntry) : gmap string tally :=
  fold_left countStep l ∅.

Definition generateBypassReport (domainList : domainList) : M unit :=
  try_catch
    (let* now := date_string in
     match domains domainList with
     | None =>
         typeError "Cannot read properties of undefined (reading 'length')"
     | Some l =>
         let report := {| timestamp := now;
                          totalDomains := length l;
                          reportDomains := l;
                          dnsServers := countServers l |} in
         await Fs.writeFile REPORT_PATH (Json (ReportDoc report)) in
         Logger.info ("Bypass report generated at " +:+ REPORT_PATH)
     end)
    (fun err =>
       Logger.error ("Failed to generate bypass report: " +:+ message err)).

Definition updateDNSConfig : M bool :=
  try_catch
    (let* appConfig := Config.getConfig in
     let* domainList := Config.getDomainList in
     await generateDnsmasqConfig appConfig domainList in
     await restartDnsmasq in
     await generateBypassReport domainList in
     await Logger.info "DNS configuration updated successfully" in
     ret true)
    (fun err =>
       await Logger.error ("Failed to update DNS configuration: "
                           +:+ message err) in
       throw err).

Definition addDomain (d rv : string) : M bool :=
  try_catch
    (await Config.addDomain d rv in
     await updateDNSConfig in
     let* now := date_string in
     await Fs.appendFile Logger.dnsLogPath
             ("[" +:+ now +:+ "] INFO: Added domain " +:+ d
              +:+ " to bypass via " +:+ rv +:+ Str.nl) in
     ret true)
    (fun err =>
       await Logger.error ("Failed to add domain: " +:+ message err) in
       throw err).

Definition removeDomain (d : string) : M bool :=
  try_catch
    (await Config.removeDomain d in
     await updateDNSConfig in
     let* now := date_string in
     await Fs.appendFile Logger.dnsLogPath
             ("[" +:+ now +:+ "] INFO: Removed domain " +:+ d
              +:+ " from bypass list" +:+ Str.nl) in
     ret true)
    (fun err =>
       await Logger.error ("Failed to remove domain: " +:+ message err) in
       throw err).

End DnsConfig.

(** ** Regular expressions

    The two validation patterns of routes/api.js are anchored at both ends
    ([^...$], no flags), so [pattern.test(s)] holds exactly when the whole
    of [s] is in the language of the pattern; that is decided here with
    derivatives. *)

Module Regex.

Inductive regex :=
| Void                              (* matches nothing *)
| Eps                               (* the empty string *)
| Class (p : ascii -> bool)         (* one character of a class *)
| Cat (r1 r2 : regex)
| Alt (r1 r2 : regex)
| Star (r : regex).

Fixpoint nullable (r : regex) : bool :=
  match r with
  | Void => false
  | Eps => true
  | Class _ => false
  | Cat r1 r2 => nullable r1 && nullable r2
  | Alt r1 r2 => nullable r1 || nullable r2
  | Star _ => true
  end.

Definition cat (r1 r2 : regex) : regex :=
  match r1, r2 with
  | Void, _ => Void
  | _, Void => Void
  | Eps, _ => r2
  | _, _ => Cat r1 r2
  end.

Definition alt (r1 r2 : regex) : regex :=
  match r1, r2 with
  | Void, _ => r2
  | _, Void => r1
  | _, _ => Alt r1 r2
  end.

Fixpoint deriv (c : ascii) (r : regex) : regex :=
  match r with
  | Void => Void
  | Eps => Void
  | Class p => if p c then Eps else Void
  | Cat r1 r2 =>
      if nullable r1 then alt (cat (deriv c r1) r2) (deriv c r2)
      else cat (deriv c r1) r2
  | Alt r1 r2 => alt (deriv c r1) (deriv c r2)
  | Star r0 => cat (deriv c r0) (Star r0)
  end.

Fixpoint matches (r : regex) (s : string) : bool :=
  match s with
  | "" => nullable r
  | String c s' => matches (deriv c r) s'
  end.

(** [r{n}] *)
Fixpoint times (n : nat) (r : regex) : regex :=
  match n with
  | O => Eps
  | S n' => Cat r (times n' r)
  end.

(** [r{0,n}] *)
Fixpoint upto (n : nat) (r : regex) : regex :=
  match n with
  | O => Eps
  | S n' => Alt Eps (Cat r (upto n' r))
  end.

(** [r{lo,hi}], [r{lo,}] and [r+] *)
Definition range (lo hi : nat) (r : regex) : regex :=
  Cat (times lo r) (upto (hi - lo) r).
Definition atLeast (lo : nat) (r : regex) : regex :=
  Cat (times lo r) (Star r).
Definition plus (r : regex) : regex := Cat r (Star r).

Definition between (lo hi c : ascii) : bool :=
  (nat_of_ascii lo <=? nat_of_ascii c)%nat
  && (nat_of_ascii c <=? nat_of_ascii hi)%nat.

Definition digit (c : ascii) : bool := between "0" "9" c.
Definition letter (c : ascii) : bool :=
  between "a" "z" c || between "A" "Z" c.
Definition alnum (c : ascii) : bool := letter c || digit c.
Definition alnumDash (c : ascii) : bool := alnum c || Ascii.eqb c "-".
Definition dot (c : ascii) : bool := Ascii.eqb c ".".

(** [/^[a-zA-Z0-9][a-zA-Z0-9-]{1,61}[a-zA-Z0-9](?:\.[a-zA-Z]{2,})+$/] *)
Definition domainPattern : regex :=
  Cat (Class alnum)
    (Cat (range 1 61 (Class alnumDash))
       (Cat (Class alnum)
          (plus (Cat (Class dot) (atLeast 2 (Class letter)))))).

(** [/^(?:[0-9]{1,3}\.){3}[0-9]{1,3}$/] *)
Definition ipPattern : regex :=
  Cat (times 3 (Cat (range 1 3 (Class digit)) (Class dot)))
      (range 1 3 (Class digit)).

Definition test (r : regex) (s : string) : bool := matches r s.

End Regex.

(** ** routes/api.js *)

Module Api.

Inductive payload :=
| JsonBody (j : json)
| TextBody (s : string).

Record response := {
  status : nat;
  body : payload
}.

Definition json_ok (j : json) : response :=
  {| status := 200; body := JsonBody j |}.

(** [{ success: false, message }] with status 400 *)
Definition badRequest (msg : string) : response :=
  {| status := 400;
     body := JsonBody (JsObj [("success", JsBool false);
                              ("message", JsStr msg)]) |}.

(** [{ success: false, message, error: error.message }] with status 500 *)
Definition serverError (msg : string) (err : error) : response :=
  {| status := 500;
     body := JsonBody (JsObj [("success", JsBool false);
                              ("message", JsStr msg);
                              ("error", JsStr (message err))]) |}.

Definition success (msg : string) : response :=
  json_ok (JsObj [("success", JsBool true); ("message", JsStr msg)]).

(** *** GET /api/status *)

Definition simulatedQueries (t1 t2 t3 : string) : list string :=
  [ "[" +:+ t1 +:+ "] DNS QUERY: netflix.com -> 1.1.1.1";
    "[" +:+ t2 +:+ "] DNS QUERY: spotify.com -> 8.8.8.8";
    "[" +:+ t3 +:+ "] DNS QUERY: hulu.com -> 1.1.1.1" ].

(** [lines.join('\n')] *)
Fixpoint join (l : list string) : string :=
  match l with
  | [] => ""
  | [x] => x
  | x :: rest => x +:+ Str.nl +:+ join rest
  end.

Definition readText (path : string) : M string :=
  let* d := Fs.readFile path in
  fun w => (Ok (Fs.text w d), w).

Definition countQueries : M Z :=
  try_catch
    (await Fs.mkdir "logs" in
     let* logContent :=
       try_catch (readText Logger.dnsLogPath)
         (fun _ => await Fs.writeFile Logger.dnsLogPath (Text "") in
                   ret "") in
     let lines := Str.split_lines logContent in
     let queryCount :=
       Z.of_nat (length (List.filter (Str.includes "DNS QUERY:") lines)) in
     if queryCount =? 0 then
       let* t1 := date_string in
       let* t2 := date_string in
       let* t3 := date_string in
       await Fs.writeFile Logger.dnsLogPath
               (Text (join (simulatedQueries t1 t2 t3) +:+ Str.nl)) in
       ret (Z.of_nat (length (simulatedQueries t1 t2 t3)))
     else ret queryCount)
    (fun err =>
       await Logger.error ("Failed to count DNS queries: "
                           +:+ message err) in
       ret 0).

Definition getStatus : M response :=
  try_catch
    (let* running :=
       try_catch (await Fs.access DnsConfig.CUSTOM_CONFIG_FILE in ret true)
                 (fun _ => ret false) in
     let* domainList := Config.getDomainList in
     let domainCount := match domains domainList with
                        | Some l => Z.of_nat (length l)
                        | None => 0
                        end in
     let version := "Smart DNS Proxy v1.0" in
     let* startTime := date_string in
     let uptime := "Running since " +:+ startTime in
     let* lastUpdate :=
       try_catch (await Fs.stat Config.CONFIG_PATH in date_string)
         (fun err =>
            await Logger.error ("Failed to get last update time: "
                                +:+ message err) in
            ret "Unknown") in
     let* queryCount := countQueries in
     let* cacheEntries :=
       try_catch
         (let* appConfig := Config.getConfig in
          match dnsServer appConfig with
          | None =>
              typeError
                "Cannot read properties of undefined (reading 'cacheSize')"
          | Some ds => ret (cacheSize ds)
          end)
         (fun err =>
            await Logger.error ("Failed to get cache entries: "
                                +:+ message err) in
            ret (JNum 0)) in
     let* appConfig := Config.getConfig in
     match dnsServer appConfig with
     | None =>
         typeError "Cannot read properties of undefined (reading 'port')"
     | Some ds =>
         ret (json_ok
                (JsObj ([("running", JsBool running);
                         ("version", JsStr version)]
                        ++ prop "port" (port ds)
                        ++ [("uptime", JsStr uptime);
                            ("lastUpdate", JsStr lastUpdate);
                            ("domainCount", JsNum domainCount);
                            ("queryCount", JsNum queryCount)]
                        ++ prop "cacheEntries" cacheEntries)))
     end)
    (fun err =>
       await Logger.error ("Error in /api/status: " +:+ message err) in
       ret (serverError "Failed to get status" err)).

(** *** POST /api/domains

    The handler on a request whose two fields are scalars (strings,
    numbers, booleans, [null], or missing), which [dnsconfig.addDomain]
    is modelled for.  [Request.postDomainsOf] below is the handler over
    any fields: an array is checked through its string form and can pass,
    an object can make the check throw. *)
Definition postDomains (d rv : jsval) : M response :=
  try_catch
    (if negb (truthy d) || negb (truthy rv) then
       ret (badRequest "Domain and resolveVia are required")
     else if negb (Regex.test Regex.domainPattern (toStr d)) then
       ret (badRequest "Invalid domain format")
     else if negb (Regex.test Regex.ipPattern (toStr rv)) then
       ret (badRequest "Invalid IP address format")
     else
       await DnsConfig.addDomain (toStr d) (toStr rv) in
       ret (success "Domain added successfully"))
    (fun err =>
       await Logger.error ("Error in POST /api/domains: "
                           +:+ message err) in
       ret (serverError "Failed to add domain" err)).

(** *** DELETE /api/domains/:domain *)
Definition deleteDomains (d : string) : M response :=
  try_catch
    (if String.eqb d "" then
       ret (badRequest "Domain parameter is required")
     else
       await DnsConfig.removeDomain d in
       ret (success "Domain removed successfully"))
    (fun err =>
       await Logger.error ("Error in DELETE /api/domains/" +:+ d +:+ ": "
                           +:+ message err) in
       ret (serverError "Failed to remove domain" err)).

(** *** GET /api/settings *)

(** [if (settings.webInterface && settings.webInterface.password)
       delete settings.webInterface.password] *)
Definition dropPassword (settings : appConfig) : appConfig :=
  match webInterface settings with
  | Some wi =>
      match password wi with
      | Some pw =>
          if truthyJson pw then
            {| dnsServer := dnsServer settings;
               alternativeDNS := alternativeDNS settings;
               webInterface :=
                 Some {| webPort := webPort wi;
                         enableAuth := enableAuth wi;
                         username := username wi;
                         password := None |} |}
          else settings
      | None => settings
      end
  | None => settings
  end.

Definition opt {A} (k : string) (f : A -> json) (o : option A)
    : list (string * json) :=
  match o with
  | Some a => [(k, f a)]
  | None => []
  end.

Definition jsonOfDnsServer (ds : dnsServerSettings) : json :=
  JsObj (prop "port" (port ds) ++ prop "cacheSize" (cacheSize ds)
         ++ prop "logQueries" (logQueries ds)).

Definition jsonOfWebInterface (wi : webInterfaceSettings) : json :=
  JsObj (prop "port" (webPort wi) ++ prop "enableAuth" (enableAuth wi)
         ++ prop "username" (username wi)
         ++ opt "password" (fun pw => pw) (password wi)).

(** The settings object as [res.json] sends it. *)
Definition jsonOfConfig (c : appConfig) : json :=
  JsObj (opt "dnsServer" jsonOfDnsServer (dnsServer c)
         ++ opt "alternativeDNS" (fun l => JsArr (map JsStr l))
                (alternativeDNS c)
         ++ opt "webInterface" jsonOfWebInterface (webInterface c)).

Definition getSettings : M response :=
  try_catch
    (let* settings := Config.getConfig in
     ret (json_ok (jsonOfConfig (dropPassword settings))))
    (fun err =>
       await Logger.error ("Error in GET /api/settings: "
                           +:+ message err) in
       ret (serverError "Failed to get settings" err)).

(** *** POST /api/settings

    The handler on a body of the settings shape: [dnsServer] and
    [webInterface] objects or missing, [alternativeDNS] an array of
    strings or missing.  [Request.postSettingsOf] below is the handler
    over any body. *)
Definition postSettings (settings : appConfig) : M response :=
  try_catch
    (match dnsServer settings, alternativeDNS settings,
           webInterface settings with
     | Some _, Some _, Some _ =>
         await Config.saveConfig settings in
         await DnsConfig.updateDNSConfig in
         ret (success "Settings updated successfully")
     | _, _, _ => ret (badRequest "Invalid settings format")
     end)
    (fun err =>
       await Logger.error ("Error in POST /api/settings: "
                           +:+ message err) in
       ret (serverError "Failed to update settings" err)).

End Api.

(** ** The request bodies as they arrive (routes/api.js)

    [express.json()] hands a handler any JSON value, and a property that
    the body lacks reads as [undefined] ([None] below).  The two POST
    handlers are given here over any such values, with the operations of
    config.js and dnsconfig.js that they call as parameters: these
    operations are modelled, in [Config] and [DnsConfig], for stored
    documents whose settings are records and whose entries have string
    fields, and [Api.postDomains] and [Api.postSettings] are the two
    handlers on requests of that shape. *)

Module Request.
Import Api.

(** [!v] is false *)
Definition truthyReq (v : option json) : bool :=
  match v with
  | Some j => truthyJson j
  | None => false
  end.

(** [arr.join(',')] *)
Fixpoint joinComma (l : list string) : string :=
  match l with
  | [] => ""
  | [x] => x
  | x :: rest => x +:+ "," +:+ joinComma rest
  end.

(** The conversion to a string that [RegExp.prototype.test] applies to its
    argument; [None] when it throws.  An array is the strings of its
    elements joined by commas, [null] counting as the empty string.  An
    object is ["[object Object]"], unless it has a property [toString] of
    its own: that property is no function, [valueOf] gives no primitive,
    and the conversion throws a [TypeError]. *)
Fixpoint toString (j : json) : option string :=
  match j with
  | JsNull => Some "null"
  | JsBool true => Some "true"
  | JsBool false => Some "false"
  | JsNum n => Some (pretty n)
  | JsStr s => Some s
  | JsArr l =>
      joinComma <$>
        (fix elements (l : list json) : option (list string) :=
           match l with
           | [] => Some []
           | x :: rest =>
               match (match x with
                      | JsNull => Some ""
                      | _ => toString x
                      end), elements rest with
               | Some s, Some ss => Some (s :: ss)
               | _, _ => None
               end
           end) l
  | JsObj fields =>
      if existsb (String.eqb "toString") (map fst fields) then None
      else Some "[object Object]"
  end.

Definition toStringReq (v : option json) : option string :=
  match v with
  | Some j => toString j
  | None => Some "undefined"
  end.

Definition coerce (v : option json) : M string :=
  match toStringReq v with
  | Some s => ret s
  | None => typeError "Cannot convert object to primitive value"
  end.

(** *** POST /api/domains, with [dnsconfig.addDomain] as a parameter *)
Definition postDomainsOf (addDomain : option json -> option json -> M bool)
    (d rv : option json) : M response :=
  try_catch
    (if negb (truthyReq d) || negb (truthyReq rv) then
       ret (badRequest "Domain and resolveVia are required")
     else
       let* domainText := coerce d in
       if negb (Regex.test Regex.domainPattern domainText) then
         ret (badRequest "Invalid domain format")
       else
         let* resolveViaText := coerce rv in
         if negb (Regex.test Regex.ipPattern resolveViaText) then
           ret (badRequest "Invalid IP address format")
         else
           await addDomain d rv in
           ret (success "Domain added successfully"))
    (fun err =>
       await Logger.error ("Error in POST /api/domains: "
                           +:+ message err) in
       ret (serverError "Failed to add domain" err)).

(** *** POST /api/settings, with [config.saveConfig] and
    [dnsconfig.updateDNSConfig] as parameters *)
Definition postSettingsOf (saveConfig : json -> M bool)
    (updateDNSConfig : M bool) (settings : json) : M response :=
  try_catch
    (if negb (truthyReq (field "dnsServer" settings))
        || negb (truthyReq (field "alternativeDNS" settings))
        || negb (truthyReq (field "webInterface" settings)) then
       ret (badRequest "Invalid settings format")
     else
       await saveConfig settings in
       await updateDNSConfig in
       ret (success "Settings updated successfully"))
    (fun err =>
       await Logger.error ("Error in POST /api/settings: "
                           +:+ message err) in
       ret (serverError "Failed to update settings" err)).

(** *** What the guards make of a request *)

Inductive verdict :=
| Passes      (* the work is done *)
| Refused     (* a guard answers 400 *)
| Throws.     (* a conversion to a string throws *)

(** The guards of POST /api/domains, in their order. *)
Definition domainVerdict (d rv : option json) : verdict :=
  if negb (truthyReq d) || negb (truthyReq rv) then Refused
  else match toStringReq d with
       | None => Throws
       | Some domainText =>
           if negb (Regex.test Regex.domainPattern domainText) then Refused
           else match toStringReq rv with
                | None => Throws
                | Some resolveViaText =>
                    if negb (Regex.test Regex.ipPattern resolveViaText)
                    then Refused
                    else Passes
                end
       end.

(** The guard of POST /api/settings. *)
Definition settingsPass (settings : json) : bool :=
  truthyReq (field "dnsServer" settings)
  && truthyReq (field "alternativeDNS" settings)
  && truthyReq (field "webInterface" settings).

(** A scalar as a request field. *)
Definition ofScalar (v : jsval) : option json :=
  match v with
  | JUndefined => None
  | JNull => Some JsNull
  | JBool b => Some (JsBool b)
  | JNum n => Some (JsNum n)
  | JStr s => Some (JsStr s)
  end.

End Request.

(** ** The override matching the specification asks for

    Modelled from the spec's words (section 4.1), for comparison with the
    code's lookup: exact match first, then progressively shorter parent
    suffixes; the longest matching suffix wins. *)

Module Spec.

(** The parent domains of a name, longest first: for [www.netflix.com],
    [netflix.com] and [com]. *)
Fixpoint parents (s : string) : list string :=
  match s with
  | "" => []
  | String c s' =>
      if Ascii.eqb c "." then s' :: parents s' else parents s'
  end.

(** The candidates in the order they are tried: the name itself, then
    its parents. *)
Definition suffixes (s : string) : list string := s :: parents s.

Definition exact (d : string) (l : list overrideEntry) : option string :=
  resolveVia <$> List.find (fun e => String.eqb (domain e) d) l.

Fixpoint firstMatch (candidates : list string) (l : list overrideEntry)
    : option string :=
  match candidates with
  | [] => None
  | d :: rest =>
      match exact d l with
      | Some upstream => Some upstream
      | None => firstMatch rest l
      end
  end.

(** [resolveTarget(domain)]: the override's upstream, [None] for the
    default pool. *)
Definition resolveTarget (d : string) (l : list overrideEntry)
    : option string :=
  firstMatch (suffixes d) l.

(** The status object the specification announces (section 6):
    [{running, activeUpstreams, cacheSize, totalQueries}]. *)
Definition statusShape (j : json) : Prop :=
  keys j = ["running"; "activeUpstreams"; "cacheSize"; "totalQueries"]
  /\ exists b, field "running" j = Some (JsBool b).

(** Validated settings fields (section 9): a port within the port range,
    an upstream in IPv4 or host-name format. *)
Definition validPort (v : jsval) : bool :=
  match v with
  | JNum n => (1 <=? n) && (n <=? 65535)
  | _ => false
  end.

Definition hostChar (c : ascii) : bool :=
  Regex.alnumDash c || Regex.dot c.

Definition validUpstream (s : string) : bool :=
  Regex.test Regex.ipPattern s
  || Regex.test (Regex.plus (Regex.Class hostChar)) s.

Definition validSettings (c : appConfig) : Prop :=
  (forall ds, dnsServer c = Some ds -> validPort (port ds) = true)
  /\ (forall wi, webInterface c = Some wi -> validPort (webPort wi) = true)
  /\ (forall alt, alternativeDNS c = Some alt ->
                  Forall (fun a => validUpstream a = true) alt).

End Spec.

(** ** The forwarder's reading of its configuration file

    The forwarder ignores blank lines and comment lines; what is left are
    the directives, in file order. *)

Module Forwarder.

Definition isDirective (line : string) : bool :=
  negb (String.eqb line "") && negb (String.prefix "#" line).

Definition directives (content : string) : list string :=
  List.filter isDirective (Str.split_lines content).

(** The directive that sends the default traffic to [dns]. *)
Definition serverLine (dns : string) : string :=
  "server=" +:+ dns +:+ Str.nl.

(** The directive that sends [domain item] to [resolveVia item]. *)
Definition overrideLine (item : overrideEntry) : string :=
  "server=/" +:+ domain item +:+ "/" +:+ resolveVia item +:+ Str.nl.

End Forwarder.

(** ** Predicates of the statements *)

Module Props.
Import Config DnsConfig Forwarder Api.

(** *** Frame: a computation that leaves the file at [p] alone *)

Definition keeps (p : string) {A} (m : M A) : Prop :=
  forall w, files (m w).2 !! p = files w !! p.

(** *** Calm worlds: no I/O fault pending *)

Definition calm (w : world) : Prop := faults w = [].

(** The coming file-system call is not made to fail. *)
Definition unfaulted (w : world) : Prop :=
  forall msg rest, faults w <> Some msg :: rest.

(** What one logger call may do to the world: add console lines and
    touch its own log file. *)
Record logged (logPath : string) (w w' : world) : Prop := {
  logged_files : forall p, p <> logPath -> files w' !! p = files w !! p;
  logged_console : console w `prefix_of` console w';
  logged_calm : calm w -> calm w';
  logged_clock : clock w' = clock w;
}.

(** The two ways [addDomain] changes the array. *)
Inductive added (d rv : string) (l : list overrideEntry)
    : list overrideEntry -> Prop :=
| added_pushed :
    d ∉ domain <$> l ->
    added d rv l (l ++ [ {| domain := d; resolveVia := rv |} ])
| added_replaced l1 x l2 :
    l = l1 ++ x :: l2 -> domain x = d -> d ∉ domain <$> l1 ->
    added d rv l (l1 ++ {| domain := d; resolveVia := rv |} :: l2).

(** The part of the file below the two heading comments. *)
Definition domainBlock (dl : domainList) : string :=
  match domains dl with
  | Some ((_ :: _) as items) => Str.concat_map overrideLine items
  | _ => "# No domains configured yet" +:+ Str.nl
  end.

Definition settingsBlock (ds : dnsServerSettings) : string :=
  "# Basic configuration" +:+ Str.nl
  +:+ "port=" +:+ toStr (port ds) +:+ Str.nl
  +:+ "cache-size=" +:+ toStr (cacheSize ds) +:+ Str.nl
  +:+ "log-queries="
  +:+ (if truthy (logQueries ds) then "true" else "false")
  +:+ Str.nl +:+ Str.nl.

Definition body (ds : dnsServerSettings) (alt : list string)
    (dl : domainList) : string :=
  settingsBlock ds
  +:+ "# Alternative DNS servers" +:+ Str.nl
  +:+ Str.concat_map serverLine alt
  +:+ Str.nl +:+ "# Domain specific configurations" +:+ Str.nl
  +:+ domainBlock dl.

(** Every piece a loop appends ends its line, so each piece starts a
    line of its own. *)
Definition ends_line {A} (f : A -> string) : Prop :=
  forall x, exists s, f x = s +:+ Str.nl.

Definition statusKeys : list string :=
  ["running"; "version"; "port"; "uptime"; "lastUpdate"; "domainCount";
   "queryCount"; "cacheEntries"].

(** The guards of POST /api/domains, taken together, on scalar fields. *)
Definition entryAccepted (d rv : jsval) : bool :=
  truthy d && truthy rv
  && Regex.test Regex.domainPattern (toStr d)
  && Regex.test Regex.ipPattern (toStr rv).

(** The guard of POST /api/settings. *)
Definition settingsAccepted (c : appConfig) : bool :=
  match dnsServer c, alternativeDNS c, webInterface c with
  | Some _, Some _, Some _ => true
  | _, _, _ => false
  end.

Definition withPassword (pw : option string) (c : appConfig) : appConfig :=
  {| dnsServer := dnsServer c;
     alternativeDNS := alternativeDNS c;
     webInterface :=
       match webInterface c with
       | Some wi => Some {| webPort := webPort wi;
                            enableAuth := enableAuth wi;
                            username := username wi;
                            password := JsStr <$> pw |}
       | None => None
       end |}.

Definition passwordOf (j : json) : option json :=
  field "webInterface" j ≫= field "password".

(** *** The alphabet of a pattern *)

(** Every character class of [r] lies within [P]. *)
Fixpoint within (P : ascii -> bool) (r : Regex.regex) : Prop :=
  match r with
  | Regex.Void | Regex.Eps => True
  | Regex.Class p => forall c, p c = true -> P c = true
  | Regex.Cat r1 r2 | Regex.Alt r1 r2 => within P r1 /\ within P r2
  | Regex.Star r0 => within P r0
  end.

(** A pattern that visibly matches nothing. *)
Fixpoint dead (r : Regex.regex) : bool :=
  match r with
  | Regex.Void => true
  | Regex.Cat r1 r2 => dead r1 || dead r2
  | Regex.Alt r1 r2 => dead r1 && dead r2
  | _ => false
  end.

Fixpoint all_chars (P : ascii -> bool) (s : string) : bool :=
  match s with
  | "" => true
  | String c s' => P c && all_chars P s'
  end.

(** Letters, digits, dash and dot: what a domain name is made of. *)
Definition domainChar (c : ascii) : bool := Regex.alnumDash c || Regex.dot c.

(** Digits and dot: what a dotted quad is made of. *)
Definition quadChar (c : ascii) : bool := Regex.digit c || Regex.dot c.

End Props.

(** ** Example worlds and inputs *)

Module Examples.
Import Config DnsConfig Props.

Definition netflix : overrideEntry :=
  {| domain := "netflix.com"; resolveVia := "1.1.1.1" |}.

Definition www_netflix : overrideEntry :=
  {| domain := "www.netflix.com"; resolveVia := "9.9.9.9" |}.

Definition table_world (l : list overrideEntry) : world :=
  {| files := {[ IPS_PATH := Json (DomainsDoc {| domains := Some l |}) ]};
     console := []; faults := []; clock := fun _ => "2024-01-01T00:00:00.000Z";
     ticks := 0; JSON_stringify := fun _ => "{}";
     torn := fun _ => None |}.

(** The world just before a reload, with a forwarder configuration
    already generated and a settings file that cannot be parsed. *)
Definition broken_settings_world : world :=
  {| files := {[ CONFIG_PATH := Text "{ not json";
                 IPS_PATH := Json (DomainsDoc defaultIpList);
                 CUSTOM_CONFIG_FILE := Text "port=53" ]};
     console := []; faults := [];
     clock := fun _ => "2024-01-01T00:00:00.000Z";
     ticks := 0; JSON_stringify := fun _ => "{}";
     torn := fun _ => None |}.

(** A first start: nothing on disk, no fault pending, and a clock that
    alternates between two instants. *)
Definition fresh_world : world :=
  {| files := ∅; console := []; faults := [];
     clock := fun n => if Nat.even n then "2024-01-01T00:00:00.000Z"
                       else "2024-06-30T12:00:00.000Z";
     ticks := 0; JSON_stringify := fun _ => "{}";
     torn := fun _ => None |}.

(** A running console whose next file-system call fails: the disk is
    full. *)
Definition disk_full_world : world :=
  {| files := {[ Logger.dnsLogPath := Text "" ]};
     console := []; faults := [Some "ENOSPC: no space left on device"];
     clock := fun _ => "2024-01-01T00:00:00.000Z";
     ticks := 0; JSON_stringify := fun _ => "{}";
     torn := fun _ => None |}.

(** Settings with a port outside the port range and an upstream that is
    neither an IPv4 address nor a host name. *)
Definition unchecked_settings : appConfig :=
  {| dnsServer := Some {| port := JNum 70000; cacheSize := JNum 1000;
                          logQueries := JBool true |};
     alternativeDNS := Some ["not an address!"];
     webInterface := Some {| webPort := JNum 5000;
                             enableAuth := JBool false;
                             username := JStr "admin";
                             password := None |} |}.

(** A console whose stored settings are the defaults but for the
    password. *)
Definition settings_world (pw : string) : world :=
  {| files := {[ Config.CONFIG_PATH :=
                   Json (ConfigDoc (withPassword (Some pw) defaultConfig));
                 Config.IPS_PATH := Json (DomainsDoc defaultIpList) ]};
     console := []; faults := [];
     clock := fun _ => "2024-01-01T00:00:00.000Z";
     ticks := 0; JSON_stringify := fun _ => "{}";
     torn := fun _ => None |}.

(** A console whose forwarder file was generated from the stored
    settings and overrides, at the moment these are generated again and
    the write fails after 240 characters (the access-log append before it
    goes through). *)
Definition torn_write_world : world :=
  {| files := {[ Config.CONFIG_PATH := Json (ConfigDoc defaultConfig);
                 Config.IPS_PATH := Json (DomainsDoc defaultIpList);
                 DnsConfig.CUSTOM_CONFIG_FILE :=
                   Text (DnsConfig.configContent "2023-12-31T00:00:00.000Z"
                           {| port := JNum 53; cacheSize := JNum 1000;
                              logQueries := JBool true |}
                           ["8.8.8.8"; "1.1.1.1"] defaultIpList) ]};
     console := [];
     faults := [None; Some "ENOSPC: no space left on device, write"];
     torn := fun _ => Some 240%nat;
     clock := fun _ => "2024-01-01T00:00:00.000Z";
     ticks := 0; JSON_stringify := fun _ => "{}" |}.

End Examples.

Import Props Examples.

(** ** routes/api.js, the other endpoints *)

Module ApiMore.
Import Api.

(** *** GET /api/domains *)

Definition jsonOfEntry (e : overrideEntry) : json :=
  JsObj [("domain", JsStr (domain e)); ("resolveVia", JsStr (resolveVia e))].

Definition jsonOfDomainList (dl : domainList) : json :=
  JsObj (opt "domains" (fun l => JsArr (map jsonOfEntry l)) (domains dl)).

Definition getDomains : M response :=
  try_catch
    (let* domainList := Config.getDomainList in
     ret (json_ok (jsonOfDomainList domainList)))
    (fun err =>
       await Logger.error ("Error in GET /api/domains: " +:+ message err) in
       ret (serverError "Failed to get domains list" err)).

(** *** GET /api/logs/:type *)

(** The [switch] on the log type: the file to serve, if any. *)
Definition logPathOf (type : string) : option string :=
  if String.eqb type "dns" then Some Logger.dnsLogPath
  else if String.eqb type "access" then Some Logger.accessLogPath
  else if String.eqb type "error" then Some Logger.errorLogPath
  else None.

Definition sampleDnsLog (t1 t2 t3 t4 t5 : string) : string :=
  join [ "[" +:+ t1 +:+ "] DNS QUERY: netflix.com -> 1.1.1.1";
         "[" +:+ t2 +:+ "] DNS QUERY: spotify.com -> 8.8.8.8";
         "[" +:+ t3 +:+ "] DNS QUERY: hulu.com -> 1.1.1.1";
         "[" +:+ t4 +:+ "] DNS QUERY: amazon.com -> 8.8.8.8";
         "[" +:+ t5 +:+ "] INFO: DNS service restarted" ] +:+ Str.nl.

Definition sampleAccessLog (t1 t2 t3 t4 t5 : string) : string :=
  join [ "[" +:+ t1 +:+ "] INFO: GET /";
         "[" +:+ t2 +:+ "] INFO: GET /api/status";
         "[" +:+ t3 +:+ "] INFO: GET /api/domains";
         "[" +:+ t4 +:+ "] INFO: POST /api/domains";
         "[" +:+ t5 +:+ "] INFO: GET /api/settings" ] +:+ Str.nl.

(** The sample data written when the log file is not there. *)
Definition sampleData (type : string) : M string :=
  if String.eqb type "dns" then
    let* t1 := date_string in
    let* t2 := date_string in
    let* t3 := date_string in
    let* t4 := date_string in
    let* t5 := date_string in
    ret (sampleDnsLog t1 t2 t3 t4 t5)
  else if String.eqb type "access" then
    let* t1 := date_string in
    let* t2 := date_string in
    let* t3 := date_string in
    let* t4 := date_string in
    let* t5 := date_string in
    ret (sampleAccessLog t1 t2 t3 t4 t5)
  else ret "".

Definition textResponse (code : nat) (s : string) : response :=
  {| status := code; body := TextBody s |}.

Definition getLogs (type : string) : M response :=
  try_catch
    (match logPathOf type with
     | None => ret (badRequest "Invalid log type")
     | Some logPath =>
         await Fs.mkdir "logs" in
         await try_catch (Fs.access logPath)
                 (fun _ =>
                    let* data := sampleData type in
                    Fs.writeFile logPath (Text data)) in
         let* logContent := readText logPath in
         ret (textResponse 200 logContent)
     end)
    (fun err =>
       await Logger.error ("Error in GET /api/logs/" +:+ type +:+ ": "
                           +:+ message err) in
       ret (textResponse 500 ("Error retrieving logs: " +:+ message err))).

(** *** POST /api/logs/clear *)

Definition clearLogs : M response :=
  try_catch
    (await Fs.mkdir "logs" in
     await Fs.writeFile Logger.dnsLogPath (Text "") in
     await Fs.writeFile Logger.accessLogPath (Text "") in
     await Fs.writeFile Logger.errorLogPath (Text "") in
     await Logger.info "Logs cleared by user" in
     ret (success "Logs cleared successfully"))
    (fun err =>
       await Logger.error ("Error in POST /api/logs/clear: "
                           +:+ message err) in
       ret (serverError "Failed to clear logs" err)).

End ApiMore.

(** ** scripts/configure-dnsmasq.js

    The start-up script that writes the same kind of file below
    [/etc/dnsmasq.d] and makes the forwarder's main configuration include
    that directory.  It ends the process with status 1 on any error. *)

Module Script.

Definition CONFIG_PATH : string := Config.CONFIG_PATH.
Definition IP_LIST_PATH : string := Config.IPS_PATH.
Definition DNSMASQ_CONFIG_PATH : string := "/etc/dnsmasq.conf".
Definition DNSMASQ_CUSTOM_CONF_DIR : string := "/etc/dnsmasq.d".
Definition CUSTOM_CONFIG_FILE : string := "/etc/dnsmasq.d/smartdns.conf".

Definition confDirDirective : string := "conf-dir=/etc/dnsmasq.d".

Definition includeLines : string :=
  Str.nl +:+ "# Include configuration directory" +:+ Str.nl
  +:+ confDirDirective +:+ Str.nl.

(** The text built in [dnsmasqConfig], statement by statement. *)
Definition dnsmasqConfig (generatedAt : string) (ds : dnsServerSettings)
    (alt : list string) (items : list overrideEntry) : string :=
  let c := "# Smart DNS Proxy configuration" +:+ Str.nl in
  let c := c +:+ ("# Generated at " +:+ generatedAt +:+ Str.nl +:+ Str.nl) in
  let c := c +:+ ("# Basic configuration" +:+ Str.nl) in
  let c := c +:+ ("port=" +:+ toStr (port ds) +:+ Str.nl) in
  let c := c +:+ ("cache-size=" +:+ toStr (cacheSize ds) +:+ Str.nl) in
  let c := c +:+ ("log-queries="
                  +:+ (if truthy (logQueries ds) then "true" else "false")
                  +:+ Str.nl +:+ Str.nl) in
  let c := c +:+ ("# Alternative DNS servers" +:+ Str.nl) in
  let c := Arr.forEach_append
             (fun dns => "server=" +:+ dns +:+ Str.nl) alt c in
  let c := c +:+ (Str.nl +:+ "# Domain specific configurations" +:+ Str.nl) in
  Arr.forEach_append
    (fun item => "server=/" +:+ domain item +:+ "/"
                 +:+ resolveVia item +:+ Str.nl) items c.

(** Reading both stored documents, or creating the defaults when either
    read fails. *)
Definition readOrCreate : M (fileData * fileData) :=
  try_catch
    (let* configData := Fs.readFile CONFIG_PATH in
     let* ipListData := Fs.readFile IP_LIST_PATH in
     ret (configData, ipListData))
    (fun err =>
       await console_error ("Error reading configuration files: "
                            +:+ message err) in
       await console_log "Creating default configuration..." in
       await Fs.mkdir Config.DATA_DIR in
       await Fs.writeFile CONFIG_PATH (Json (ConfigDoc defaultConfig)) in
       await Fs.writeFile IP_LIST_PATH (Json (DomainsDoc defaultIpList)) in
       ret (Json (ConfigDoc defaultConfig), Json (DomainsDoc defaultIpList))).

(** Making the main configuration include the directory, once. *)
Definition ensureConfDir : M unit :=
  let* mainConfigContent :=
    try_catch (Api.readText DNSMASQ_CONFIG_PATH)
      (fun _ =>
         await console_log ("Creating main dnsmasq configuration at "
                            +:+ DNSMASQ_CONFIG_PATH) in
         ret "") in
  if negb (Str.includes confDirDirective mainConfigContent) then
    await Fs.writeFile DNSMASQ_CONFIG_PATH
            (Text (mainConfigContent +:+ includeLines)) in
    console_log "Updated main dnsmasq configuration"
  else ret tt.

(** [configureService], returning the status the process ends with. *)
Definition configureService : M Z :=
  try_catch
    (await console_log "Configuring dnsmasq service..." in
     let* data := readOrCreate in
     let* configDoc := Config.JSON_parse data.1 in
     let* ipDoc := Config.JSON_parse data.2 in
     let config := Config.asConfig configDoc in
     let ipList := Config.asDomainList ipDoc in
     let* generatedAt := date_string in
     match dnsServer config with
     | None =>
         typeError "Cannot read properties of undefined (reading 'port')"
     | Some ds =>
         match alternativeDNS config with
         | None =>
             typeError
               "Cannot read properties of undefined (reading 'forEach')"
         | Some alt =>
             match domains ipList with
             | None =>
                 typeError
                   "Cannot read properties of undefined (reading 'forEach')"
             | Some items =>
                 await Fs.mkdir DNSMASQ_CUSTOM_CONF_DIR in
                 await Fs.writeFile CUSTOM_CONFIG_FILE
                         (Text (dnsmasqConfig generatedAt ds alt items)) in
                 await console_log ("Dnsmasq configuration written to "
                                    +:+ CUSTOM_CONFIG_FILE) in
                 await ensureConfDir in
                 await console_log
                         "Dnsmasq configuration completed successfully" in
                 ret 0
             end
         end
     end)
    (fun err =>
       await console_error ("Error configuring dnsmasq: " +:+ message err) in
       ret 1).

End Script.

(** ** app.js *)

Module App.

(** The logging middleware in front of every route. *)
Definition logged_request (method path : string)
    (handler : M Api.response) : M Api.response :=
  await Logger.info (method +:+ " " +:+ path) in
  handler.

(** The callback of [app.listen]: the server announces itself and
    initialises the DNS configuration; a failed initialisation is logged. *)
Definition onListen (PORT : string) : M unit :=
  await Logger.info ("Server started on port " +:+ PORT) in
  try_catch
    (await DnsConfig.initializeDNSConfig in
     Logger.info "DNS configuration initialized successfully")
    (fun err =>
       Logger.error ("Failed to initialize DNS configuration: "
                     +:+ message err)).

End App.

(** ** Predicates of the further properties *)

Module MoreProps.
Import Config DnsConfig Forwarder.

(** *** Directives *)

(** The three directives of the settings. *)
Definition settingLines (ds : dnsServerSettings) : list string :=
  [ "port=" +:+ toStr (port ds);
    "cache-size=" +:+ toStr (cacheSize ds);
    "log-queries=" +:+ (if truthy (logQueries ds) then "true" else "false") ].

Definition serverDirective (dns : string) : string := "server=" +:+ dns.

Definition overrideDirective (item : overrideEntry) : string :=
  "server=/" +:+ domain item +:+ "/" +:+ resolveVia item.

(** The entries a domain list holds, none when [domains] is missing. *)
Definition storedEntries (dl : domainList) : list overrideEntry :=
  match domains dl with
  | Some l => l
  | None => []
  end.

(** An entry without line feed in its two fields. *)
Definition plainEntry (item : overrideEntry) : bool :=
  Str.no_LF (domain item) && Str.no_LF (resolveVia item).

(** The part of the script's file below its two heading comments. *)
Definition scriptBody (ds : dnsServerSettings) (alt : list string)
    (items : list overrideEntry) : string :=
  settingsBlock ds
  +:+ "# Alternative DNS servers" +:+ Str.nl
  +:+ Str.concat_map serverLine alt
  +:+ Str.nl +:+ "# Domain specific configurations" +:+ Str.nl
  +:+ Str.concat_map overrideLine items.

(** *** Worlds *)

(** The two stored documents are there and well formed. *)
Definition stored (c : appConfig) (l : list overrideEntry) (w : world)
    : Prop :=
  files w !! CONFIG_PATH = Some (Json (ConfigDoc c))
  /\ files w !! IPS_PATH = Some (Json (DomainsDoc {| domains := Some l |})).

(** The number of lines of the DNS log that record a query, as the status
    endpoint counts them (a missing log counts as empty). *)
Definition queryLines (w : world) : Z :=
  Z.of_nat (length (List.filter (Str.includes "DNS QUERY:")
                      (Str.split_lines
                         (match files w !! Logger.dnsLogPath with
                          | Some d => Fs.text w d
                          | None => ""
                          end)))).

(** From [w] to [w'] only the files at [ps] may have changed, and no
    I/O fault is pending afterwards. *)
Record steady (ps : list string) (w w' : world) : Prop := {
  steady_files : forall p, p ∉ ps -> files w' !! p = files w !! p;
  steady_calm : calm w';
  steady_stringify : JSON_stringify w' = JSON_stringify w;
}.

(** The text of the file at [p], the empty text when there is none. *)
Definition textAt (w : world) (p : string) : string :=
  match files w !! p with
  | Some d => Fs.text w d
  | None => ""
  end.

(** What a successful reload leaves behind. *)
Record reloaded (ds : dnsServerSettings) (alt : list string)
    (l : list overrideEntry) (w w' : world) : Prop := {
  reloaded_steady :
    steady [Logger.accessLogPath; CUSTOM_CONFIG_FILE; Logger.dnsLogPath;
            REPORT_PATH] w w';
  reloaded_config :
    exists generatedAt,
      files w' !! CUSTOM_CONFIG_FILE
      = Some (Text (configContent generatedAt ds alt {| domains := Some l |}));
  reloaded_log :
    exists now,
      files w' !! Logger.dnsLogPath
      = Some (Text (textAt w Logger.dnsLogPath
                    +:+ "[" +:+ now +:+ "] INFO: DNS service restarted"
                    +:+ Str.nl));
  reloaded_report :
    exists now,
      files w' !! REPORT_PATH
      = Some (Json (ReportDoc {| timestamp := now;
                                 totalDomains := length l;
                                 reportDomains := l;
                                 dnsServers := countServers l |}));
}.

(** The number of entries of [l] that are resolved via [s]. *)
Definition resolvedVia (s : string) (l : list overrideEntry) : nat :=
  length (filter (fun e => resolveVia e = s) l).

(** The number a count of the table stands for, [0] for none and for
    [NaN]. *)
Definition tallied (o : option tally) : nat :=
  match o with
  | Some (Tally n) => n
  | _ => O
  end.

(** The report of the entries [l], made at [now]. *)
Definition reportOf (now : string) (l : list overrideEntry) : bypassReport :=
  {| timestamp := now;
     totalDomains := length l;
     reportDomains := l;
     dnsServers := countServers l |}.

(** The two steps by which [ensureConfigExists] creates a missing stored
    document. *)
Definition createDefault (path : string) (doc : jsonDoc) (msg : string)
    : M unit :=
  await Logger.info msg in
  await Fs.mkdir DATA_DIR in
  Fs.writeFile path (Json doc).

End MoreProps.

Import MoreProps.

(** ** More example worlds *)

Module MoreExamples.
Import Config DnsConfig.

Definition defaultServer : dnsServerSettings :=
  {| port := JNum 53; cacheSize := JNum 1000; logQueries := JBool true |}.

Definition defaultEntries : list overrideEntry :=
  [ {| domain := "netflix.com"; resolveVia := "1.1.1.1" |};
    {| domain := "spotify.com"; resolveVia := "8.8.8.8" |} ].

(** A console at rest: the stored settings are [c], the stored overrides
    [l], nothing else is on disk and no fault is pending. *)
Definition store_world (c : appConfig) (l : list overrideEntry) : world :=
  {| files := {[ CONFIG_PATH := Json (ConfigDoc c);
                 IPS_PATH := Json (DomainsDoc {| domains := Some l |}) ]};
     console := []; faults := [];
     clock := fun n => if Nat.even n then "2024-01-01T00:00:00.000Z"
                       else "2024-06-30T12:00:00.000Z";
     ticks := 0; JSON_stringify := fun _ => "{}";
     torn := fun _ => None |}.

(** A console whose stored domain list has lost its [domains] property. *)
Definition no_domains_world : world :=
  {| files := {[ CONFIG_PATH := Json (ConfigDoc defaultConfig);
                 IPS_PATH := Json (DomainsDoc {| domains := None |}) ]};
     console := []; faults := [];
     clock := fun _ => "2024-01-01T00:00:00.000Z";
     ticks := 0; JSON_stringify := fun _ => "{}";
     torn := fun _ => None |}.

(** A console at rest but for the eleventh file-system call to come, which
    fails: during a reload that is the append to the DNS log that stands
    for the restart of the forwarder. *)
Definition restart_fails_world : world :=
  {| files := {[ CONFIG_PATH := Json (ConfigDoc defaultConfig);
                 IPS_PATH := Json (DomainsDoc defaultIpList) ]};
     console := [];
     faults := replicate 10 None ++ [Some "EIO: i/o error, write"];
     clock := fun _ => "2024-01-01T00:00:00.000Z";
     ticks := 0; JSON_stringify := fun _ => "{}";
     torn := fun _ => None |}.

(** A console whose settings were changed, at the moment the next check
    for the settings file fails. *)
Definition check_fails_world : world :=
  {| files := {[ CONFIG_PATH := Json (ConfigDoc unchecked_settings);
                 IPS_PATH := Json (DomainsDoc defaultIpList) ]};
     console := [];
     faults := [Some "EMFILE: too many open files, access"];
     clock := fun _ => "2024-01-01T00:00:00.000Z";
     ticks := 0; JSON_stringify := fun _ => "{}";
     torn := fun _ => None |}.

End MoreExamples.

Import MoreExamples.

(** ** The shape of the accepted names and addresses

    What the two validation patterns of routes/api.js accept, read off
    without regular expressions, and the language of a pattern. *)

Module Shape.
Import Regex.

(** The language of a pattern. *)
Inductive lang : regex -> string -> Prop :=
| lang_eps : lang Eps ""
| lang_class p c : p c = true -> lang (Class p) (String c "")
| lang_cat r1 r2 s1 s2 :
    lang r1 s1 -> lang r2 s2 -> lang (Cat r1 r2) (s1 +:+ s2)
| lang_alt_l r1 r2 s : lang r1 s -> lang (Alt r1 r2) s
| lang_alt_r r1 r2 s : lang r2 s -> lang (Alt r1 r2) s
| lang_star_nil r : lang (Star r) ""
| lang_star_cons r s1 s2 :
    lang r s1 -> lang (Star r) s2 -> lang (Star r) (s1 +:+ s2).

(** [s.split('.')]: the pieces between dots; never empty. *)
Fixpoint fields (s : string) : list string :=
  match s with
  | "" => [""]
  | String c s' =>
      if dot c then "" :: fields s'
      else match fields s' with
           | [] => [String c ""]
           | x :: rest => String c x :: rest
           end
  end.

(** One to three digits. *)
Definition digitGroup (x : string) : bool :=
  (1 <=? String.length x)%nat && (String.length x <=? 3)%nat
  && all_chars digit x.

(** Four groups of one to three digits, separated by dots. *)
Definition dottedQuad (s : string) : bool :=
  match fields s with
  | [a; b; c; d] =>
      digitGroup a && digitGroup b && digitGroup c && digitGroup d
  | _ => false
  end.

Fixpoint last_char (c : ascii) (s : string) : ascii :=
  match s with
  | "" => c
  | String c' s' => last_char c' s'
  end.

(** Three to 63 letters, digits and dashes, the first and the last no
    dash. *)
Definition firstLabel (x : string) : bool :=
  match x with
  | "" => false
  | String h rest =>
      (3 <=? String.length x)%nat && (String.length x <=? 63)%nat
      && alnum h && alnum (last_char h rest) && all_chars alnumDash x
  end.

(** Two letters or more. *)
Definition letterLabel (x : string) : bool :=
  (2 <=? String.length x)%nat && all_chars letter x.

(** A first label and at least one further label of letters only. *)
Definition domainShape (s : string) : bool :=
  match fields s with
  | first :: l1 :: rest => firstLabel first && forallb letterLabel (l1 :: rest)
  | _ => false
  end.

Definition no_dot (x : string) : bool := all_chars (fun c => negb (dot c)) x.

Definition concat_dot (labels : list string) : string :=
  Str.concat_map (fun l => "." +:+ l) labels.

End Shape.
Import Shape.

(** * Verification *)

(** ** Facts about strings *)

Module StrFacts.

Lemma app_nil_r (s : string) : s +:+ "" = s.
Proof.
  induction s as [|c s IH]; [done|].
  change (String c (s +:+ "") = String c s). by rewrite IH.
Qed.

Lemma app_assoc (a b c : string) : (a +:+ b) +:+ c = a +:+ b +:+ c.
Proof.
  induction a as [|x a IH]; [done|].
  change (String x ((a +:+ b) +:+ c) = String x (a +:+ b +:+ c)).
  by rewrite IH.
Qed.

Lemma eqb_false_iff (a b : string) : String.eqb a b = false <-> a <> b.
Proof. apply String.eqb_neq. Qed.

(** A [forEach] that appends is the accumulator followed by the pieces in
    list order. *)
Lemma forEach_append_concat {A} (f : A -> string) (l : list A) acc :
  Arr.forEach_append f l acc = acc +:+ Str.concat_map f l.
Proof.
  unfold Arr.forEach_append. revert acc.
  induction l as [|x l IH]; intros acc; cbn [fold_left Str.concat_map fold_right].
  - by rewrite app_nil_r.
  - rewrite IH. unfold Str.concat_map. by rewrite app_assoc.
Qed.

Lemma concat_map_split {A} (f : A -> string) (l1 l2 : list A) x :
  Str.concat_map f (l1 ++ x :: l2)
  = Str.concat_map f l1 +:+ f x +:+ Str.concat_map f l2.
Proof.
  induction l1 as [|y l1 IH]; [done|].
  change (f y +:+ Str.concat_map f (l1 ++ x :: l2)
          = (f y +:+ Str.concat_map f l1) +:+ f x +:+ Str.concat_map f l2).
  by rewrite IH, app_assoc.
Qed.

End StrFacts.

(** ** Facts about arrays *)

Module ArrFacts.

Section FindIndex.
Context {A : Type} (p : A -> bool).

Lemma findIndex_range (l : list A) :
  -1 <= Arr.findIndex p l < Z.of_nat (length l).
Proof.
  induction l as [|x l IH]; cbn [Arr.findIndex length]; [lia|].
  destruct (p x); [lia|].
  destruct (Z.eqb_spec (Arr.findIndex p l) (-1)); lia.
Qed.

Lemma findIndex_none (l : list A) :
  Arr.findIndex p l = -1 <-> Forall (fun x => p x = false) l.
Proof.
  induction l as [|x l IH]; cbn [Arr.findIndex].
  - split; [constructor | done].
  - destruct (p x) eqn:Hx.
    + split; [done|]. intros H. apply Forall_cons_1 in H as [H _].
      congruence.
    + pose proof (findIndex_range l) as Hr.
      destruct (Z.eqb_spec (Arr.findIndex p l) (-1)) as [Heq|Hne].
      * split; [|done]. intros _. constructor; [done|]. by apply IH.
      * split; [lia|]. intros H. apply Forall_cons_1 in H as [_ H].
        apply IH in H. done.
Qed.

(** A found index is that of the first element satisfying [p]. *)
Lemma findIndex_found (l : list A) :
  Arr.findIndex p l <> -1 ->
  exists l1 x l2,
    l = l1 ++ x :: l2 /\ p x = true
    /\ Forall (fun y => p y = false) l1
    /\ Z.to_nat (Arr.findIndex p l) = length l1.
Proof.
  induction l as [|x l IH]; cbn [Arr.findIndex]; [done|].
  destruct (p x) eqn:Hx.
  - intros _. exists [], x, l. by repeat split.
  - pose proof (findIndex_range l) as Hr.
    destruct (Z.eqb_spec (Arr.findIndex p l) (-1)) as [Heq|Hne]; [done|].
    intros _. destruct (IH Hne) as (l1 & y & l2 & -> & Hy & Hl1 & Hn).
    exists (x :: l1), y, l2. repeat split; [done| |].
    + by constructor.
    + cbn [length]. lia.
Qed.
End FindIndex.

End ArrFacts.

(** ** The override list (config.js) *)

Module ConfigFacts.
Import Config.

Lemma hasDomain_false (d : string) (l : list overrideEntry) :
  Forall (fun e => String.eqb (domain e) d = false) l <->
  d ∉ domain <$> l.
Proof.
  rewrite Forall_forall, list_elem_of_fmap. split.
  - intros H (e & -> & He). specialize (H e He).
    by rewrite String.eqb_refl in H.
  - intros H e He. apply String.eqb_neq. intros <-. apply H. eauto.
Qed.

Lemma addToList_added d rv l : added d rv l (addToList d rv l).
Proof.
  unfold addToList.
  set (p := fun e => String.eqb (domain e) d).
  destruct (Z.eqb_spec (Arr.findIndex p l) (-1)) as [Heq|Hne]; cbn [negb].
  - apply added_pushed. apply hasDomain_false.
    by apply (ArrFacts.findIndex_none p).
  - destruct (ArrFacts.findIndex_found p l Hne)
      as (l1 & x & l2 & Hl & Hx & Hl1 & ->).
    apply String.eqb_eq in Hx. apply hasDomain_false in Hl1.
    subst l. clear Hne. subst p d.
    replace (alter (setResolveVia rv) (length l1) (l1 ++ x :: l2))
      with (l1 ++ {| domain := domain x; resolveVia := rv |} :: l2).
    + by eapply added_replaced.
    + clear. induction l1 as [|y l1 IH]; [done|].
      cbn. by rewrite <- IH.
Qed.

Lemma existingEntry_spec d l :
  match existingEntry d l with
  | Some e => exists l1 l2,
      l = l1 ++ e :: l2 /\ domain e = d /\ d ∉ domain <$> l1
  | None => d ∉ domain <$> l
  end.
Proof.
  unfold existingEntry.
  set (p := fun e => String.eqb (domain e) d).
  destruct (Z.eqb_spec (Arr.findIndex p l) (-1)) as [Heq|Hne]; cbn [negb].
  - apply hasDomain_false. by apply (ArrFacts.findIndex_none p).
  - destruct (ArrFacts.findIndex_found p l Hne)
      as (l1 & x & l2 & Hl & Hx & Hl1 & ->).
    subst l. rewrite list_lookup_middle by done.
    exists l1, l2. repeat split; [by apply String.eqb_eq|].
    by apply hasDomain_false.
Qed.

Lemma removeFromList_gone d l : d ∉ domain <$> removeFromList d l.
Proof.
  unfold removeFromList. rewrite list_elem_of_fmap.
  intros (e & -> & He). apply list_elem_of_filter in He as [Hne _]. done.
Qed.

Lemma removeFromList_absent d l :
  d ∉ domain <$> l -> removeFromList d l = l.
Proof.
  unfold removeFromList. induction l as [|e l IH]; [done|].
  rewrite fmap_cons, not_elem_of_cons. intros [Hne Hl].
  rewrite filter_cons_True by done. by rewrite IH.
Qed.

(** The entries with another domain are exactly those that stay, in their
    order. *)
Lemma removeFromList_others d d' l :
  d' <> d ->
  filter (fun e => domain e = d') (removeFromList d l)
  = filter (fun e => domain e = d') l.
Proof.
  intros Hne. unfold removeFromList.
  induction l as [|e l IH]; [done|].
  destruct (decide (domain e = d)) as [He|He].
  - rewrite filter_cons_False by (intros H; by apply H).
    rewrite (filter_cons_False (fun e => domain e = d')) by congruence.
    done.
  - rewrite filter_cons_True by done.
    destruct (decide (domain e = d')) as [He'|He'].
    + rewrite !(filter_cons_True (fun e => domain e = d')) by done.
      by rewrite IH.
    + rewrite !(filter_cons_False (fun e => domain e = d')) by done.
      done.
Qed.

Lemma removeFromList_sublist d l : removeFromList d l `sublist_of` l.
Proof. apply sublist_filter. Qed.

Lemma removeFromList_idem d l :
  removeFromList d (removeFromList d l) = removeFromList d l.
Proof. apply removeFromList_absent, removeFromList_gone. Qed.

End ConfigFacts.

(** ** Reasoning about computations *)

Module Run.

Lemma bind_ok {A B} (m : M A) (k : A -> M B) w a w1 :
  m w = (Ok a, w1) -> bind m k w = k a w1.
Proof. unfold bind. by intros ->. Qed.

Lemma bind_throw {A B} (m : M A) (k : A -> M B) w e w1 :
  m w = (Throw e, w1) -> bind m k w = (Throw e, w1).
Proof. unfold bind. by intros ->. Qed.

Lemma bind_ok_inv {A B} (m : M A) (k : A -> M B) w b w' :
  bind m k w = (Ok b, w') ->
  exists a w1, m w = (Ok a, w1) /\ k a w1 = (Ok b, w').
Proof. unfold bind. destruct (m w) as [[a|e] w1]; [eauto | done]. Qed.

Lemma try_ok {A} (m : M A) h w a w1 :
  m w = (Ok a, w1) -> try_catch m h w = (Ok a, w1).
Proof. unfold try_catch. by intros ->. Qed.

Lemma try_throw {A} (m : M A) h w e w1 :
  m w = (Throw e, w1) -> try_catch m h w = h e w1.
Proof. unfold try_catch. by intros ->. Qed.

(** *** Frame: a computation that leaves the file at [p] alone *)

Lemma keeps_ret p {A} (a : A) : keeps p (ret a).
Proof. by intros w. Qed.

Lemma keeps_throw p {A} e : keeps p (@throw A e).
Proof. by intros w. Qed.

Lemma keeps_bind p {A B} (m : M A) (k : A -> M B) :
  keeps p m -> (forall a, keeps p (k a)) -> keeps p (bind m k).
Proof.
  intros Hm Hk w. unfold bind. specialize (Hm w).
  destruct (m w) as [[a|e] w1]; cbn in *; [|done].
  by rewrite Hk.
Qed.

Lemma keeps_try p {A} (m : M A) h :
  keeps p m -> (forall e, keeps p (h e)) -> keeps p (try_catch m h).
Proof.
  intros Hm Hh w. unfold try_catch. specialize (Hm w).
  destruct (m w) as [[a|e] w1]; cbn in *; [done|].
  by rewrite Hh.
Qed.

Lemma keeps_io p {A} (act : M A) : keeps p act -> keeps p (Fs.io act).
Proof.
  intros H w. unfold Fs.io.
  destruct (faults w) as [|[msg|] rest]; [apply H | done |].
  by rewrite H.
Qed.

Lemma keeps_date p : keeps p date_string.
Proof. by intros w. Qed.

Lemma keeps_console p ch line : keeps p (console_out ch line).
Proof. by intros w. Qed.

Lemma keeps_access p path : keeps p (Fs.access path).
Proof. apply keeps_io. intros w. by destruct (files w !! path). Qed.

Lemma keeps_stat p path : keeps p (Fs.stat path).
Proof. apply keeps_io. intros w. by destruct (files w !! path). Qed.

Lemma keeps_mkdir p dir : keeps p (Fs.mkdir dir).
Proof. apply keeps_io, keeps_ret. Qed.

Lemma keeps_readFile p path : keeps p (Fs.readFile path).
Proof. apply keeps_io. intros w. by destruct (files w !! path). Qed.

Lemma keeps_writeFile p path d : p <> path -> keeps p (Fs.writeFile path d).
Proof.
  intros Hne w. unfold Fs.writeFile.
  destruct (faults w) as [|[msg|] rest]; cbn;
    [| destruct (torn w path); cbn |];
    rewrite ?lookup_insert_ne by done; done.
Qed.

Lemma keeps_appendFile p path s :
  p <> path -> keeps p (Fs.appendFile path s).
Proof.
  intros Hne. apply keeps_io. intros w. cbn. by rewrite lookup_insert_ne.
Qed.

Create HintDb keeps.
#[export] Hint Resolve keeps_ret keeps_throw keeps_bind keeps_try
  keeps_date keeps_console keeps_access keeps_stat keeps_mkdir
  keeps_readFile keeps_writeFile keeps_appendFile : keeps.

(** *** Calm worlds: no I/O fault pending *)

Lemma io_calm {A} (act : M A) w : calm w -> Fs.io act w = act w.
Proof. unfold calm, Fs.io. by intros ->. Qed.

Lemma access_calm path w d :
  calm w -> files w !! path = Some d -> Fs.access path w = (Ok tt, w).
Proof. intros Hc Hf. unfold Fs.access. rewrite io_calm by done. by rewrite Hf. Qed.

Lemma readFile_calm path w d :
  calm w -> files w !! path = Some d -> Fs.readFile path w = (Ok d, w).
Proof. intros Hc Hf. unfold Fs.readFile. rewrite io_calm by done. by rewrite Hf. Qed.

Lemma writeFile_calm path d w :
  calm w ->
  Fs.writeFile path d w = (Ok tt, set_files (<[path := d]> (files w)) w).
Proof. unfold calm, Fs.writeFile. by intros ->. Qed.

(** A [writeFile] writes the file, or fails and leaves it as it was, or
    fails and leaves it torn. *)
Lemma writeFile_outcome path d w r w1 :
  Fs.writeFile path d w = (r, w1) ->
  (r = Ok tt /\ files w1 = <[path := d]> (files w))
  \/ (exists e, r = Throw e /\ files w1 = files w)
  \/ (exists e n, r = Throw e
                  /\ files w1 = <[path := Fs.tornData w d n]> (files w)).
Proof.
  unfold Fs.writeFile.
  destruct (faults w) as [|[msg|] rest]; [| destruct (torn w path) |];
    intros [= <- <-]; eauto 6.
Qed.

End Run.

(** ** The logger never rejects (logger.js) *)

Module LoggerFacts.
Import Run.

Lemma append_or_report path text label w :
  exists w',
    try_catch (Fs.appendFile path text)
      (fun err => console_error (label +:+ message err)) w = (Ok tt, w')
    /\ logged path w w'.
Proof.
  unfold try_catch, Fs.appendFile, Fs.io.
  destruct (faults w) as [|[msg|] rest] eqn:Hf; cbn;
    (eexists; split; [done|]);
    (split; unfold calm; cbn; rewrite ?Hf; try done).
  - intros p Hp. by rewrite lookup_insert_ne.
  - by apply prefix_app_r.
  - intros p Hp. by rewrite lookup_insert_ne.
Qed.

Lemma logged_after_console path ch line ts w w' :
  logged path (set_console (console w ++ [(ch, line)])
                 (set_ticks ts w)) w' ->
  logged path w w'.
Proof.
  intros [Hf Hc Hq Hk]. split; [done| |done|done].
  cbn in Hc. etrans; [|done]. by apply prefix_app_r.
Qed.

Lemma info_logged msg w :
  exists w', Logger.info msg w = (Ok tt, w')
             /\ logged Logger.accessLogPath w w'.
Proof.
  unfold Logger.info, Logger.formatLogMessage.
  erewrite bind_ok; [|erewrite bind_ok; reflexivity].
  erewrite bind_ok; [|reflexivity].
  edestruct append_or_report as (w' & -> & Hl).
  exists w'. split; [done|]. by eapply logged_after_console.
Qed.

Lemma error_logged msg w :
  exists w', Logger.error msg w = (Ok tt, w')
             /\ logged Logger.errorLogPath w w'
             /\ (Stderr,
                 Str.trim ("[" +:+ clock w (ticks w) +:+ "] "
                           +:+ ("ERROR: " +:+ msg) +:+ Str.nl))
                ∈ console w'.
Proof.
  unfold Logger.error, Logger.formatLogMessage.
  erewrite bind_ok; [|erewrite bind_ok; reflexivity].
  erewrite bind_ok; [|reflexivity].
  edestruct append_or_report as (w' & -> & Hl).
  exists w'. split; [done|]. split; [by eapply logged_after_console|].
  destruct Hl as [_ Hc _ _]. cbn in Hc.
  eapply elem_of_prefix; [|done]. set_solver.
Qed.

Lemma append_lands path text label w w' :
  unfaulted w ->
  try_catch (Fs.appendFile path text)
    (fun err => console_error (label +:+ message err)) w = (Ok tt, w') ->
  exists old, files w' !! path = Some (Text (old +:+ text)).
Proof.
  unfold unfaulted, try_catch, Fs.appendFile, Fs.io. intros Hu.
  destruct (faults w) as [|[msg|] rest] eqn:Hf; cbn;
    [|by destruct (Hu msg rest)|];
    intros [= <-]; cbn; rewrite lookup_insert_eq; eauto.
Qed.

(** When the append is not made to fail, the error line lands in the
    error log. *)
Lemma error_lands msg w w' :
  unfaulted w ->
  Logger.error msg w = (Ok tt, w') ->
  exists old,
    files w' !! Logger.errorLogPath
    = Some (Text (old +:+ "[" +:+ clock w (ticks w) +:+ "] "
                  +:+ ("ERROR: " +:+ msg) +:+ Str.nl)).
Proof.
  intros Hu. unfold Logger.error, Logger.formatLogMessage.
  erewrite bind_ok; [|erewrite bind_ok; reflexivity].
  erewrite bind_ok; [|reflexivity].
  intros Hrun. eapply append_lands; [|exact Hrun]. exact Hu.
Qed.

Lemma keeps_info p msg : p <> Logger.accessLogPath -> keeps p (Logger.info msg).
Proof.
  intros Hp w. destruct (info_logged msg w) as (w' & -> & [Hf _ _ _]).
  by apply Hf.
Qed.

Lemma keeps_error p msg : p <> Logger.errorLogPath -> keeps p (Logger.error msg).
Proof.
  intros Hp w. destruct (error_logged msg w) as (w' & -> & [Hf _ _ _] & _).
  by apply Hf.
Qed.

End LoggerFacts.

(** ** Reading and saving the stored documents (config.js) *)

Module ConfigRun.
Import Run LoggerFacts Config.

Lemma keeps_ensureConfigExists p :
  p <> CONFIG_PATH -> p <> IPS_PATH -> p <> Logger.accessLogPath ->
  keeps p ensureConfigExists.
Proof.
  intros H1 H2 H3. unfold ensureConfigExists.
  repeat first [ by apply keeps_info | by apply keeps_writeFile
               | solve [auto with keeps]
               | apply keeps_bind; intros | apply keeps_try; intros ].
Qed.

Lemma keeps_JSON_parse p d : keeps p (JSON_parse d).
Proof. destruct d; [apply keeps_throw | apply keeps_ret]. Qed.

Lemma keeps_getConfig p :
  p <> CONFIG_PATH -> p <> IPS_PATH -> p <> Logger.accessLogPath ->
  keeps p getConfig.
Proof.
  intros H1 H2 H3. unfold getConfig.
  repeat first [ by apply keeps_ensureConfigExists
               | apply keeps_JSON_parse
               | solve [auto with keeps]
               | apply keeps_bind; intros ].
Qed.

Lemma keeps_getDomainList p :
  p <> CONFIG_PATH -> p <> IPS_PATH -> p <> Logger.accessLogPath ->
  keeps p getDomainList.
Proof.
  intros H1 H2 H3. unfold getDomainList.
  repeat first [ by apply keeps_ensureConfigExists
               | apply keeps_JSON_parse
               | solve [auto with keeps]
               | apply keeps_bind; intros ].
Qed.

(** One half of [ensureConfigExists] in a calm world: afterwards the file
    is there, and every file that was there (the access log apart) is as
    it was. *)
Lemma ensure_one path doc msg w :
  calm w ->
  exists w',
    try_catch (Fs.access path)
      (fun _ => await Logger.info msg in
                await Fs.mkdir DATA_DIR in
                Fs.writeFile path (Json doc)) w = (Ok tt, w')
    /\ calm w'
    /\ is_Some (files w' !! path)
    /\ (forall p d, p <> Logger.accessLogPath ->
          files w !! p = Some d -> files w' !! p = Some d).
Proof.
  intros Hc. destruct (files w !! path) as [d|] eqn:Hf.
  - exists w. erewrite try_ok; [|by eapply access_calm]. eauto.
  - erewrite try_throw;
      [|unfold Fs.access; rewrite io_calm by done; by rewrite Hf].
    destruct (info_logged msg w) as (w1 & Hinfo & [Hfiles _ Hcalm _]).
    erewrite bind_ok by exact Hinfo.
    specialize (Hcalm Hc).
    erewrite bind_ok; [|unfold Fs.mkdir; by rewrite io_calm].
    rewrite writeFile_calm by done.
    eexists; split; [done|]. cbn. split; [done|]. split.
    + rewrite lookup_insert_eq. eauto.
    + intros p d Hp Hd. destruct (decide (path = p)) as [->|Hne];
        [congruence|].
      rewrite lookup_insert_ne by done. by rewrite Hfiles.
Qed.

Lemma ensureConfigExists_calm w :
  calm w ->
  exists w',
    ensureConfigExists w = (Ok tt, w')
    /\ calm w'
    /\ is_Some (files w' !! CONFIG_PATH)
    /\ is_Some (files w' !! IPS_PATH)
    /\ (forall p d, p <> Logger.accessLogPath ->
          files w !! p = Some d -> files w' !! p = Some d).
Proof.
  intros Hc. unfold ensureConfigExists.
  destruct (ensure_one CONFIG_PATH (ConfigDoc defaultConfig)
              "Creating default configuration file" w Hc)
    as (w1 & H1 & Hc1 & [c Hcfg] & Hkeep1).
  destruct (ensure_one IPS_PATH (DomainsDoc defaultIpList)
              "Creating default IP list file" w1 Hc1)
    as (w2 & H2 & Hc2 & Hips & Hkeep2).
  exists w2. erewrite bind_ok by exact H1. rewrite H2.
  repeat split; [done| |done|].
  - exists c. by apply Hkeep2.
  - intros p d Hp Hd. apply Hkeep2; [done|]. by apply Hkeep1.
Qed.

Lemma getDomainList_calm w doc :
  calm w -> files w !! IPS_PATH = Some (Json doc) ->
  exists w',
    getDomainList w = (Ok (asDomainList doc), w')
    /\ calm w'
    /\ files w' !! IPS_PATH = Some (Json doc).
Proof.
  intros Hc Hf. unfold getDomainList.
  destruct (ensureConfigExists_calm w Hc) as (w1 & H1 & Hc1 & _ & _ & Hkeep).
  assert (files w1 !! IPS_PATH = Some (Json doc)) as Hf1
    by by apply Hkeep.
  exists w1. erewrite bind_ok by exact H1.
  erewrite bind_ok by by eapply readFile_calm.
  done.
Qed.

Lemma getConfig_calm w c :
  calm w -> files w !! CONFIG_PATH = Some (Json (ConfigDoc c)) ->
  exists w',
    getConfig w = (Ok c, w')
    /\ calm w'
    /\ (forall p d, p <> Logger.accessLogPath ->
          files w !! p = Some d -> files w' !! p = Some d).
Proof.
  intros Hc Hf. unfold getConfig.
  destruct (ensureConfigExists_calm w Hc) as (w1 & H1 & Hc1 & _ & _ & Hkeep).
  exists w1. erewrite bind_ok by exact H1.
  erewrite bind_ok by (eapply readFile_calm; [done|by apply Hkeep]).
  done.
Qed.

Lemma saveDomainList_calm l w :
  calm w ->
  exists w',
    saveDomainList l w = (Ok true, w')
    /\ calm w'
    /\ files w' !! IPS_PATH
       = Some (Json (DomainsDoc {| domains := Some l |})).
Proof.
  intros Hc. unfold saveDomainList.
  erewrite bind_ok by by apply writeFile_calm.
  edestruct info_logged as (w' & Hinfo & [Hfiles _ Hcalm _]).
  exists w'. erewrite bind_ok by exact Hinfo.
  split; [done|]. split; [by apply Hcalm|].
  rewrite Hfiles by done. cbn. by rewrite lookup_insert_eq.
Qed.

Lemma removeDomain_calm d l w :
  calm w ->
  files w !! IPS_PATH = Some (Json (DomainsDoc {| domains := Some l |})) ->
  exists w',
    removeDomain d w
    = (Ok {| domains := Some (removeFromList d l) |}, w')
    /\ calm w'
    /\ files w' !! IPS_PATH
       = Some (Json (DomainsDoc
                       {| domains := Some (removeFromList d l) |})).
Proof.
  intros Hc Hf. unfold removeDomain.
  destruct (getDomainList_calm w _ Hc Hf) as (w1 & H1 & Hc1 & _).
  destruct (saveDomainList_calm (removeFromList d l) w1 Hc1)
    as (w2 & Hsave & Hc2 & Hf2).
  exists w2. erewrite bind_ok by exact H1. cbn [asDomainList domains].
  erewrite bind_ok by exact Hsave. done.
Qed.

Lemma addDomain_calm d rv l w :
  calm w ->
  files w !! IPS_PATH = Some (Json (DomainsDoc {| domains := Some l |})) ->
  exists w',
    addDomain d rv w = (Ok {| domains := Some (addToList d rv l) |}, w')
    /\ calm w'
    /\ files w' !! IPS_PATH
       = Some (Json (DomainsDoc {| domains := Some (addToList d rv l) |})).
Proof.
  intros Hc Hf. unfold addDomain.
  destruct (getDomainList_calm w _ Hc Hf) as (w1 & H1 & Hc1 & _).
  destruct (saveDomainList_calm (addToList d rv l) w1 Hc1)
    as (w2 & Hsave & Hc2 & Hf2).
  exists w2. erewrite bind_ok by exact H1. cbn [asDomainList domains].
  erewrite bind_ok by exact Hsave. done.
Qed.

End ConfigRun.

(** ** The override table: matching, uniqueness, removal *)

Section OverrideTable.
Import Run Config ConfigFacts ConfigRun.

(** C2, as stated, fails on the code: with an override for [netflix.com]
    only, longest-suffix matching resolves [www.netflix.com] through that
    entry, whereas the code's lookup finds no entry at all. *)
Lemma lookup_has_no_suffix_fallback :
  Spec.resolveTarget "www.netflix.com" [netflix] = Some "1.1.1.1"
  /\ existingEntry "www.netflix.com" [netflix] = None
  /\ resolveVia <$> existingEntry "www.netflix.com" [netflix]
     <> Spec.resolveTarget "www.netflix.com" [netflix].
Proof. vm_compute. by repeat split. Qed.

(** C2, amended: the code matches domains by exact string equality only.
    The lookup selects the first entry whose domain equals the queried
    name and none when no entry has exactly that name; in a table with
    pairwise distinct domains (so with both [netflix.com] and
    [www.netflix.com] configured) a lookup of a configured name selects
    its own entry. *)
Theorem lookup_is_exact_match (d : string) (l : list overrideEntry) :
  match existingEntry d l with
  | Some e => domain e = d
              /\ exists l1 l2, l = l1 ++ e :: l2 /\ d ∉ domain <$> l1
  | None => d ∉ domain <$> l
  end
  /\ forall e, e ∈ l -> domain e = d -> NoDup (domain <$> l) ->
               existingEntry d l = Some e.
Proof.
  pose proof (existingEntry_spec d l) as Hspec. split.
  - destruct (existingEntry d l) as [e|]; [|done].
    destruct Hspec as (l1 & l2 & ? & ? & ?). eauto.
  - intros e He Hd Hnd.
    destruct (existingEntry d l) as [e'|].
    + destruct Hspec as (l1 & l2 & -> & Hd' & Hl1). f_equal.
      rewrite fmap_app, fmap_cons in Hnd.
      apply NoDup_app in Hnd as (_ & Hdisj & Hnd).
      apply NoDup_cons in Hnd as [Hnotin _].
      apply elem_of_app in He as [He|He].
      * exfalso. apply Hl1. rewrite <- Hd. by apply list_elem_of_fmap_2.
      * apply elem_of_cons in He as [->|He]; [done|].
        exfalso. apply Hnotin. rewrite Hd', <- Hd.
        by apply list_elem_of_fmap_2.
    + exfalso. apply Hspec. rewrite <- Hd. by apply list_elem_of_fmap_2.
Qed.

(** With both names configured, each is matched by its own entry. *)
Lemma lookup_is_exact_match_witness :
  existingEntry "www.netflix.com" [netflix; www_netflix] = Some www_netflix
  /\ existingEntry "netflix.com" [netflix; www_netflix] = Some netflix.
Proof.
  split.
  - apply (proj2 (lookup_is_exact_match "www.netflix.com"
                    [netflix; www_netflix]));
      [set_solver | reflexivity |].
    apply NoDup_cons_2; [|apply NoDup_singleton].
    intros [=]%list_elem_of_singleton.
  - apply (proj2 (lookup_is_exact_match "netflix.com"
                    [netflix; www_netflix]));
      [set_solver | reflexivity |].
    apply NoDup_cons_2; [|apply NoDup_singleton].
    intros [=]%list_elem_of_singleton.
Defined.

(** C3: [addDomain] keeps the domains of the stored table pairwise
    distinct, and the last write wins: a domain that is already present
    keeps its place and gets the new resolver (the list of domains is
    unchanged, no second entry is appended); a new domain is appended;
    every other entry stays where it was. *)
Theorem addDomain_keeps_domains_unique
    (d rv : string) (l : list overrideEntry) (w : world) :
  calm w ->
  files w !! IPS_PATH = Some (Json (DomainsDoc {| domains := Some l |})) ->
  NoDup (domain <$> l) ->
  exists l' w',
    addDomain d rv w = (Ok {| domains := Some l' |}, w')
    /\ files w' !! IPS_PATH
       = Some (Json (DomainsDoc {| domains := Some l' |}))
    /\ NoDup (domain <$> l')
    /\ (forall e, e ∈ l' -> domain e = d -> resolveVia e = rv)
    /\ (d ∈ domain <$> l -> domain <$> l' = domain <$> l)
    /\ (d ∉ domain <$> l ->
        l' = l ++ [ {| domain := d; resolveVia := rv |} ])
    /\ (forall i e, l !! i = Some e -> domain e <> d -> l' !! i = Some e).
Proof.
  intros Hc Hf Hnd.
  destruct (addDomain_calm d rv l w Hc Hf) as (w' & Hrun & _ & Hf').
  exists (addToList d rv l), w'. split; [done|]. split; [done|].
  destruct (addToList_added d rv l) as [Hfresh | l1 x l2 -> Hx Hl1].
  - split_and!.
    + rewrite fmap_app. apply NoDup_app. split_and!; [done| |].
      * intros y Hy Hin. apply list_elem_of_singleton in Hin. by subst.
      * apply NoDup_singleton.
    + intros e He Hd. apply elem_of_app in He as [He|He].
      * exfalso. apply Hfresh. rewrite <- Hd. by apply list_elem_of_fmap_2.
      * apply list_elem_of_singleton in He. by subst.
    + done.
    + done.
    + intros i e Hi _. by apply lookup_app_l_Some.
  - assert (domain <$> l1 ++ {| domain := d; resolveVia := rv |} :: l2
            = domain <$> l1 ++ x :: l2) as Hdoms
      by (rewrite !fmap_app, !fmap_cons; cbn; by rewrite Hx).
    split_and!.
    + by rewrite Hdoms.
    + intros e He Hd.
      rewrite fmap_app, fmap_cons in Hnd.
      apply NoDup_app in Hnd as (_ & _ & Hnd).
      apply NoDup_cons in Hnd as [Hnotin _].
      apply elem_of_app in He as [He|He].
      * exfalso. apply Hl1. rewrite <- Hd. by apply list_elem_of_fmap_2.
      * apply elem_of_cons in He as [->|He]; [done|].
        exfalso. apply Hnotin. rewrite Hx, <- Hd.
        by apply list_elem_of_fmap_2.
    + done.
    + intros Hfresh. exfalso. apply Hfresh.
      rewrite fmap_app, fmap_cons, Hx. set_solver.
    + intros i e Hi Hne.
      destruct (decide (i = length l1)) as [->|Hi'].
      * rewrite list_lookup_middle in Hi by done. congruence.
      * rewrite <- Hi. clear -Hi'. revert i Hi'.
        induction l1 as [|y l1 IH]; intros [|i] Hi'; cbn in *;
          [done|done|done|]. apply IH. lia.
Qed.

Lemma addDomain_keeps_domains_unique_witness :
  exists l' w',
    addDomain "netflix.com" "9.9.9.9" (table_world [netflix])
    = (Ok {| domains := Some l' |}, w')
    /\ files w' !! IPS_PATH
       = Some (Json (DomainsDoc {| domains := Some l' |}))
    /\ NoDup (domain <$> l')
    /\ (forall e, e ∈ l' -> domain e = "netflix.com" ->
                  resolveVia e = "9.9.9.9")
    /\ ("netflix.com" ∈ domain <$> [netflix] ->
        domain <$> l' = domain <$> [netflix])
    /\ ("netflix.com" ∉ domain <$> [netflix] ->
        l' = [netflix] ++ [ {| domain := "netflix.com";
                               resolveVia := "9.9.9.9" |} ])
    /\ (forall i e, [netflix] !! i = Some e ->
                    domain e <> "netflix.com" -> l' !! i = Some e).
Proof.
  apply (addDomain_keeps_domains_unique
           "netflix.com" "9.9.9.9" [netflix] (table_world [netflix])).
  - reflexivity.
  - reflexivity.
  - apply NoDup_singleton.
Defined.

(** C9: [removeDomain] is idempotent and total.  On a stored list, with
    no I/O fault, it fulfils; afterwards no entry has the removed domain,
    the result is a sublist of the list (order kept) holding, for every
    other domain, exactly the entries the list held; removing the same
    domain again fulfils too and leaves the stored list as it is; a
    domain that was never there leaves the list unchanged. *)
Theorem removeDomain_idempotent_total
    (d : string) (l : list overrideEntry) (w : world) :
  calm w ->
  files w !! IPS_PATH = Some (Json (DomainsDoc {| domains := Some l |})) ->
  exists w1 w2,
    let l' := removeFromList d l in
    removeDomain d w = (Ok {| domains := Some l' |}, w1)
    /\ files w1 !! IPS_PATH
       = Some (Json (DomainsDoc {| domains := Some l' |}))
    /\ (d ∉ domain <$> l')
    /\ (l' `sublist_of` l)
    /\ (forall d', d' <> d ->
          filter (fun e => domain e = d') l'
          = filter (fun e => domain e = d') l)
    /\ removeDomain d w1 = (Ok {| domains := Some l' |}, w2)
    /\ files w2 !! IPS_PATH = files w1 !! IPS_PATH
    /\ (d ∉ domain <$> l -> l' = l).
Proof.
  intros Hc Hf.
  destruct (removeDomain_calm d l w Hc Hf) as (w1 & Hrun1 & Hc1 & Hf1).
  destruct (removeDomain_calm d _ w1 Hc1 Hf1) as (w2 & Hrun2 & Hc2 & Hf2).
  rewrite removeFromList_idem in Hrun2, Hf2.
  exists w1, w2. cbn zeta. split_and!; [done|done| | | | | |].
  - apply removeFromList_gone.
  - apply removeFromList_sublist.
  - intros d' Hd'. by apply removeFromList_others.
  - done.
  - congruence.
  - apply removeFromList_absent.
Qed.

Lemma removeDomain_idempotent_total_witness :
  exists w1 w2,
    let l' := removeFromList "netflix.com" [netflix] in
    removeDomain "netflix.com" (table_world [netflix])
    = (Ok {| domains := Some l' |}, w1)
    /\ files w1 !! IPS_PATH
       = Some (Json (DomainsDoc {| domains := Some l' |}))
    /\ ("netflix.com" ∉ domain <$> l')
    /\ (l' `sublist_of` [netflix])
    /\ (forall d', d' <> "netflix.com" ->
          filter (fun e => domain e = d') l'
          = filter (fun e => domain e = d') [netflix])
    /\ removeDomain "netflix.com" w1 = (Ok {| domains := Some l' |}, w2)
    /\ files w2 !! IPS_PATH = files w1 !! IPS_PATH
    /\ ("netflix.com" ∉ domain <$> [netflix] -> l' = [netflix]).
Proof.
  apply (removeDomain_idempotent_total
           "netflix.com" [netflix] (table_world [netflix])).
  - reflexivity.
  - reflexivity.
Defined.

End OverrideTable.

(** ** Failures: telemetry and reload *)

Section Failures.
Import Run LoggerFacts Config ConfigRun DnsConfig.

(** C5: the DNS-query log emitter swallows a failed append.  Every call
    fulfils; only the DNS log can change; and when the append rejects, no
    file changes at all and the failure is reported on the console's error
    stream, nowhere else. *)
Theorem dnsQuery_swallows_failure (query response : string) (w : world) :
  exists w',
    Logger.dnsQuery query response w = (Ok tt, w')
    /\ (forall p, p <> Logger.dnsLogPath -> files w' !! p = files w !! p)
    /\ (forall msg rest,
          faults w = Some msg :: rest ->
          files w' = files w
          /\ console w'
             = console w
               ++ [(Stderr, "Failed to write to DNS log: " +:+ msg)]).
Proof.
  unfold Logger.dnsQuery, Logger.formatLogMessage.
  erewrite bind_ok; [|erewrite bind_ok; reflexivity].
  unfold try_catch, Fs.appendFile, Fs.io. cbn [faults set_ticks].
  destruct (faults w) as [|[msg|] rest] eqn:Hf; cbn;
    (eexists; split; [done|]); cbn; (split; [|by intros; simplify_eq]).
  - intros p Hp. by rewrite lookup_insert_ne.
  - done.
  - intros p Hp. by rewrite lookup_insert_ne.
Qed.

(** A full disk: the query is not logged, the caller is not disturbed. *)
Lemma dnsQuery_swallows_failure_witness :
  exists w',
    Logger.dnsQuery "netflix.com" "1.1.1.1" disk_full_world = (Ok tt, w')
    /\ files w' = files disk_full_world
    /\ console w'
       = [(Stderr, "Failed to write to DNS log: "
                   +:+ "ENOSPC: no space left on device")].
Proof.
  destruct (dnsQuery_swallows_failure "netflix.com" "1.1.1.1" disk_full_world)
    as (w' & Hrun & _ & Hfail).
  exists w'. split; [exact Hrun|]. exact (Hfail _ _ eq_refl).
Defined.

(** C4: when reading the settings or the domain list fails,
    [updateDNSConfig] leaves the generated forwarder configuration file
    as it was, logs the error through [logger.error] (on the console's
    error stream and, unless that append is itself made to fail, at the
    end of the error log) and rejects with that same error. *)
Theorem updateDNSConfig_read_failure (w w1 : world) (e : error) :
  (getConfig w = (Throw e, w1)
   \/ exists c w0, getConfig w = (Ok c, w0)
                   /\ getDomainList w0 = (Throw e, w1)) ->
  exists w',
    updateDNSConfig w = (Throw e, w')
    /\ files w' !! CUSTOM_CONFIG_FILE = files w !! CUSTOM_CONFIG_FILE
    /\ (Stderr,
        Str.trim ("[" +:+ clock w1 (ticks w1) +:+ "] "
                  +:+ ("ERROR: " +:+ ("Failed to update DNS configuration: "
                                      +:+ message e)) +:+ Str.nl))
       ∈ console w'
    /\ (unfaulted w1 ->
        exists old,
          files w' !! Logger.errorLogPath
          = Some (Text (old +:+ "[" +:+ clock w1 (ticks w1) +:+ "] "
                        +:+ ("ERROR: "
                             +:+ ("Failed to update DNS configuration: "
                                  +:+ message e)) +:+ Str.nl))).
Proof.
  intros Hread.
  assert (files w1 !! CUSTOM_CONFIG_FILE = files w !! CUSTOM_CONFIG_FILE
          /\ forall k : appConfig -> M bool,
               bind getConfig k w = (Throw e, w1)
               \/ exists c w0, getConfig w = (Ok c, w0)
                   /\ getDomainList w0 = (Throw e, w1)) as [Hkeep Hrun].
  { destruct Hread as [H | (c & w0 & H0 & H1)].
    - split.
      + pose proof (keeps_getConfig CUSTOM_CONFIG_FILE) as K.
        specialize (K ltac:(done) ltac:(done) ltac:(done) w).
        by rewrite H in K.
      + intros k. left. by apply bind_throw.
    - split.
      + pose proof (keeps_getConfig CUSTOM_CONFIG_FILE) as K.
        specialize (K ltac:(done) ltac:(done) ltac:(done) w).
        pose proof (keeps_getDomainList CUSTOM_CONFIG_FILE) as K'.
        specialize (K' ltac:(done) ltac:(done) ltac:(done) w0).
        rewrite H0 in K. rewrite H1 in K'. cbn in *. congruence.
      + intros k. right. eauto. }
  destruct (error_logged ("Failed to update DNS configuration: "
                          +:+ message e) w1)
    as (w' & Herr & [Hfiles _ _ _] & Hin).
  exists w'. unfold updateDNSConfig.
  erewrite try_throw.
  - erewrite bind_ok by exact Herr. split; [done|]. split_and!; [|done|].
    + rewrite Hfiles by done. done.
    + intros Hu. by eapply error_lands.
  - destruct Hread as [H | (c & w0 & H0 & H1)].
    + by apply bind_throw.
    + erewrite bind_ok by exact H0. by apply bind_throw.
Qed.

Lemma updateDNSConfig_read_failure_witness :
  exists e w1 w',
    getConfig broken_settings_world = (Throw e, w1)
    /\ updateDNSConfig broken_settings_world = (Throw e, w')
    /\ files w' !! CUSTOM_CONFIG_FILE = Some (Text "port=53")
    /\ (Stderr,
        Str.trim ("[" +:+ clock w1 (ticks w1) +:+ "] "
                  +:+ ("ERROR: " +:+ ("Failed to update DNS configuration: "
                                      +:+ message e)) +:+ Str.nl))
       ∈ console w'
    /\ is_Some (files w' !! Logger.errorLogPath).
Proof.
  eexists _, _.
  assert (getConfig broken_settings_world
          = (Throw {| kind := SyntaxError;
                      message := "Unexpected token in JSON at position 0" |},
             broken_settings_world)) as Hread by reflexivity.
  destruct (updateDNSConfig_read_failure _ _ _ (or_introl Hread))
    as (w' & Hrun & Hkeep & Hlog & Hfile).
  exists w'. split; [exact Hread|]. split; [exact Hrun|].
  split; [rewrite Hkeep; reflexivity|]. split; [exact Hlog|].
  destruct Hfile as (old & ->); [|eauto].
  intros msg rest. discriminate.
Defined.

End Failures.

(** ** The generated forwarder configuration (dnsconfig.js) *)

Module ContentFacts.
Import StrFacts DnsConfig Forwarder.

Lemma configContent_eq generatedAt ds alt dl :
  configContent generatedAt ds alt dl
  = "# Smart DNS Proxy Configuration" +:+ Str.nl
    +:+ ("# Generated at " +:+ generatedAt) +:+ Str.nl
    +:+ "" +:+ Str.nl
    +:+ body ds alt dl.
Proof.
  unfold configContent, body, settingsBlock, domainBlock.
  change ("" +:+ Str.nl +:+ ?x) with (Str.nl +:+ x).
  cbv zeta. destruct (domains dl) as [[|item items]|];
    rewrite ?forEach_append_concat, ?app_assoc; reflexivity.
Qed.

Lemma overrideLine_ends_line : ends_line overrideLine.
Proof.
  intros item. eexists. unfold overrideLine.
  rewrite <- !app_assoc. reflexivity.
Qed.

Lemma concat_map_ends_line {A} (f : A -> string) (l : list A) pre :
  ends_line f ->
  exists pre', pre +:+ Str.nl +:+ Str.concat_map f l = pre' +:+ Str.nl.
Proof.
  intros Hf. revert pre. induction l as [|x l IH]; intros pre.
  - exists pre. cbn [Str.concat_map fold_right]. by rewrite app_nil_r.
  - destruct (Hf x) as (s & Hs).
    destruct (IH (pre +:+ Str.nl +:+ s)) as (pre' & Hpre').
    exists pre'. rewrite <- Hpre'.
    cbn [Str.concat_map fold_right]. rewrite Hs. by rewrite !app_assoc.
Qed.

Lemma line_of_its_own {A} (f : A -> string) (l1 l2 : list A) x pre :
  ends_line f ->
  exists pre' post,
    pre +:+ Str.nl +:+ Str.concat_map f (l1 ++ x :: l2)
    = pre' +:+ Str.nl +:+ f x +:+ post.
Proof.
  intros Hf. destruct (concat_map_ends_line f l1 pre Hf) as (pre' & Hpre').
  exists pre', (Str.concat_map f l2).
  rewrite concat_map_split, <- !app_assoc.
  rewrite (app_assoc pre), Hpre'. by rewrite !app_assoc.
Qed.

Lemma split_lines_line (a rest : string) :
  Str.no_LF a = true ->
  Str.split_lines (a +:+ Str.nl +:+ rest) = a :: Str.split_lines rest.
Proof.
  induction a as [|c a IH]; intros Ha.
  - reflexivity.
  - cbn [Str.no_LF] in Ha. apply andb_true_iff in Ha as [Hc Ha].
    change (String c a +:+ Str.nl +:+ rest)
      with (String c (a +:+ Str.nl +:+ rest)).
    cbn [Str.split_lines]. apply negb_true_iff in Hc. rewrite Hc.
    by rewrite IH.
Qed.

(** The directives do not depend on the time of generation. *)
Lemma directives_configContent generatedAt ds alt dl :
  Str.no_LF generatedAt = true ->
  directives (configContent generatedAt ds alt dl)
  = directives (body ds alt dl).
Proof.
  intros Ht. unfold directives. rewrite configContent_eq.
  rewrite !split_lines_line by done. reflexivity.
Qed.

End ContentFacts.

Module GenerateRun.
Import Run LoggerFacts DnsConfig.

(** A fulfilled generation has written the whole text. *)
Lemma generate_inv appConfig dl w w' :
  generateDnsmasqConfig appConfig dl w = (Ok tt, w') ->
  exists n ds alt,
    dnsServer appConfig = Some ds
    /\ alternativeDNS appConfig = Some alt
    /\ files w' !! CUSTOM_CONFIG_FILE
       = Some (Text (configContent (clock w n) ds alt dl)).
Proof.
  unfold generateDnsmasqConfig.
  destruct (info_logged "Generating DNS configuration" w)
    as (w0 & Hinfo & [_ _ _ Hclock]).
  erewrite bind_ok by exact Hinfo.
  erewrite bind_ok by reflexivity.
  destruct (dnsServer appConfig) as [ds|]; [|done].
  destruct (alternativeDNS appConfig) as [alt|]; [|done].
  intros Hrun. apply bind_ok_inv in Hrun as ([] & w1 & Hwrite & Hinfo2).
  exists (ticks w0), ds, alt. split; [done|]. split; [done|].
  pose proof (keeps_info CUSTOM_CONFIG_FILE
                ("DNS configuration generated at " +:+ CUSTOM_CONFIG_FILE)
                ltac:(done) w1) as K.
  rewrite Hinfo2 in K. cbn in K. rewrite K, <- Hclock.
  revert Hwrite. unfold Fs.writeFile, Fs.io. cbn [faults set_ticks].
  destruct (faults w0) as [|[msg|] rest]; [|done|];
    intros [= <-]; cbn; by rewrite lookup_insert_eq.
Qed.

(** Whatever the outcome, the file is untouched, or holds a whole generated
    text, or, after a write that failed, the beginning of one: there is
    one write, of the finished text, in place. *)
Lemma generate_leaves appConfig dl w :
  let run := generateDnsmasqConfig appConfig dl w in
  files run.2 !! CUSTOM_CONFIG_FILE = files w !! CUSTOM_CONFIG_FILE
  \/ (exists generatedAt ds alt,
        files run.2 !! CUSTOM_CONFIG_FILE
        = Some (Text (configContent generatedAt ds alt dl)))
  \/ (exists e generatedAt ds alt n,
        run.1 = Throw e
        /\ files run.2 !! CUSTOM_CONFIG_FILE
           = Some (Text (String.substring 0 n
                           (configContent generatedAt ds alt dl)))).
Proof.
  unfold generateDnsmasqConfig.
  destruct (info_logged "Generating DNS configuration" w)
    as (w0 & Hinfo & [Hfiles _ _ _]).
  erewrite bind_ok by exact Hinfo.
  erewrite bind_ok by reflexivity.
  assert (files w0 !! CUSTOM_CONFIG_FILE = files w !! CUSTOM_CONFIG_FILE)
    as Hsame by by apply Hfiles.
  destruct (dnsServer appConfig) as [ds|]; [|by left].
  destruct (alternativeDNS appConfig) as [alt|]; [|by left].
  pose proof (keeps_info CUSTOM_CONFIG_FILE
                ("DNS configuration generated at " +:+ CUSTOM_CONFIG_FILE)
                ltac:(done)) as K.
  match goal with
  | |- context [bind (Fs.writeFile ?path ?d) ?k ?w1] =>
      destruct (Fs.writeFile path d w1) as [r w2] eqn:Hwrite;
      destruct (writeFile_outcome _ _ _ _ _ Hwrite)
        as [[-> Hw2] | [(e & -> & Hw2) | (e & n & -> & Hw2)]]
  end.
  - erewrite bind_ok by exact Hwrite. right. left. eexists _, ds, alt.
    rewrite K, Hw2. cbn. by rewrite lookup_insert_eq.
  - erewrite bind_throw by exact Hwrite. left. cbn. by rewrite Hw2.
  - erewrite bind_throw by exact Hwrite. right. cbn [fst snd].
    rewrite Hw2, lookup_insert_eq. unfold Fs.tornData. cbn [Fs.text].
    match goal with
    | |- context [(n <? ?len)%nat] => destruct (n <? len)%nat
    end.
    + right. by eexists e, _, ds, alt, n.
    + left. by eexists _, ds, alt.
Qed.

Lemma generate_calm appConfig dl ds alt w :
  dnsServer appConfig = Some ds -> alternativeDNS appConfig = Some alt ->
  calm w ->
  exists w', generateDnsmasqConfig appConfig dl w = (Ok tt, w') /\ calm w'.
Proof.
  intros Hds Halt Hc. unfold generateDnsmasqConfig.
  destruct (info_logged "Generating DNS configuration" w)
    as (w0 & Hinfo & [_ _ Hcalm _]).
  erewrite bind_ok by exact Hinfo.
  erewrite bind_ok by reflexivity.
  rewrite Hds, Halt.
  erewrite bind_ok by (apply writeFile_calm; by apply Hcalm).
  edestruct info_logged as (w' & -> & [_ _ Hcalm' _]).
  exists w'. split; [done|]. apply Hcalm'. by apply Hcalm.
Qed.

End GenerateRun.

Section GeneratedConfiguration.
Import Run StrFacts DnsConfig Forwarder ContentFacts GenerateRun.

(** C1: the generated forwarder configuration routes every override entry
    of the domain list to that entry's upstream, by a line
    [server=/<domain>/<resolveVia>] of its own, and sends everything else
    to the default pool: between the two heading comments stands one line
    [server=<address>] per entry of [alternativeDNS], in list order.
    With settings that have [dnsServer] and [alternativeDNS] and no I/O
    fault, the generation fulfils. *)
Theorem generateDnsmasqConfig_routes
    (appConfig : appConfig) (dl : domainList)
    (ds : dnsServerSettings) (alt : list string) (w : world) :
  dnsServer appConfig = Some ds ->
  alternativeDNS appConfig = Some alt ->
  (calm w -> exists w', generateDnsmasqConfig appConfig dl w = (Ok tt, w'))
  /\ forall w',
      generateDnsmasqConfig appConfig dl w = (Ok tt, w') ->
      exists content,
        files w' !! CUSTOM_CONFIG_FILE = Some (Text content)
        /\ (exists pre post,
              content
              = pre +:+ "# Alternative DNS servers" +:+ Str.nl
                +:+ Str.concat_map serverLine alt
                +:+ Str.nl +:+ "# Domain specific configurations"
                +:+ Str.nl +:+ post)
        /\ (forall l item,
              domains dl = Some l -> item ∈ l ->
              exists pre post,
                content = pre +:+ Str.nl +:+ overrideLine item +:+ post).
Proof.
  intros Hds Halt. split.
  - intros Hc. destruct (generate_calm _ dl _ _ w Hds Halt Hc) as (w' & ? & _).
    eauto.
  - intros w' Hrun.
    destruct (generate_inv _ _ _ _ Hrun) as (n & ds' & alt' & Hds' & Halt' & Hf).
    assert (ds' = ds) as -> by congruence.
    assert (alt' = alt) as -> by congruence.
    eexists. split; [exact Hf|]. rewrite configContent_eq. split.
    + unfold body. eexists _, (domainBlock dl).
      rewrite <- !app_assoc. reflexivity.
    + intros l item Hl Hin.
      apply list_elem_of_split in Hin as (l1 & l2 & ->).
      assert (domainBlock dl
              = Str.concat_map overrideLine (l1 ++ item :: l2)) as Hblock
        by (unfold domainBlock; rewrite Hl; by destruct l1).
      unfold body. rewrite Hblock.
      destruct (line_of_its_own overrideLine l1 l2 item
                  ("# Smart DNS Proxy Configuration" +:+ Str.nl
                   +:+ ("# Generated at " +:+ clock w n) +:+ Str.nl
                   +:+ "" +:+ Str.nl
                   +:+ settingsBlock ds
                   +:+ "# Alternative DNS servers" +:+ Str.nl
                   +:+ Str.concat_map serverLine alt
                   +:+ Str.nl +:+ "# Domain specific configurations")
                  overrideLine_ends_line) as (pre & post & Heq).
      exists pre, post. rewrite <- Heq, !app_assoc. reflexivity.
Qed.

Lemma generateDnsmasqConfig_routes_witness :
  (calm fresh_world ->
   exists w', generateDnsmasqConfig defaultConfig defaultIpList fresh_world
              = (Ok tt, w'))
  /\ forall w',
      generateDnsmasqConfig defaultConfig defaultIpList fresh_world
      = (Ok tt, w') ->
      exists content,
        files w' !! CUSTOM_CONFIG_FILE = Some (Text content)
        /\ (exists pre post,
              content
              = pre +:+ "# Alternative DNS servers" +:+ Str.nl
                +:+ Str.concat_map serverLine ["8.8.8.8"; "1.1.1.1"]
                +:+ Str.nl +:+ "# Domain specific configurations"
                +:+ Str.nl +:+ post)
        /\ (forall l item,
              domains defaultIpList = Some l -> item ∈ l ->
              exists pre post,
                content = pre +:+ Str.nl +:+ overrideLine item +:+ post).
Proof.
  apply (generateDnsmasqConfig_routes defaultConfig defaultIpList
           {| port := JNum 53; cacheSize := JNum 1000;
              logQueries := JBool true |}
           ["8.8.8.8"; "1.1.1.1"] fresh_world).
  - reflexivity.
  - reflexivity.
Defined.

(** C7, as stated, fails on the code: the file is rewritten in place, so
    an intermediate table can be seen.  With the forwarder file generated
    from the stored settings and overrides already on disk, generating it
    again from the same data, with a write that fails after 240
    characters, rejects and leaves a file that has lost the second
    override and holds a cut directive in place of the first. *)
Lemma generateDnsmasqConfig_leaves_torn_file :
  exists e w' old c,
    files torn_write_world !! CUSTOM_CONFIG_FILE = Some (Text old)
    /\ directives old
       = [ "port=53"; "cache-size=1000"; "log-queries=true";
           "server=8.8.8.8"; "server=1.1.1.1";
           "server=/netflix.com/1.1.1.1"; "server=/spotify.com/8.8.8.8" ]
    /\ generateDnsmasqConfig defaultConfig defaultIpList torn_write_world
       = (Throw e, w')
    /\ files w' !! CUSTOM_CONFIG_FILE = Some (Text c)
    /\ directives c
       = [ "port=53"; "cache-size=1000"; "log-queries=true";
           "server=8.8.8.8"; "server=1.1.1.1"; "server=/netfl" ].
Proof.
  eexists _, _, _, _. split; [reflexivity|].
  split; [vm_compute; reflexivity|].
  split; [vm_compute; reflexivity|].
  split; [vm_compute; reflexivity|]. vm_compute. reflexivity.
Qed.

(** C7, amended: generating the forwarder configuration twice from the
    same settings and domain list gives functionally identical files: the
    two texts have the same directive lines ([port=], [cache-size=],
    [log-queries=] and every [server=] line) in the same order, whatever
    the two times of generation.  The file is written in place by one
    write of the finished text: a generation leaves it as it was, or
    holding a whole generated text, or, when the write fails on the way,
    holding only the beginning of one. *)
Theorem generateDnsmasqConfig_idempotent
    (appConfig : appConfig) (dl : domainList) (w1 w1' w2 w2' : world) :
  (forall n, Str.no_LF (clock w1 n) = true) ->
  (forall n, Str.no_LF (clock w2 n) = true) ->
  generateDnsmasqConfig appConfig dl w1 = (Ok tt, w1') ->
  generateDnsmasqConfig appConfig dl w2 = (Ok tt, w2') ->
  (exists c1 c2,
     files w1' !! CUSTOM_CONFIG_FILE = Some (Text c1)
     /\ files w2' !! CUSTOM_CONFIG_FILE = Some (Text c2)
     /\ directives c1 = directives c2)
  /\ (forall w,
        let run := generateDnsmasqConfig appConfig dl w in
        files run.2 !! CUSTOM_CONFIG_FILE = files w !! CUSTOM_CONFIG_FILE
        \/ (exists generatedAt ds alt,
              files run.2 !! CUSTOM_CONFIG_FILE
              = Some (Text (configContent generatedAt ds alt dl)))
        \/ (exists e generatedAt ds alt n,
              run.1 = Throw e
              /\ files run.2 !! CUSTOM_CONFIG_FILE
                 = Some (Text (String.substring 0 n
                                 (configContent generatedAt ds alt dl))))).
Proof.
  intros Hclock1 Hclock2 Hrun1 Hrun2. split.
  - destruct (generate_inv _ _ _ _ Hrun1)
      as (n1 & ds & alt & Hds & Halt & Hf1).
    destruct (generate_inv _ _ _ _ Hrun2)
      as (n2 & ds' & alt' & Hds' & Halt' & Hf2).
    assert (ds' = ds) as -> by congruence.
    assert (alt' = alt) as -> by congruence.
    eexists _, _. split; [exact Hf1|]. split; [exact Hf2|].
    by rewrite !directives_configContent.
  - intros w. apply generate_leaves.
Qed.

Lemma generateDnsmasqConfig_idempotent_witness :
  let w1 := fresh_world in
  let w1' := (generateDnsmasqConfig defaultConfig defaultIpList w1).2 in
  let w2' := (generateDnsmasqConfig defaultConfig defaultIpList w1').2 in
  exists c1 c2,
    files w1' !! CUSTOM_CONFIG_FILE = Some (Text c1)
    /\ files w2' !! CUSTOM_CONFIG_FILE = Some (Text c2)
    /\ directives c1 = directives c2.
Proof.
  intros w1 w1' w2'.
  refine (proj1 (generateDnsmasqConfig_idempotent
                   defaultConfig defaultIpList w1 w1' w1' w2' _ _ _ _)).
  - intros n. cbn. by destruct (Nat.even n).
  - intros n. cbn. by destruct (Nat.even n).
  - vm_compute. reflexivity.
  - vm_compute. reflexivity.
Defined.

End GeneratedConfiguration.

(** ** The validation patterns *)

Module RegexFacts.
Import Regex.

Lemma dead_cat r1 r2 : dead (cat r1 r2) = dead r1 || dead r2.
Proof.
  destruct r1, r2; cbn; rewrite ?orb_true_r, ?orb_false_r; reflexivity.
Qed.

Lemma dead_alt r1 r2 : dead (alt r1 r2) = dead r1 && dead r2.
Proof.
  destruct r1, r2; cbn; rewrite ?andb_true_r, ?andb_false_r; reflexivity.
Qed.

Lemma within_cat P r1 r2 : within P r1 -> within P r2 -> within P (cat r1 r2).
Proof. destruct r1, r2; cbn; tauto. Qed.

Lemma within_alt P r1 r2 : within P r1 -> within P r2 -> within P (alt r1 r2).
Proof. destruct r1, r2; cbn; tauto. Qed.

Lemma within_deriv P c r : within P r -> within P (deriv c r).
Proof.
  induction r as [| |p|r1 IH1 r2 IH2|r1 IH1 r2 IH2|r0 IH]; cbn.
  - done.
  - done.
  - intros _. by destruct (p c).
  - intros [H1 H2]. destruct (nullable r1).
    + apply within_alt; [apply within_cat|]; auto.
    + apply within_cat; auto.
  - intros [H1 H2]. apply within_alt; auto.
  - intros H. apply within_cat; auto.
Qed.

Lemma dead_not_nullable r : dead r = true -> nullable r = false.
Proof.
  induction r as [| |p|r1 IH1 r2 IH2|r1 IH1 r2 IH2|r0 IH]; cbn; try done.
  - intros [H|H]%orb_true_iff; [rewrite IH1 | rewrite IH2]; try done.
    apply andb_false_r.
  - intros [H1 H2]%andb_true_iff. by rewrite IH1, IH2.
Qed.

Lemma dead_deriv c r : dead r = true -> dead (deriv c r) = true.
Proof.
  induction r as [| |p|r1 IH1 r2 IH2|r1 IH1 r2 IH2|r0 IH]; cbn; try done.
  - intros H. assert (nullable r1 && nullable r2 = false) as Hn
      by (apply (dead_not_nullable (Cat r1 r2)); done).
    apply orb_true_iff in H as [H|H].
    + rewrite (dead_not_nullable r1 H), dead_cat, IH1 by done. done.
    + destruct (nullable r1).
      * rewrite dead_alt, dead_cat, H, IH2 by done.
        by rewrite orb_true_r.
      * rewrite dead_cat, H. apply orb_true_r.
  - intros [H1 H2]%andb_true_iff. by rewrite dead_alt, IH1, IH2.
Qed.

Lemma dead_matches r s : dead r = true -> matches r s = false.
Proof.
  revert r. induction s as [|c s IH]; intros r Hr; cbn.
  - by apply dead_not_nullable.
  - apply IH. by apply dead_deriv.
Qed.

(** A character outside the alphabet kills the pattern. *)
Lemma deriv_outside P c r :
  within P r -> P c = false -> dead (deriv c r) = true.
Proof.
  intros Hr Hc.
  induction r as [| |p|r1 IH1 r2 IH2|r1 IH1 r2 IH2|r0 IH]; cbn in *.
  - done.
  - done.
  - destruct (p c) eqn:Hp; [|done]. apply Hr in Hp. congruence.
  - destruct Hr as [H1 H2]. destruct (nullable r1).
    + by rewrite dead_alt, dead_cat, IH1, IH2.
    + by rewrite dead_cat, IH1.
  - destruct Hr as [H1 H2]. by rewrite dead_alt, IH1, IH2.
  - by rewrite dead_cat, IH.
Qed.

(** A matched string is written in the alphabet of the pattern. *)
Lemma matches_within P r s :
  within P r -> matches r s = true -> all_chars P s = true.
Proof.
  revert r. induction s as [|c s IH]; intros r Hr Hm; cbn in *; [done|].
  destruct (P c) eqn:Hc; cbn.
  - eapply IH; [|done]. by apply within_deriv.
  - rewrite dead_matches in Hm; [done|]. by eapply deriv_outside.
Qed.

Lemma within_times P n r : within P r -> within P (times n r).
Proof. intros H. induction n; cbn; auto. Qed.

Lemma within_upto P n r : within P r -> within P (upto n r).
Proof. intros H. induction n; cbn; auto. Qed.

Lemma within_range P lo hi r : within P r -> within P (range lo hi r).
Proof. intros H. split; [by apply within_times | by apply within_upto]. Qed.

Lemma within_atLeast P lo r : within P r -> within P (atLeast lo r).
Proof. intros H. split; [by apply within_times | done]. Qed.

Lemma within_plus P r : within P r -> within P (plus r).
Proof. intros H. by split. Qed.

(** Splits [within P r] along the combinators the patterns are built from,
    down to their character classes. *)
Ltac alphabet :=
  repeat lazymatch goal with
         | |- within _ (range _ _ _) => apply within_range
         | |- within _ (times _ _) => apply within_times
         | |- within _ (atLeast _ _) => apply within_atLeast
         | |- within _ (plus _) => apply within_plus
         | |- within _ (Cat _ _) => split
         | |- within _ (Class _) => cbn [within]; intros c
         end.

Lemma within_domainPattern : within domainChar domainPattern.
Proof.
  unfold domainPattern. alphabet;
    unfold domainChar, alnumDash, alnum;
    destruct (letter c), (digit c), (Ascii.eqb c "-"), (dot c); done.
Qed.

Lemma within_ipPattern : within quadChar ipPattern.
Proof.
  unfold ipPattern. alphabet;
    unfold quadChar; destruct (digit c), (dot c); done.
Qed.

End RegexFacts.

(** ** The HTTP interface (routes/api.js) *)

Section StatusEndpoint.
Import Run LoggerFacts Api.

(** C6, as stated, fails on the code: on a first start the status
    endpoint answers 200 with an object that has none of
    [activeUpstreams], [cacheSize], [totalQueries]; it is not of the
    announced shape. *)
Lemma getStatus_not_of_spec_shape :
  exists j w',
    getStatus fresh_world = (Ok {| status := 200%nat; body := JsonBody j |}, w')
    /\ keys j = statusKeys
    /\ field "activeUpstreams" j = None
    /\ field "cacheSize" j = None
    /\ field "totalQueries" j = None
    /\ ~ Spec.statusShape j.
Proof.
  eexists _, _. split; [vm_compute; reflexivity|].
  split_and!; [reflexivity..|]. by intros [[=] _].
Qed.

(** C6, amended: the status endpoint always answers, with 200 or 500.
    A 200 answer is the object
    [{running, version, port, uptime, lastUpdate, domainCount, queryCount,
      cacheEntries}] ([port] and [cacheEntries] left out when undefined in
    the stored settings), where [running] is a boolean: whether the
    generated forwarder configuration file was accessible when the
    request came in. *)
Theorem getStatus_shape (w : world) :
  exists r w',
    getStatus w = (Ok r, w')
    /\ (status r = 200%nat \/ status r = 500%nat)
    /\ (status r = 200%nat ->
        exists running portV uptime lastUpdate domainCount queryCount
               cacheEntries,
          body r
          = JsonBody
              (JsObj ([("running", JsBool running);
                       ("version", JsStr "Smart DNS Proxy v1.0")]
                      ++ prop "port" portV
                      ++ [("uptime", JsStr uptime);
                          ("lastUpdate", JsStr lastUpdate);
                          ("domainCount", JsNum domainCount);
                          ("queryCount", JsNum queryCount)]
                      ++ prop "cacheEntries" cacheEntries))
          /\ (running = true
              <-> (Fs.access DnsConfig.CUSTOM_CONFIG_FILE w).1 = Ok tt)).
Proof.
  unfold getStatus.
  match goal with
  | |- context [try_catch ?m ?h w] =>
      destruct (m w) as [[r|e] w1] eqn:Hmain
  end.
  - erewrite try_ok by exact Hmain. exists r, w1. split; [done|].
    apply bind_ok_inv in Hmain as (running & wa & Hrun & Hmain).
    apply bind_ok_inv in Hmain as (dl & wb & _ & Hmain).
    apply bind_ok_inv in Hmain as (startTime & wc & _ & Hmain).
    apply bind_ok_inv in Hmain as (lastUpdate & wd & _ & Hmain).
    apply bind_ok_inv in Hmain as (queryCount & we & _ & Hmain).
    apply bind_ok_inv in Hmain as (cacheEntries & wf & _ & Hmain).
    apply bind_ok_inv in Hmain as (appConfig & wg & _ & Hmain).
    destruct (dnsServer appConfig) as [ds|]; [|done].
    injection Hmain as <- <-. split; [by left|]. intros _.
    eexists running, (port ds), _, lastUpdate, _, queryCount, cacheEntries.
    split; [reflexivity|].
    revert Hrun. unfold try_catch, bind.
    destruct (Fs.access DnsConfig.CUSTOM_CONFIG_FILE w) as [[[]|e] w2];
      cbn; intros [= <- <-]; done.
  - erewrite try_throw by exact Hmain.
    destruct (error_logged ("Error in /api/status: " +:+ message e) w1)
      as (w' & Herr & _).
    erewrite bind_ok by exact Herr.
    eexists _, w'. split; [reflexivity|]. split; [by right|]. done.
Qed.

(** A first start: the answer is 200 and of that shape. *)
Lemma getStatus_shape_witness :
  exists r w',
    getStatus fresh_world = (Ok r, w')
    /\ status r = 200%nat
    /\ exists running portV uptime lastUpdate domainCount queryCount
              cacheEntries,
        body r
        = JsonBody
            (JsObj ([("running", JsBool running);
                     ("version", JsStr "Smart DNS Proxy v1.0")]
                    ++ prop "port" portV
                    ++ [("uptime", JsStr uptime);
                        ("lastUpdate", JsStr lastUpdate);
                        ("domainCount", JsNum domainCount);
                        ("queryCount", JsNum queryCount)]
                    ++ prop "cacheEntries" cacheEntries))
        /\ (running = true
            <-> (Fs.access DnsConfig.CUSTOM_CONFIG_FILE fresh_world).1
                = Ok tt).
Proof.
  destruct (getStatus_shape fresh_world) as (r & w' & Hrun & _ & Hshape).
  exists r, w'. split; [exact Hrun|].
  assert (status r = 200%nat) as H200
    by (revert Hrun; vm_compute; by intros [= <- _]).
  split; [exact H200|]. exact (Hshape H200).
Defined.

End StatusEndpoint.

Section Validation.
Import Run LoggerFacts Api.

(** C8, as stated, fails on the code: the settings update accepts and
    stores settings whose port is out of range and whose upstream has no
    address format. *)
Lemma postSettings_accepts_unvalidated :
  exists w',
    postSettings unchecked_settings fresh_world
    = (Ok (success "Settings updated successfully"), w')
    /\ files w' !! Config.CONFIG_PATH
       = Some (Json (ConfigDoc unchecked_settings))
    /\ ~ Spec.validSettings unchecked_settings.
Proof.
  eexists. split; [vm_compute; reflexivity|]. split; [reflexivity|].
  intros (Hport & _ & _). by specialize (Hport _ eq_refl).
Qed.

(** A handler whose work is wrapped in [try]/[catch] always answers:
    200 when the work fulfils, 500 when it rejects. *)
Lemma handler_answers {A} (m : M A) (msg label failure : string) w :
  exists r w',
    try_catch (await m in ret (success msg))
      (fun err => await Logger.error (label +:+ message err) in
                  ret (serverError failure err)) w = (Ok r, w')
    /\ (status r = 200%nat \/ status r = 500%nat).
Proof.
  destruct (m w) as [[a|e] w1] eqn:Hm.
  - erewrite try_ok by (erewrite bind_ok by exact Hm; reflexivity).
    eexists _, _. split; [reflexivity|]. by left.
  - erewrite try_throw by (by apply bind_throw).
    destruct (error_logged (label +:+ message e) w1) as (w' & Herr & _).
    erewrite bind_ok by exact Herr.
    eexists _, _. split; [reflexivity|]. by right.
Qed.

(** The two handlers on requests of the modelled shape are the handlers
    over any request, at these requests. *)
Lemma postDomains_of_scalars add (d rv : jsval) w :
  add (Request.ofScalar d) (Request.ofScalar rv)
  = DnsConfig.addDomain (toStr d) (toStr rv) ->
  postDomains d rv w
  = Request.postDomainsOf add (Request.ofScalar d) (Request.ofScalar rv) w.
Proof.
  intros Hadd. unfold postDomains, Request.postDomainsOf, Request.coerce.
  assert (forall v, Request.truthyReq (Request.ofScalar v) = truthy v) as Ht
    by (by intros []).
  assert (forall v, Request.toStringReq (Request.ofScalar v)
                    = Some (toStr v)) as Hs
    by (by intros [| |[]| |]).
  assert (forall A (a : string) (k : string -> M A) w',
            bind (ret a) k w' = k a w') as Hret by done.
  rewrite !Ht, !Hs, Hadd. unfold try_catch.
  destruct (negb (truthy d) || negb (truthy rv)); [done|].
  rewrite Hret.
  destruct (negb (Regex.test Regex.domainPattern (toStr d))); [done|].
  by rewrite Hret.
Qed.

Lemma postSettings_of_shape (c : appConfig) w :
  postSettings c w
  = Request.postSettingsOf (fun _ => Config.saveConfig c)
      DnsConfig.updateDNSConfig (jsonOfConfig c) w.
Proof.
  unfold postSettings, Request.postSettingsOf.
  by destruct c as [[ds|] [alt|] [wi|]].
Qed.

(** An array is checked through its string form and so can pass; an
    object with a [toString] property of its own makes the check throw;
    any other object is refused. *)
Lemma domainVerdict_of_non_strings :
  Request.domainVerdict (Some (JsArr [JsStr "netflix.com"]))
    (Some (JsStr "1.1.1.1")) = Request.Passes
  /\ Request.domainVerdict (Some (JsObj [("toString", JsNum 1)]))
       (Some (JsStr "1.1.1.1")) = Request.Throws
  /\ Request.domainVerdict (Some (JsObj [("domain", JsStr "netflix.com")]))
       (Some (JsStr "1.1.1.1")) = Request.Refused.
Proof. split_and!; vm_compute; reflexivity. Qed.

(** C8, amended: the domain-add operation checks the string forms of its
    two fields.  A request passes only if both fields are truthy, the
    string form of the domain matches the domain pattern and the string
    form of the resolver matches the dotted-quad pattern (so the first is
    written with letters, digits, dashes and dots only, the second with
    digits and dots only); a string passes exactly when it matches, and
    an array passes when its string form does.  A request that a guard
    refuses is answered 400 and changes nothing; a field that cannot be
    turned into a string (an object with a [toString] property of its
    own) is answered 500, and only the error log and the console change.
    The settings update checks only that [dnsServer], [alternativeDNS]
    and [webInterface] are truthy: a request lacking one is answered 400
    and changes nothing, and no port range or address format is checked.
    A request that passes is answered 200, or 500 when the work fails.
    All this holds whatever the operations behind the two handlers do. *)
Theorem requests_validated :
  (forall add d rv w,
     exists r w',
       Request.postDomainsOf add d rv w = (Ok r, w')
       /\ match Request.domainVerdict d rv with
          | Request.Passes => status r = 200%nat \/ status r = 500%nat
          | Request.Refused => status r = 400%nat /\ w' = w
          | Request.Throws =>
              status r = 500%nat /\ logged Logger.errorLogPath w w'
          end)
  /\ (forall save reload settings w,
        exists r w',
          Request.postSettingsOf save reload settings w = (Ok r, w')
          /\ (if Request.settingsPass settings
              then status r = 200%nat \/ status r = 500%nat
              else status r = 400%nat /\ w' = w))
  /\ (forall d rv,
        Request.domainVerdict d rv = Request.Passes ->
        exists domainText resolveViaText,
          Request.toStringReq d = Some domainText
          /\ Request.toStringReq rv = Some resolveViaText
          /\ all_chars domainChar domainText = true
          /\ all_chars quadChar resolveViaText = true)
  /\ (forall d rv : string,
        Request.domainVerdict (Some (JsStr d)) (Some (JsStr rv))
        = Request.Passes
        <-> Regex.test Regex.domainPattern d = true
            /\ Regex.test Regex.ipPattern rv = true).
Proof.
  split_and!.
  - intros add d rv w.
    unfold Request.postDomainsOf, Request.domainVerdict, Request.coerce.
    destruct (negb (Request.truthyReq d) || negb (Request.truthyReq rv));
      [by eexists _, _|].
    assert (forall (e : error),
              exists r w',
                (await Logger.error ("Error in POST /api/domains: "
                                     +:+ message e) in
                 ret (serverError "Failed to add domain" e)) w = (Ok r, w')
                /\ status r = 500%nat
                /\ logged Logger.errorLogPath w w') as Hthrow.
    { intros e.
      destruct (error_logged ("Error in POST /api/domains: " +:+ message e) w)
        as (w' & Herr & Hlog & _).
      erewrite bind_ok by exact Herr. by eexists _, _. }
    assert (forall (a : string) (k : string -> M response) h,
              try_catch (bind (ret a) k) h w = try_catch (k a) h w)
      as Hret by done.
    destruct (Request.toStringReq d) as [domainText|].
    2:{ erewrite try_throw by reflexivity.
        destruct (Hthrow {| kind := TypeError;
                            message := "Cannot convert object to primitive value" |})
          as (r & w' & Hrun & H500 & Hlog).
        by exists r, w'. }
    rewrite Hret.
    destruct (Regex.test Regex.domainPattern domainText); cbn [negb];
      [|by eexists _, _].
    destruct (Request.toStringReq rv) as [resolveViaText|].
    2:{ erewrite try_throw by reflexivity.
        destruct (Hthrow {| kind := TypeError;
                            message := "Cannot convert object to primitive value" |})
          as (r & w' & Hrun & H500 & Hlog).
        by exists r, w'. }
    rewrite Hret.
    destruct (Regex.test Regex.ipPattern resolveViaText); cbn [negb];
      [|by eexists _, _].
    destruct (handler_answers (add d rv) "Domain added successfully"
                "Error in POST /api/domains: " "Failed to add domain" w)
      as (r & w' & Hrun & Hstatus).
    by exists r, w'.
  - intros save reload settings w.
    unfold Request.postSettingsOf, Request.settingsPass.
    destruct (Request.truthyReq (field "dnsServer" settings));
      cbn [negb orb andb]; [|by eexists _, _].
    destruct (Request.truthyReq (field "alternativeDNS" settings));
      cbn [negb orb andb]; [|by eexists _, _].
    destruct (Request.truthyReq (field "webInterface" settings));
      cbn [negb orb andb]; [|by eexists _, _].
    destruct (handler_answers
                (await save settings in reload)
                "Settings updated successfully"
                "Error in POST /api/settings: "
                "Failed to update settings" w)
      as (r & w' & Hrun & Hstatus).
    exists r, w'. split; [|done]. rewrite <- Hrun.
    unfold try_catch, bind. by destruct (save settings w) as [[]].
  - intros d rv. unfold Request.domainVerdict, Regex.test.
    destruct (negb (Request.truthyReq d) || negb (Request.truthyReq rv));
      [done|].
    destruct (Request.toStringReq d) as [domainText|]; [|done].
    destruct (Regex.matches Regex.domainPattern domainText) eqn:Hd;
      cbn [negb]; [|done].
    destruct (Request.toStringReq rv) as [resolveViaText|]; [|done].
    destruct (Regex.matches Regex.ipPattern resolveViaText) eqn:Hrv;
      cbn [negb]; [|done].
    intros _. exists domainText, resolveViaText. split_and!; try done.
    + by eapply RegexFacts.matches_within, Hd;
        apply RegexFacts.within_domainPattern.
    + by eapply RegexFacts.matches_within, Hrv;
        apply RegexFacts.within_ipPattern.
  - intros d rv. unfold Request.domainVerdict.
    cbn [Request.truthyReq truthyJson Request.toStringReq Request.toString].
    destruct (Regex.test Regex.domainPattern d) eqn:Hd.
    2:{ destruct (negb (negb (String.eqb d "")) || negb (negb (String.eqb rv "")));
          cbn [negb]; split; try done; by intros []. }
    destruct (Regex.test Regex.ipPattern rv) eqn:Hrv.
    2:{ destruct (negb (negb (String.eqb d "")) || negb (negb (String.eqb rv "")));
          cbn [negb]; split; try done; by intros []. }
    assert (String.eqb d "" = false) as ->
      by (apply String.eqb_neq; intros ->; by vm_compute in Hd).
    assert (String.eqb rv "" = false) as ->
      by (apply String.eqb_neq; intros ->; by vm_compute in Hrv).
    done.
Qed.

(** An array whose string form is the default override's domain passes
    the validation. *)
Lemma requests_validated_witness :
  exists domainText resolveViaText,
    Request.toStringReq (Some (JsArr [JsStr "netflix.com"]))
    = Some domainText
    /\ Request.toStringReq (Some (JsStr "1.1.1.1")) = Some resolveViaText
    /\ all_chars domainChar domainText = true
    /\ all_chars quadChar resolveViaText = true.
Proof.
  apply (proj1 (proj2 (proj2 requests_validated))
           (Some (JsArr [JsStr "netflix.com"])) (Some (JsStr "1.1.1.1"))).
  vm_compute. reflexivity.
Defined.

End Validation.

Section SettingsEndpoint.
Import Run Api.

(** Stored passwords that are not empty are all answered alike: the
    property is deleted. *)
Lemma dropPassword_hides_nonempty (c : appConfig) (pw1 pw2 : string) :
  pw1 <> "" -> pw2 <> "" ->
  dropPassword (withPassword (Some pw1) c)
  = dropPassword (withPassword (Some pw2) c).
Proof.
  intros H1%String.eqb_neq H2%String.eqb_neq.
  unfold dropPassword, withPassword. cbn.
  destruct (webInterface c) as [wi|]; [|done]. cbn.
  by rewrite H1, H2.
Qed.

(** C10 fails on the code for the empty password: two stored
    configurations that differ only in [webInterface.password], one
    holding the empty string and one holding ["admin"], get different
    answers from GET /api/settings; the first answer carries the
    password property (the empty password itself), the second has none. *)
Theorem getSettings_returns_empty_password :
  exists j1 j2 w1 w2,
    getSettings (settings_world "")
    = (Ok {| status := 200%nat; body := JsonBody j1 |}, w1)
    /\ getSettings (settings_world "admin")
       = (Ok {| status := 200%nat; body := JsonBody j2 |}, w2)
    /\ j1 <> j2
    /\ passwordOf j1 = Some (JsStr "")
    /\ passwordOf j2 = None.
Proof.
  eexists _, _, _, _. split; [vm_compute; reflexivity|].
  split; [vm_compute; reflexivity|]. by split_and!.
Qed.

End SettingsEndpoint.

(** * Further properties of the code *)

(** ** The override list as a table: lookups after updates (config.js) *)

Module TableFacts.
Import Config ConfigFacts.

Lemma existingEntry_find d l :
  existingEntry d l = List.find (fun e => String.eqb (domain e) d) l.
Proof.
  unfold existingEntry. set (p := fun e => String.eqb (domain e) d).
  induction l as [|e l IH]; [done|]. cbn [Arr.findIndex List.find].
  destruct (p e) eqn:He; [done|].
  pose proof (ArrFacts.findIndex_range p l) as Hr.
  destruct (Z.eqb_spec (Arr.findIndex p l) (-1)) as [Heq|Hne].
  - rewrite Heq in IH. cbn in IH. by cbn.
  - destruct (Z.eqb_spec (Arr.findIndex p l + 1) (-1)) as [?|_]; [lia|].
    cbn [negb] in *. rewrite <- IH.
    replace (Z.to_nat (Arr.findIndex p l + 1))
      with (S (Z.to_nat (Arr.findIndex p l))) by lia.
    done.
Qed.

Lemma addToList_nil d rv :
  addToList d rv [] = [ {| domain := d; resolveVia := rv |} ].
Proof. reflexivity. Qed.

Lemma addToList_cons d rv e l :
  addToList d rv (e :: l)
  = if String.eqb (domain e) d then setResolveVia rv e :: l
    else e :: addToList d rv l.
Proof.
  unfold addToList. set (p := fun e => String.eqb (domain e) d).
  cbn [Arr.findIndex]. fold (p e). destruct (p e) eqn:He; [done|].
  pose proof (ArrFacts.findIndex_range p l) as Hr.
  destruct (Z.eqb_spec (Arr.findIndex p l) (-1)) as [Heq|Hne]; [done|].
  destruct (Z.eqb_spec (Arr.findIndex p l + 1) (-1)) as [?|_]; [lia|].
  cbn [negb].
  replace (Z.to_nat (Arr.findIndex p l + 1))
    with (S (Z.to_nat (Arr.findIndex p l))) by lia.
  done.
Qed.

Lemma removeFromList_cons d e l :
  removeFromList d (e :: l)
  = if String.eqb (domain e) d then removeFromList d l
    else e :: removeFromList d l.
Proof.
  unfold removeFromList. destruct (String.eqb_spec (domain e) d) as [He|He].
  - by rewrite filter_cons_False by (intros H; by apply H).
  - by rewrite filter_cons_True.
Qed.

Lemma removeFromList_app d l1 l2 :
  removeFromList d (l1 ++ l2) = removeFromList d l1 ++ removeFromList d l2.
Proof. apply filter_app. Qed.

End TableFacts.

Section TableLaws.
Import Config ConfigFacts TableFacts.

(** X1: Looking a domain up after adding it finds the new resolver, whatever
    the list held before; the lookup of any other domain is not affected. *)
Theorem lookup_after_add (d rv : string) (l : list overrideEntry) :
  existingEntry d (addToList d rv l)
  = Some {| domain := d; resolveVia := rv |}
  /\ forall d', d' <> d ->
       existingEntry d' (addToList d rv l) = existingEntry d' l.
Proof.
  split.
  - rewrite existingEntry_find.
    induction l as [|e l IH].
    + cbn. by rewrite String.eqb_refl.
    + rewrite addToList_cons.
      destruct (String.eqb_spec (domain e) d) as [He|He]; cbn.
      * rewrite He, String.eqb_refl. unfold setResolveVia. by rewrite He.
      * apply String.eqb_neq in He. by rewrite He.
  - intros d' Hd'. rewrite !existingEntry_find.
    induction l as [|e l IH].
    + cbn. apply String.eqb_neq in Hd'. by rewrite String.eqb_sym, Hd'.
    + rewrite addToList_cons.
      destruct (String.eqb_spec (domain e) d) as [He|He]; cbn.
      * assert (String.eqb (domain e) d' = false) as ->
          by (apply String.eqb_neq; congruence).
        done.
      * by rewrite IH.
Qed.

(** X2: Looking a domain up after removing it finds nothing, even when the list
    held it several times; the lookup of any other domain is not
    affected. *)
Theorem lookup_after_remove (d : string) (l : list overrideEntry) :
  existingEntry d (removeFromList d l) = None
  /\ forall d', d' <> d ->
       existingEntry d' (removeFromList d l) = existingEntry d' l.
Proof.
  split.
  - pose proof (existingEntry_spec d (removeFromList d l)) as H.
    destruct (existingEntry d (removeFromList d l)) as [e|]; [|done].
    destruct H as (l1 & l2 & Heq & He & _).
    exfalso. apply (removeFromList_gone d l). rewrite Heq, <- He.
    apply list_elem_of_fmap_2. set_solver.
  - intros d' Hd'. rewrite !existingEntry_find.
    induction l as [|e l IH]; [done|].
    rewrite removeFromList_cons.
    destruct (String.eqb_spec (domain e) d) as [He|He]; cbn.
    + assert (String.eqb (domain e) d' = false) as ->
        by (apply String.eqb_neq; congruence).
      done.
    + by rewrite IH.
Qed.

(** X3: Adding a domain and then removing it gives what removing it from the
    original list gives; a removal of another domain commutes with the
    addition. *)
Theorem remove_after_add (d rv : string) (l : list overrideEntry) :
  removeFromList d (addToList d rv l) = removeFromList d l
  /\ forall d', d' <> d ->
       removeFromList d' (addToList d rv l)
       = addToList d rv (removeFromList d' l).
Proof.
  split.
  - induction l as [|e l IH].
    + rewrite addToList_nil, removeFromList_cons. cbn [domain].
      by rewrite String.eqb_refl.
    + rewrite addToList_cons, (removeFromList_cons d e l).
      destruct (String.eqb_spec (domain e) d) as [He|He].
      * rewrite removeFromList_cons. cbn [setResolveVia domain].
        by rewrite He, String.eqb_refl.
      * rewrite removeFromList_cons.
        apply String.eqb_neq in He. by rewrite He, IH.
  - intros d' Hd'. induction l as [|e l IH].
    + rewrite addToList_nil, removeFromList_cons. cbn [domain].
      apply String.eqb_neq in Hd'. by rewrite String.eqb_sym, Hd'.
    + rewrite addToList_cons.
      destruct (String.eqb_spec (domain e) d) as [He|He].
      * rewrite !removeFromList_cons. cbn [setResolveVia domain].
        assert (String.eqb (domain e) d' = false) as ->
          by (apply String.eqb_neq; congruence).
        rewrite addToList_cons. apply String.eqb_eq in He. by rewrite He.
      * rewrite !removeFromList_cons.
        destruct (String.eqb (domain e) d') eqn:He'; [done|].
        rewrite addToList_cons. apply String.eqb_neq in He.
        by rewrite He, IH.
Qed.

(** X4: The last write wins: adding a domain twice is adding it once with the
    second resolver, so repeated additions never grow the list. *)
Theorem last_write_wins (d rv1 rv2 : string) (l : list overrideEntry) :
  addToList d rv2 (addToList d rv1 l) = addToList d rv2 l.
Proof.
  induction l as [|e l IH].
  - rewrite !addToList_nil, addToList_cons. cbn [domain].
    by rewrite String.eqb_refl.
  - rewrite (addToList_cons d rv1), (addToList_cons d rv2 e l).
    destruct (String.eqb (domain e) d) eqn:He.
    + rewrite addToList_cons. cbn [setResolveVia domain]. by rewrite He.
    + rewrite addToList_cons. by rewrite He, IH.
Qed.

(** X5: In a list that holds a domain more than once (a hand-edited file),
    [addDomain] gives the new resolver to the first of these entries only:
    everything after it, later entries of the same domain included, is left
    as it was. *)
Theorem add_updates_first_only
    (d rv : string) (l1 l2 : list overrideEntry) (x : overrideEntry) :
  domain x = d -> d ∉ domain <$> l1 ->
  addToList d rv (l1 ++ x :: l2)
  = l1 ++ {| domain := d; resolveVia := rv |} :: l2.
Proof.
  intros Hx Hl1. induction l1 as [|e l1 IH]; cbn [app].
  - rewrite addToList_cons. apply String.eqb_eq in Hx as Hx'.
    rewrite Hx'. unfold setResolveVia. by rewrite Hx.
  - rewrite fmap_cons, not_elem_of_cons in Hl1. destruct Hl1 as [He Hl1].
    rewrite addToList_cons.
    assert (String.eqb (domain e) d = false) as ->
      by (apply String.eqb_neq; congruence).
    by rewrite IH.
Qed.

Lemma add_updates_first_only_witness :
  addToList "netflix.com" "9.9.9.9" ([www_netflix] ++ netflix :: [netflix])
  = [www_netflix]
    ++ {| domain := "netflix.com"; resolveVia := "9.9.9.9" |} :: [netflix].
Proof.
  apply (add_updates_first_only "netflix.com" "9.9.9.9"
           [www_netflix] [netflix] netflix).
  - reflexivity.
  - cbn. intros [=]%list_elem_of_singleton.
Defined.

End TableLaws.

(** ** Lines and directives *)

Module LineFacts.
Import StrFacts Forwarder.

Lemma prefix_app (a s : string) :
  String.prefix a s = true <-> exists post, s = a +:+ post.
Proof.
  revert s. induction a as [|c a IH]; intros [|c' s]; cbn [String.prefix].
  - split; [by exists "" | done].
  - split; [by exists (String c' s) | done].
  - split; [done | by intros [post [=]]].
  - destruct (ascii_dec c c') as [<-|Hne].
    + rewrite IH. split; intros [post Hpost]; exists post.
      * by rewrite Hpost.
      * by injection Hpost.
    + split; [done|]. intros [post [= ? _]]. done.
Qed.

Lemma split_lines_nonempty (s : string) : Str.split_lines s <> [].
Proof.
  induction s as [|c s IH]; cbn; [done|].
  destruct (Ascii.eqb c Str.LF); [done|].
  by destruct (Str.split_lines s).
Qed.

(** Splitting at a line feed splits the list of lines. *)
Lemma split_lines_app (a b : string) :
  Str.split_lines (a +:+ Str.nl +:+ b)
  = Str.split_lines a ++ Str.split_lines b.
Proof.
  induction a as [|c a IH]; [done|].
  change (String c a +:+ Str.nl +:+ b) with (String c (a +:+ Str.nl +:+ b)).
  cbn [Str.split_lines]. rewrite IH.
  destruct (Ascii.eqb c Str.LF); [done|].
  pose proof (split_lines_nonempty a).
  by destruct (Str.split_lines a).
Qed.

Lemma split_lines_no_LF (a : string) :
  Str.no_LF a = true -> Str.split_lines a = [a].
Proof.
  induction a as [|c a IH]; [done|]. cbn.
  intros [Hc Ha]%andb_true_iff. apply negb_true_iff in Hc.
  by rewrite Hc, IH.
Qed.

Lemma no_LF_app (a b : string) :
  Str.no_LF (a +:+ b) = Str.no_LF a && Str.no_LF b.
Proof.
  induction a as [|c a IH]; [done|].
  change (String c a +:+ b) with (String c (a +:+ b)). cbn.
  by rewrite IH, andb_assoc.
Qed.

Lemma directives_app (a b : string) :
  directives (a +:+ Str.nl +:+ b) = directives a ++ directives b.
Proof. unfold directives. by rewrite split_lines_app, List.filter_app. Qed.

Lemma directives_comment (a : string) :
  Str.no_LF a = true -> isDirective a = false -> directives a = [].
Proof.
  intros Ha Hd. unfold directives. rewrite split_lines_no_LF by done.
  cbn. by rewrite Hd.
Qed.

Lemma directives_one (a : string) :
  Str.no_LF a = true -> isDirective a = true -> directives a = [a].
Proof.
  intros Ha Hd. unfold directives. rewrite split_lines_no_LF by done.
  cbn. by rewrite Hd.
Qed.

Lemma isDirective_cons (c : ascii) (s : string) :
  c <> "#"%char -> isDirective (String c s) = true.
Proof.
  intros Hc. unfold isDirective.
  assert (String.prefix "#" (String c s) = false) as ->; [|done].
  change (String.prefix "#" (String c s))
    with (match ascii_dec "#"%char c with
          | left _ => String.prefix "" s
          | right _ => false
          end).
  destruct (ascii_dec "#" c); [congruence | done].
Qed.

Lemma concat_map_ext {A} (f g : A -> string) (l : list A) :
  (forall x, f x = g x) -> Str.concat_map f l = Str.concat_map g l.
Proof.
  intros H. induction l as [|x l IH]; [done|].
  cbn [Str.concat_map fold_right]. rewrite H. f_equal. exact IH.
Qed.

(** A run of lines that are all directives. *)
Lemma directives_lines {A} (f : A -> string) (l : list A) (rest : string) :
  Forall (fun x => Str.no_LF (f x) = true /\ isDirective (f x) = true) l ->
  directives (Str.concat_map (fun x => f x +:+ Str.nl) l +:+ rest)
  = map f l ++ directives rest.
Proof.
  induction 1 as [|x l [Hx Hd] _ IH]; [done|].
  cbn [Str.concat_map fold_right map]. rewrite !app_assoc.
  rewrite directives_app, directives_one by done.
  cbn [app]. f_equal. exact IH.
Qed.

End LineFacts.

Section Strings.
Import StrFacts LineFacts.

(** [includes] is the substring test. *)
Theorem includes_spec (needle s : string) :
  Str.includes needle s = true
  <-> exists pre post, s = pre +:+ needle +:+ post.
Proof.
  induction s as [|c s IH].
  - cbn [Str.includes]. rewrite orb_false_r, prefix_app. split.
    + intros [post ->]. by exists "", post.
    + intros (pre & post & H). destruct pre as [|c pre]; [eauto | done].
  - cbn [Str.includes]. rewrite orb_true_iff, prefix_app, IH. split.
    + intros [[post ->] | (pre & post & ->)].
      * by exists "", post.
      * by exists (String c pre), post.
    + intros (pre & post & H). destruct pre as [|c' pre].
      * left. by exists post.
      * right. injection H as -> ->. eauto.
Qed.

(** Joining lines with line feeds and splitting the text again gives the
    lines back, provided there is at least one line and none holds a line
    feed. *)
Theorem split_join (l : list string) :
  l <> [] -> Forall (fun line => Str.no_LF line = true) l ->
  Str.split_lines (Api.join l) = l.
Proof.
  intros Hne Hl. induction Hl as [|x l Hx Hl IH]; [done|].
  destruct l as [|y l].
  - cbn [Api.join]. by apply split_lines_no_LF.
  - change (Api.join (x :: y :: l)) with (x +:+ Str.nl +:+ Api.join (y :: l)).
    rewrite split_lines_app, split_lines_no_LF by done.
    cbn [app]. f_equal. by apply IH.
Qed.

Lemma split_join_witness :
  Str.split_lines (Api.join ["port=53"; ""; "server=8.8.8.8"])
  = ["port=53"; ""; "server=8.8.8.8"].
Proof.
  apply (split_join ["port=53"; ""; "server=8.8.8.8"]).
  - discriminate.
  - repeat constructor.
Defined.

End Strings.

(** ** The directives of the generated files (dnsconfig.js, the script) *)

Module DirectiveFacts.
Import StrFacts LineFacts ContentFacts DnsConfig Forwarder.

Lemma all_chars_no_LF (P : ascii -> bool) (s : string) :
  P Str.LF = false -> all_chars P s = true -> Str.no_LF s = true.
Proof.
  intros HP. induction s as [|c s IH]; [done|]. cbn.
  intros [Hc Hs]%andb_true_iff. rewrite IH by done.
  destruct (Ascii.eqb_spec c Str.LF) as [->|_]; [congruence | done].
Qed.

Lemma serverLine_eq : forall dns, serverLine dns = serverDirective dns +:+ Str.nl.
Proof. intros dns. unfold serverLine, serverDirective. by rewrite app_assoc. Qed.

Lemma overrideLine_eq :
  forall item, overrideLine item = overrideDirective item +:+ Str.nl.
Proof.
  intros item. unfold overrideLine, overrideDirective.
  by rewrite !app_assoc.
Qed.

Lemma serverDirective_plain dns :
  Str.no_LF dns = true ->
  Str.no_LF (serverDirective dns) = true
  /\ isDirective (serverDirective dns) = true.
Proof.
  intros H. unfold serverDirective. rewrite no_LF_app, H. split; [done|].
  by apply (isDirective_cons "s").
Qed.

Lemma overrideDirective_plain item :
  plainEntry item = true ->
  Str.no_LF (overrideDirective item) = true
  /\ isDirective (overrideDirective item) = true.
Proof.
  intros [Hd Hr]%andb_true_iff. unfold overrideDirective.
  rewrite !no_LF_app, Hd, Hr. split; [done|].
  by apply (isDirective_cons "s").
Qed.

(** The directives below the heading of the overrides. *)
Lemma directives_domainBlock dl :
  Forall (fun item => plainEntry item = true) (storedEntries dl) ->
  directives (domainBlock dl) = map overrideDirective (storedEntries dl).
Proof.
  unfold domainBlock, storedEntries.
  destruct (domains dl) as [[|item items]|]; [done| |done].
  intros Hplain.
  rewrite (concat_map_ext _ _ _ overrideLine_eq).
  rewrite <- (app_nil_r (Str.concat_map _ _)).
  rewrite directives_lines; [by rewrite List.app_nil_r|].
  eapply Forall_impl; [exact Hplain|].
  intros e He. by apply overrideDirective_plain.
Qed.

Lemma directives_scriptBlock items :
  Forall (fun item => plainEntry item = true) items ->
  directives (Str.concat_map overrideLine items) = map overrideDirective items.
Proof.
  intros Hplain.
  rewrite (concat_map_ext _ _ _ overrideLine_eq).
  rewrite <- (app_nil_r (Str.concat_map _ _)).
  rewrite directives_lines; [by rewrite List.app_nil_r|].
  eapply Forall_impl; [exact Hplain|].
  intros e He. by apply overrideDirective_plain.
Qed.

(** The text above the overrides, line by line. *)
Lemma directives_upper ds alt (lower : string) :
  Str.no_LF (toStr (port ds)) = true ->
  Str.no_LF (toStr (cacheSize ds)) = true ->
  Forall (fun dns => Str.no_LF dns = true) alt ->
  directives (settingsBlock ds
              +:+ "# Alternative DNS servers" +:+ Str.nl
              +:+ Str.concat_map serverLine alt
              +:+ Str.nl +:+ "# Domain specific configurations" +:+ Str.nl
              +:+ lower)
  = settingLines ds ++ map serverDirective alt ++ directives lower.
Proof.
  intros Hport Hcache Halt.
  assert (settingsBlock ds
          +:+ "# Alternative DNS servers" +:+ Str.nl
          +:+ Str.concat_map serverLine alt
          +:+ Str.nl +:+ "# Domain specific configurations" +:+ Str.nl
          +:+ lower
          = "# Basic configuration" +:+ Str.nl
            +:+ ("port=" +:+ toStr (port ds)) +:+ Str.nl
            +:+ ("cache-size=" +:+ toStr (cacheSize ds)) +:+ Str.nl
            +:+ ("log-queries="
                 +:+ (if truthy (logQueries ds) then "true" else "false"))
            +:+ Str.nl
            +:+ "" +:+ Str.nl
            +:+ "# Alternative DNS servers" +:+ Str.nl
            +:+ (Str.concat_map (fun dns => serverDirective dns +:+ Str.nl) alt
                 +:+ ("" +:+ Str.nl
                      +:+ "# Domain specific configurations" +:+ Str.nl
                      +:+ lower))) as ->.
  { rewrite (concat_map_ext _ _ _ serverLine_eq).
    unfold settingsBlock. rewrite !app_assoc. reflexivity. }
  rewrite directives_app, (directives_comment "# Basic configuration")
    by done.
  rewrite directives_app, directives_one;
    [|by rewrite no_LF_app, Hport | by apply (isDirective_cons "p")].
  rewrite directives_app, directives_one;
    [|by rewrite no_LF_app, Hcache | by apply (isDirective_cons "c")].
  rewrite directives_app, directives_one;
    [|by destruct (truthy (logQueries ds))
     |by destruct (truthy (logQueries ds))].
  rewrite directives_app, (directives_comment "") by done.
  rewrite directives_app, (directives_comment "# Alternative DNS servers")
    by done.
  rewrite directives_lines.
  2:{ eapply Forall_impl; [exact Halt|].
      intros dns Hdns. by apply serverDirective_plain. }
  rewrite directives_app, (directives_comment "") by done.
  rewrite directives_app,
    (directives_comment "# Domain specific configurations") by done.
  reflexivity.
Qed.

Lemma dnsmasqConfig_eq generatedAt ds alt items :
  Script.dnsmasqConfig generatedAt ds alt items
  = "# Smart DNS Proxy configuration" +:+ Str.nl
    +:+ ("# Generated at " +:+ generatedAt) +:+ Str.nl
    +:+ "" +:+ Str.nl
    +:+ scriptBody ds alt items.
Proof.
  unfold Script.dnsmasqConfig, scriptBody, settingsBlock.
  change ("" +:+ Str.nl +:+ ?x) with (Str.nl +:+ x).
  cbv zeta. rewrite ?forEach_append_concat, ?app_assoc. reflexivity.
Qed.

Lemma directives_dnsmasqConfig generatedAt ds alt items :
  Str.no_LF generatedAt = true ->
  directives (Script.dnsmasqConfig generatedAt ds alt items)
  = directives (scriptBody ds alt items).
Proof.
  intros Ht. rewrite dnsmasqConfig_eq.
  rewrite directives_app, directives_comment by done.
  rewrite directives_app, directives_comment by done.
  by rewrite directives_app, directives_comment by done.
Qed.

(** The overrides apart, the two bodies are the same text, and the text
    below them holds no line feed of the text above. *)
Lemma directives_bodies ds alt items :
  directives (body ds alt {| domains := Some items |})
  = directives (scriptBody ds alt items).
Proof.
  unfold body, scriptBody, domainBlock. cbn [domains].
  destruct items as [|item items]; [|done].
  set (upper := settingsBlock ds +:+ "# Alternative DNS servers" +:+ Str.nl
                +:+ Str.concat_map serverLine alt).
  assert (forall lower,
            settingsBlock ds +:+ "# Alternative DNS servers" +:+ Str.nl
            +:+ Str.concat_map serverLine alt
            +:+ Str.nl +:+ "# Domain specific configurations" +:+ Str.nl
            +:+ lower
            = upper +:+ Str.nl
              +:+ "# Domain specific configurations" +:+ Str.nl +:+ lower)
    as Hshape by (intros lower; unfold upper; by rewrite !app_assoc).
  rewrite !Hshape, !directives_app. reflexivity.
Qed.

End DirectiveFacts.

Section Directives.
Import StrFacts LineFacts ContentFacts DirectiveFacts DnsConfig Forwarder.

(** X6: The directives of the generated file, in full: when the time stamp,
    the port, the cache size, the upstream addresses and the fields of the
    overrides hold no line feed, the forwarder reads the three settings,
    then one [server=] directive per default upstream in list order, then
    one per override in list order, and nothing else. *)
Theorem directives_of_configContent
    (generatedAt : string) (ds : dnsServerSettings) (alt : list string)
    (dl : domainList) :
  Str.no_LF generatedAt = true ->
  Str.no_LF (toStr (port ds)) = true ->
  Str.no_LF (toStr (cacheSize ds)) = true ->
  Forall (fun dns => Str.no_LF dns = true) alt ->
  Forall (fun item => plainEntry item = true) (storedEntries dl) ->
  directives (configContent generatedAt ds alt dl)
  = settingLines ds ++ map serverDirective alt
    ++ map overrideDirective (storedEntries dl).
Proof.
  intros Ht Hport Hcache Halt Hplain.
  rewrite directives_configContent by done. unfold body.
  rewrite directives_upper by done.
  by rewrite directives_domainBlock.
Qed.

Lemma directives_of_configContent_witness :
  directives (configContent "2024-01-01T00:00:00.000Z"
                {| port := JNum 53; cacheSize := JNum 1000;
                   logQueries := JBool true |}
                ["8.8.8.8"; "1.1.1.1"] defaultIpList)
  = ["port=53"; "cache-size=1000"; "log-queries=true";
     "server=8.8.8.8"; "server=1.1.1.1";
     "server=/netflix.com/1.1.1.1"; "server=/spotify.com/8.8.8.8"].
Proof.
  apply (directives_of_configContent "2024-01-01T00:00:00.000Z"
           {| port := JNum 53; cacheSize := JNum 1000;
              logQueries := JBool true |}
           ["8.8.8.8"; "1.1.1.1"] defaultIpList).
  - reflexivity.
  - reflexivity.
  - reflexivity.
  - repeat constructor.
  - repeat constructor.
Defined.

(** X7: An override that passes the validation of POST /api/domains is read by
    the forwarder as exactly one directive: it cannot bring a second line
    into the file. *)
Theorem accepted_entry_is_one_directive (d rv : string) :
  entryAccepted (JStr d) (JStr rv) = true ->
  directives (overrideLine {| domain := d; resolveVia := rv |})
  = [ "server=/" +:+ d +:+ "/" +:+ rv ].
Proof.
  unfold entryAccepted, Regex.test. cbn [toStr].
  intros [[_ Hd]%andb_true_iff Hrv]%andb_true_iff.
  apply (RegexFacts.matches_within domainChar) in Hd;
    [|apply RegexFacts.within_domainPattern].
  apply (RegexFacts.matches_within quadChar) in Hrv;
    [|apply RegexFacts.within_ipPattern].
  apply all_chars_no_LF in Hd; [|done].
  apply all_chars_no_LF in Hrv; [|done].
  rewrite overrideLine_eq, <- (app_nil_r Str.nl).
  rewrite directives_app.
  destruct (overrideDirective_plain {| domain := d; resolveVia := rv |})
    as [Hplain Hdir]; [unfold plainEntry; cbn; by rewrite Hd, Hrv|].
  by rewrite directives_one.
Qed.

Lemma accepted_entry_is_one_directive_witness :
  directives (overrideLine {| domain := "netflix.com";
                              resolveVia := "1.1.1.1" |})
  = [ "server=/" +:+ "netflix.com" +:+ "/" +:+ "1.1.1.1" ].
Proof.
  apply (accepted_entry_is_one_directive "netflix.com" "1.1.1.1").
  vm_compute. reflexivity.
Defined.

(** X8: The start-up script and the console write files that the forwarder
    reads alike: for the same settings and the same list of overrides the
    two texts have the same directives in the same order, whatever the two
    times of generation and whatever the fields hold. *)
Theorem script_agrees_with_console
    (t1 t2 : string) (ds : dnsServerSettings) (alt : list string)
    (items : list overrideEntry) :
  Str.no_LF t1 = true -> Str.no_LF t2 = true ->
  directives (Script.dnsmasqConfig t1 ds alt items)
  = directives (configContent t2 ds alt {| domains := Some items |}).
Proof.
  intros H1 H2.
  rewrite directives_dnsmasqConfig, directives_configContent by done.
  symmetry. apply directives_bodies.
Qed.

Lemma script_agrees_with_console_witness :
  directives (Script.dnsmasqConfig "2024-01-01T00:00:00.000Z"
                {| port := JNum 53; cacheSize := JNum 1000;
                   logQueries := JBool true |} ["8.8.8.8"] [])
  = directives (configContent "2024-06-30T12:00:00.000Z"
                  {| port := JNum 53; cacheSize := JNum 1000;
                     logQueries := JBool true |} ["8.8.8.8"]
                  {| domains := Some [] |}).
Proof.
  apply (script_agrees_with_console
           "2024-01-01T00:00:00.000Z" "2024-06-30T12:00:00.000Z").
  - reflexivity.
  - reflexivity.
Defined.

End Directives.

(** ** Running in a calm world *)

Module Calm.
Import Run LoggerFacts Config ConfigRun DnsConfig.

(** Closes an inclusion between two literal lists of paths. *)
Ltac sub_paths :=
  let p := fresh "p" in
  intros p; rewrite ?elem_of_app, ?elem_of_cons, ?elem_of_nil; tauto.

(** Closes [p ∉ [p1; ...; pn]] for literal paths. *)
Ltac other_path :=
  rewrite ?not_elem_of_cons; repeat split;
  solve [ discriminate | apply not_elem_of_nil | done ].

Lemma steady_refl w : calm w -> steady [] w w.
Proof. intros Hc. by split. Qed.

Lemma steady_trans ps1 ps2 w w1 w2 :
  steady ps1 w w1 -> steady ps2 w1 w2 -> steady (ps1 ++ ps2) w w2.
Proof.
  intros [Hf1 _ Hs1] [Hf2 Hc2 Hs2]. split; [|done|congruence].
  intros p Hp. rewrite not_elem_of_app in Hp. destruct Hp.
  by rewrite Hf2, Hf1.
Qed.

Lemma steady_mono ps qs w w' :
  (forall p, p ∈ ps -> p ∈ qs) -> steady ps w w' -> steady qs w w'.
Proof. intros Hsub [Hf Hc Hs]. split; [|done..]. intros p Hp. apply Hf. auto. Qed.

Lemma steady_calm_of ps w w' : steady ps w w' -> calm w'.
Proof. by intros []. Qed.

Lemma steady_stored ps c l w w' :
  CONFIG_PATH ∉ ps -> IPS_PATH ∉ ps ->
  steady ps w w' -> stored c l w -> stored c l w'.
Proof.
  intros H1 H2 [Hf _ _] [Hc Hl]. split; by rewrite Hf.
Qed.

Lemma text_steady ps w w' d : steady ps w w' -> Fs.text w' d = Fs.text w d.
Proof. intros [_ _ Hs]. destruct d; [done|]. cbn. by rewrite Hs. Qed.

Lemma textAt_steady ps w w' p :
  steady ps w w' -> p ∉ ps -> textAt w' p = textAt w p.
Proof.
  intros Hs Hp. unfold textAt. rewrite (steady_files _ _ _ Hs) by done.
  destruct (files w !! p); [by eapply text_steady | done].
Qed.

Lemma date_steady w :
  calm w ->
  exists w', date_string w = (Ok (clock w (ticks w)), w') /\ steady [] w w'.
Proof. intros Hc. eexists. split; [reflexivity|]. by split. Qed.

Lemma console_steady ch line w :
  calm w -> exists w', console_out ch line w = (Ok tt, w') /\ steady [] w w'.
Proof. intros Hc. eexists. split; [reflexivity|]. by split. Qed.

Lemma mkdir_steady dir w : calm w -> Fs.mkdir dir w = (Ok tt, w).
Proof. intros Hc. unfold Fs.mkdir. by rewrite io_calm. Qed.

Lemma writeFile_steady path d w :
  calm w ->
  exists w', Fs.writeFile path d w = (Ok tt, w')
             /\ steady [path] w w'
             /\ files w' !! path = Some d.
Proof.
  intros Hc. rewrite writeFile_calm by done. eexists. split; [done|].
  split; [split; [|done..]|]; cbn.
  - intros p Hp. rewrite lookup_insert_ne; [done|].
    intros ->. apply Hp. by left.
  - by rewrite lookup_insert_eq.
Qed.

Lemma appendFile_steady path text w :
  calm w ->
  exists w', Fs.appendFile path text w = (Ok tt, w')
             /\ steady [path] w w'
             /\ files w' !! path = Some (Text (textAt w path +:+ text)).
Proof.
  intros Hc. unfold Fs.appendFile. rewrite io_calm by done.
  eexists. split; [done|]. split; [split; [|done..]|]; cbn.
  - intros p Hp. rewrite lookup_insert_ne; [done|].
    intros ->. apply Hp. by left.
  - by rewrite lookup_insert_eq.
Qed.

(** A logger call in a calm world: the line lands at the end of its log. *)
Lemma log_steady path msg label w :
  calm w ->
  exists w',
    try_catch (Fs.appendFile path msg)
      (fun err => console_error (label +:+ message err)) w = (Ok tt, w')
    /\ steady [path] w w'
    /\ files w' !! path = Some (Text (textAt w path +:+ msg)).
Proof.
  intros Hc. destruct (appendFile_steady path msg w Hc) as (w' & Hrun & H).
  exists w'. by erewrite try_ok by exact Hrun.
Qed.

Lemma info_steady msg w :
  calm w ->
  exists w',
    Logger.info msg w = (Ok tt, w')
    /\ steady [Logger.accessLogPath] w w'
    /\ files w' !! Logger.accessLogPath
       = Some (Text (textAt w Logger.accessLogPath
                     +:+ "[" +:+ clock w (ticks w) +:+ "] "
                     +:+ ("INFO: " +:+ msg) +:+ Str.nl)).
Proof.
  intros Hc. unfold Logger.info, Logger.formatLogMessage.
  erewrite bind_ok; [|erewrite bind_ok; reflexivity].
  erewrite bind_ok; [|reflexivity].
  edestruct log_steady as (w' & Hrun & [Hf Hc' Hs] & Hfile);
    [|exists w'; split; [exact Hrun|]]; [done|].
  split; [by split|]. by rewrite Hfile.
Qed.

Lemma error_steady msg w :
  calm w ->
  exists w', Logger.error msg w = (Ok tt, w')
             /\ steady [Logger.errorLogPath] w w'.
Proof.
  intros Hc. unfold Logger.error, Logger.formatLogMessage.
  erewrite bind_ok; [|erewrite bind_ok; reflexivity].
  erewrite bind_ok; [|reflexivity].
  edestruct log_steady as (w' & Hrun & [Hf Hc' Hs] & Hfile);
    [|exists w'; split; [exact Hrun|]]; [done|].
  by split.
Qed.

(** With both stored documents in place, nothing is created. *)
Lemma ensure_present w :
  calm w ->
  is_Some (files w !! CONFIG_PATH) -> is_Some (files w !! IPS_PATH) ->
  ensureConfigExists w = (Ok tt, w).
Proof.
  intros Hc [c Hcfg] [d Hips]. unfold ensureConfigExists.
  erewrite bind_ok by (eapply try_ok, access_calm; done).
  eapply try_ok, access_calm; done.
Qed.

Lemma getConfig_present w doc :
  calm w ->
  files w !! CONFIG_PATH = Some (Json doc) ->
  is_Some (files w !! IPS_PATH) ->
  getConfig w = (Ok (asConfig doc), w).
Proof.
  intros Hc Hcfg Hips. unfold getConfig.
  erewrite bind_ok by (apply ensure_present; eauto).
  erewrite bind_ok by (by eapply readFile_calm).
  reflexivity.
Qed.

Lemma getDomainList_present w doc :
  calm w ->
  is_Some (files w !! CONFIG_PATH) ->
  files w !! IPS_PATH = Some (Json doc) ->
  getDomainList w = (Ok (asDomainList doc), w).
Proof.
  intros Hc Hcfg Hips. unfold getDomainList.
  erewrite bind_ok by (apply ensure_present; eauto).
  erewrite bind_ok by (by eapply readFile_calm).
  reflexivity.
Qed.

Lemma stored_getConfig c l w :
  calm w -> stored c l w -> getConfig w = (Ok c, w).
Proof.
  intros Hc [Hcfg Hips].
  by rewrite (getConfig_present w (ConfigDoc c)) by eauto.
Qed.

Lemma stored_getDomainList c l w :
  calm w -> stored c l w ->
  getDomainList w = (Ok {| domains := Some l |}, w).
Proof.
  intros Hc [Hcfg Hips].
  by rewrite (getDomainList_present w (DomainsDoc {| domains := Some l |}))
    by eauto.
Qed.

End Calm.

Module CalmStore.
Import Run LoggerFacts Config ConfigRun DnsConfig Calm.

Lemma saveConfig_steady c w :
  calm w ->
  exists w', saveConfig c w = (Ok true, w')
             /\ steady [CONFIG_PATH; Logger.accessLogPath] w w'
             /\ files w' !! CONFIG_PATH = Some (Json (ConfigDoc c)).
Proof.
  intros Hc. unfold saveConfig.
  destruct (writeFile_steady CONFIG_PATH (Json (ConfigDoc c)) w Hc)
    as (w1 & Hrun1 & Hs1 & Hf1).
  erewrite bind_ok by exact Hrun1.
  destruct (info_steady "Configuration saved successfully" w1
              (steady_calm_of _ _ _ Hs1)) as (w2 & Hrun2 & Hs2 & _).
  erewrite bind_ok by exact Hrun2.
  exists w2. split; [done|]. split; [exact (steady_trans _ _ _ _ _ Hs1 Hs2)|].
  rewrite (steady_files _ _ _ Hs2) by other_path. done.
Qed.

Lemma saveDomainList_steady l w :
  calm w ->
  exists w', saveDomainList l w = (Ok true, w')
             /\ steady [IPS_PATH; Logger.accessLogPath] w w'
             /\ files w' !! IPS_PATH
                = Some (Json (DomainsDoc {| domains := Some l |})).
Proof.
  intros Hc. unfold saveDomainList.
  destruct (writeFile_steady IPS_PATH
              (Json (DomainsDoc {| domains := Some l |})) w Hc)
    as (w1 & Hrun1 & Hs1 & Hf1).
  erewrite bind_ok by exact Hrun1.
  destruct (info_steady "Domain list saved successfully" w1
              (steady_calm_of _ _ _ Hs1)) as (w2 & Hrun2 & Hs2 & _).
  erewrite bind_ok by exact Hrun2.
  exists w2. split; [done|]. split; [exact (steady_trans _ _ _ _ _ Hs1 Hs2)|].
  rewrite (steady_files _ _ _ Hs2) by other_path. done.
Qed.

Lemma stored_after_save_list c l l' ps w w' :
  CONFIG_PATH ∉ ps ->
  steady ps w w' -> stored c l w ->
  files w' !! IPS_PATH = Some (Json (DomainsDoc {| domains := Some l' |})) ->
  stored c l' w'.
Proof.
  intros Hp Hs [Hcfg _] Hips. split; [|done].
  by rewrite (steady_files _ _ _ Hs).
Qed.

Lemma config_addDomain_steady d rv c l w :
  calm w -> stored c l w ->
  exists w',
    Config.addDomain d rv w
    = (Ok {| domains := Some (addToList d rv l) |}, w')
    /\ steady [IPS_PATH; Logger.accessLogPath] w w'
    /\ stored c (addToList d rv l) w'.
Proof.
  intros Hc Hst. unfold Config.addDomain.
  erewrite bind_ok by (by eapply stored_getDomainList). cbn [domains].
  destruct (saveDomainList_steady (addToList d rv l) w Hc)
    as (w' & Hrun & Hs & Hf).
  erewrite bind_ok by exact Hrun.
  exists w'. split; [done|]. split; [done|].
  eapply stored_after_save_list; [|done..]. other_path.
Qed.

Lemma config_removeDomain_steady d c l w :
  calm w -> stored c l w ->
  exists w',
    Config.removeDomain d w
    = (Ok {| domains := Some (removeFromList d l) |}, w')
    /\ steady [IPS_PATH; Logger.accessLogPath] w w'
    /\ stored c (removeFromList d l) w'.
Proof.
  intros Hc Hst. unfold Config.removeDomain.
  erewrite bind_ok by (by eapply stored_getDomainList). cbn [domains].
  destruct (saveDomainList_steady (removeFromList d l) w Hc)
    as (w' & Hrun & Hs & Hf).
  erewrite bind_ok by exact Hrun.
  exists w'. split; [done|]. split; [done|].
  eapply stored_after_save_list; [|done..]. other_path.
Qed.

End CalmStore.

Module CalmDns.
Import Run LoggerFacts Config ConfigRun DnsConfig Calm CalmStore.

Lemma generate_steady appConfig dl ds alt w :
  calm w ->
  dnsServer appConfig = Some ds -> alternativeDNS appConfig = Some alt ->
  exists generatedAt w',
    generateDnsmasqConfig appConfig dl w = (Ok tt, w')
    /\ steady [Logger.accessLogPath; CUSTOM_CONFIG_FILE] w w'
    /\ files w' !! CUSTOM_CONFIG_FILE
       = Some (Text (configContent generatedAt ds alt dl)).
Proof.
  intros Hc Hds Halt. unfold generateDnsmasqConfig.
  destruct (info_steady "Generating DNS configuration" w Hc)
    as (w1 & Hrun1 & Hs1 & _).
  erewrite bind_ok by exact Hrun1.
  destruct (date_steady w1 (steady_calm_of _ _ _ Hs1))
    as (w2 & Hrun2 & Hs2).
  erewrite bind_ok by exact Hrun2. rewrite Hds, Halt.
  destruct (writeFile_steady CUSTOM_CONFIG_FILE
              (Text (configContent (clock w1 (ticks w1)) ds alt dl)) w2
              (steady_calm_of _ _ _ Hs2)) as (w3 & Hrun3 & Hs3 & Hf3).
  erewrite bind_ok by exact Hrun3.
  destruct (info_steady ("DNS configuration generated at "
                         +:+ CUSTOM_CONFIG_FILE) w3
              (steady_calm_of _ _ _ Hs3)) as (w4 & Hrun4 & Hs4 & _).
  exists (clock w1 (ticks w1)), w4. split; [exact Hrun4|]. split.
  - eapply steady_mono;
      [|exact (steady_trans _ _ _ _ _
                 (steady_trans _ _ _ _ _
                    (steady_trans _ _ _ _ _ Hs1 Hs2) Hs3) Hs4)].
    sub_paths.
  - rewrite (steady_files _ _ _ Hs4) by other_path. done.
Qed.

Lemma restart_steady w :
  calm w ->
  exists now w',
    restartDnsmasq w = (Ok true, w')
    /\ steady [Logger.accessLogPath; Logger.dnsLogPath] w w'
    /\ files w' !! Logger.dnsLogPath
       = Some (Text (textAt w Logger.dnsLogPath
                     +:+ "[" +:+ now +:+ "] INFO: DNS service restarted"
                     +:+ Str.nl)).
Proof.
  intros Hc. unfold restartDnsmasq.
  destruct (info_steady "Simulating DNS service restart" w Hc)
    as (w1 & Hrun1 & Hs1 & _).
  destruct (date_steady w1 (steady_calm_of _ _ _ Hs1))
    as (w2 & Hrun2 & Hs2).
  destruct (appendFile_steady Logger.dnsLogPath
              ("[" +:+ clock w1 (ticks w1)
               +:+ "] INFO: DNS service restarted" +:+ Str.nl) w2
              (steady_calm_of _ _ _ Hs2)) as (w3 & Hrun3 & Hs3 & Hf3).
  destruct (info_steady "DNS service restart simulated successfully" w3
              (steady_calm_of _ _ _ Hs3)) as (w4 & Hrun4 & Hs4 & _).
  exists (clock w1 (ticks w1)), w4. split.
  - eapply try_ok. erewrite bind_ok by exact Hrun1.
    erewrite bind_ok by exact Hrun2. erewrite bind_ok by exact Hrun3.
    erewrite bind_ok by exact Hrun4. reflexivity.
  - split.
    + eapply steady_mono;
        [|exact (steady_trans _ _ _ _ _
                   (steady_trans _ _ _ _ _
                      (steady_trans _ _ _ _ _ Hs1 Hs2) Hs3) Hs4)].
      sub_paths.
    + rewrite (steady_files _ _ _ Hs4) by other_path. rewrite Hf3.
      rewrite (textAt_steady _ _ _ _ Hs2) by other_path.
      rewrite (textAt_steady _ _ _ _ Hs1) by other_path.
      reflexivity.
Qed.

Lemma report_steady l w :
  calm w ->
  exists now w',
    generateBypassReport {| domains := Some l |} w = (Ok tt, w')
    /\ steady [REPORT_PATH; Logger.accessLogPath] w w'
    /\ files w' !! REPORT_PATH
       = Some (Json (ReportDoc {| timestamp := now;
                                  totalDomains := length l;
                                  reportDomains := l;
                                  dnsServers := countServers l |})).
Proof.
  intros Hc. unfold generateBypassReport.
  destruct (date_steady w Hc) as (w1 & Hrun1 & Hs1).
  edestruct writeFile_steady as (w2 & Hrun2 & Hs2 & Hf2);
    [exact (steady_calm_of _ _ _ Hs1)|].
  destruct (info_steady ("Bypass report generated at " +:+ REPORT_PATH) w2
              (steady_calm_of _ _ _ Hs2)) as (w3 & Hrun3 & Hs3 & _).
  exists (clock w (ticks w)), w3. split.
  - eapply try_ok. erewrite bind_ok by exact Hrun1. cbn [domains].
    erewrite bind_ok by exact Hrun2. exact Hrun3.
  - split.
    + eapply steady_mono;
        [|exact (steady_trans _ _ _ _ _
                   (steady_trans _ _ _ _ _ Hs1 Hs2) Hs3)].
      sub_paths.
    + rewrite (steady_files _ _ _ Hs3) by other_path. exact Hf2.
Qed.

Lemma update_steady c l ds alt w :
  calm w -> stored c l w ->
  dnsServer c = Some ds -> alternativeDNS c = Some alt ->
  exists w', updateDNSConfig w = (Ok true, w') /\ reloaded ds alt l w w'.
Proof.
  intros Hc Hst Hds Halt. unfold updateDNSConfig.
  destruct (generate_steady c {| domains := Some l |} ds alt w Hc Hds Halt)
    as (t1 & w1 & Hrun1 & Hs1 & Hf1).
  destruct (restart_steady w1 (steady_calm_of _ _ _ Hs1))
    as (t2 & w2 & Hrun2 & Hs2 & Hf2).
  destruct (report_steady l w2 (steady_calm_of _ _ _ Hs2))
    as (t3 & w3 & Hrun3 & Hs3 & Hf3).
  destruct (info_steady "DNS configuration updated successfully" w3
              (steady_calm_of _ _ _ Hs3)) as (w4 & Hrun4 & Hs4 & _).
  exists w4. split.
  - eapply try_ok.
    erewrite bind_ok by (by eapply stored_getConfig).
    erewrite bind_ok by (by eapply stored_getDomainList).
    erewrite bind_ok by exact Hrun1. erewrite bind_ok by exact Hrun2.
    erewrite bind_ok by exact Hrun3. erewrite bind_ok by exact Hrun4.
    reflexivity.
  - split.
    + eapply steady_mono;
        [|exact (steady_trans _ _ _ _ _
                   (steady_trans _ _ _ _ _
                      (steady_trans _ _ _ _ _ Hs1 Hs2) Hs3) Hs4)].
      sub_paths.
    + exists t1.
      rewrite (steady_files _ _ _ Hs4), (steady_files _ _ _ Hs3),
        (steady_files _ _ _ Hs2) by other_path. done.
    + exists t2.
      rewrite (steady_files _ _ _ Hs4), (steady_files _ _ _ Hs3)
        by other_path.
      rewrite Hf2.
      by rewrite (textAt_steady _ _ _ _ Hs1) by other_path.
    + exists t3. rewrite (steady_files _ _ _ Hs4) by other_path. done.
Qed.

End CalmDns.

Module CalmApi.
Import Run LoggerFacts Config ConfigRun DnsConfig Calm CalmStore CalmDns.

Lemma dns_addDomain_steady d rv c l ds alt w :
  calm w -> stored c l w ->
  dnsServer c = Some ds -> alternativeDNS c = Some alt ->
  exists generatedAt now w',
    DnsConfig.addDomain d rv w = (Ok true, w')
    /\ calm w'
    /\ stored c (addToList d rv l) w'
    /\ files w' !! CUSTOM_CONFIG_FILE
       = Some (Text (configContent generatedAt ds alt
                       {| domains := Some (addToList d rv l) |}))
    /\ exists old,
         files w' !! Logger.dnsLogPath
         = Some (Text (old +:+ "[" +:+ now +:+ "] INFO: Added domain " +:+ d
                       +:+ " to bypass via " +:+ rv +:+ Str.nl)).
Proof.
  intros Hc Hst Hds Halt. unfold DnsConfig.addDomain.
  destruct (config_addDomain_steady d rv c l w Hc Hst)
    as (w1 & Hrun1 & Hs1 & Hst1).
  destruct (update_steady c _ ds alt w1 (steady_calm_of _ _ _ Hs1)
              Hst1 Hds Halt) as (w2 & Hrun2 & [Hs2 [t Hcfg] _ _]).
  destruct (date_steady w2 (steady_calm_of _ _ _ Hs2)) as (w3 & Hrun3 & Hs3).
  edestruct appendFile_steady as (w4 & Hrun4 & Hs4 & Hf4);
    [exact (steady_calm_of _ _ _ Hs3)|].
  exists t, (clock w2 (ticks w2)), w4. split.
  - eapply try_ok. erewrite bind_ok by exact Hrun1.
    erewrite bind_ok by exact Hrun2. erewrite bind_ok by exact Hrun3.
    erewrite bind_ok by exact Hrun4. reflexivity.
  - split; [exact (steady_calm_of _ _ _ Hs4)|]. split; [|split].
    + eapply (steady_stored _ _ _ w3); [| |exact Hs4|]; [other_path..|].
      eapply (steady_stored _ _ _ w2); [| |exact Hs3|]; [other_path..|].
      eapply (steady_stored _ _ _ w1); [| |exact Hs2|]; [other_path..|].
      done.
    + rewrite (steady_files _ _ _ Hs4), (steady_files _ _ _ Hs3)
        by other_path. done.
    + eexists. exact Hf4.
Qed.

Lemma dns_removeDomain_steady d c l ds alt w :
  calm w -> stored c l w ->
  dnsServer c = Some ds -> alternativeDNS c = Some alt ->
  exists generatedAt now w',
    DnsConfig.removeDomain d w = (Ok true, w')
    /\ calm w'
    /\ stored c (removeFromList d l) w'
    /\ files w' !! CUSTOM_CONFIG_FILE
       = Some (Text (configContent generatedAt ds alt
                       {| domains := Some (removeFromList d l) |}))
    /\ exists old,
         files w' !! Logger.dnsLogPath
         = Some (Text (old +:+ "[" +:+ now +:+ "] INFO: Removed domain "
                       +:+ d +:+ " from bypass list" +:+ Str.nl)).
Proof.
  intros Hc Hst Hds Halt. unfold DnsConfig.removeDomain.
  destruct (config_removeDomain_steady d c l w Hc Hst)
    as (w1 & Hrun1 & Hs1 & Hst1).
  destruct (update_steady c _ ds alt w1 (steady_calm_of _ _ _ Hs1)
              Hst1 Hds Halt) as (w2 & Hrun2 & [Hs2 [t Hcfg] _ _]).
  destruct (date_steady w2 (steady_calm_of _ _ _ Hs2)) as (w3 & Hrun3 & Hs3).
  edestruct appendFile_steady as (w4 & Hrun4 & Hs4 & Hf4);
    [exact (steady_calm_of _ _ _ Hs3)|].
  exists t, (clock w2 (ticks w2)), w4. split.
  - eapply try_ok. erewrite bind_ok by exact Hrun1.
    erewrite bind_ok by exact Hrun2. erewrite bind_ok by exact Hrun3.
    erewrite bind_ok by exact Hrun4. reflexivity.
  - split; [exact (steady_calm_of _ _ _ Hs4)|]. split; [|split].
    + eapply (steady_stored _ _ _ w3); [| |exact Hs4|]; [other_path..|].
      eapply (steady_stored _ _ _ w2); [| |exact Hs3|]; [other_path..|].
      eapply (steady_stored _ _ _ w1); [| |exact Hs2|]; [other_path..|].
      done.
    + rewrite (steady_files _ _ _ Hs4), (steady_files _ _ _ Hs3)
        by other_path. done.
    + eexists. exact Hf4.
Qed.

Lemma getDomains_stored c l w :
  calm w -> stored c l w ->
  ApiMore.getDomains w
  = (Ok (Api.json_ok (JsObj [("domains",
                              JsArr (map ApiMore.jsonOfEntry l))])), w).
Proof.
  intros Hc Hst. unfold ApiMore.getDomains.
  eapply try_ok. erewrite bind_ok by (by eapply stored_getDomainList).
  reflexivity.
Qed.

End CalmApi.

(** ** Reloading and the add and remove flows, end to end *)

Section EndToEnd.
Import Run Config DnsConfig Api Calm CalmStore CalmDns CalmApi.



(** X10: A POST /api/domains whose two fields are strings that pass the
    validation is applied everywhere on a console at rest: the answer is
    the success message; the stored list is the old one with the domain
    added or updated; the forwarder configuration is generated from that
    new list; the DNS log ends with the line that records the addition;
    and GET /api/domains then lists the new list.  Fields that are not
    strings are outside this statement. *)
Theorem postDomains_applies
    (d rv : string) (c : appConfig) (l : list overrideEntry)
    (ds : dnsServerSettings) (alt : list string) (w : world) :
  calm w -> stored c l w ->
  dnsServer c = Some ds -> alternativeDNS c = Some alt ->
  entryAccepted (JStr d) (JStr rv) = true ->
  exists generatedAt now old w',
    postDomains (JStr d) (JStr rv) w
    = (Ok (success "Domain added successfully"), w')
    /\ stored c (addToList d rv l) w'
    /\ files w' !! CUSTOM_CONFIG_FILE
       = Some (Text (configContent generatedAt ds alt
                       {| domains := Some (addToList d rv l) |}))
    /\ files w' !! Logger.dnsLogPath
       = Some (Text (old +:+ "[" +:+ now +:+ "] INFO: Added domain " +:+ d
                     +:+ " to bypass via " +:+ rv +:+ Str.nl))
    /\ ApiMore.getDomains w'
       = (Ok (json_ok (JsObj [("domains",
                               JsArr (map ApiMore.jsonOfEntry
                                        (addToList d rv l)))])), w').
Proof.
  intros Hc Hst Hds Halt Hok.
  destruct (dns_addDomain_steady d rv c l ds alt w Hc Hst Hds Halt)
    as (t & now & w' & Hrun & Hc' & Hst' & Hcfg & old & Hlog).
  exists t, now, old, w'. split_and!; [|done..|by eapply getDomains_stored].
  unfold postDomains. revert Hok. unfold entryAccepted. cbn [toStr].
  intros [[[-> ->]%andb_true_iff ->]%andb_true_iff ->]%andb_true_iff.
  cbn [negb orb]. eapply try_ok. by erewrite bind_ok by exact Hrun.
Qed.

Lemma postDomains_applies_witness :
  exists generatedAt w',
    postDomains (JStr "www.netflix.com") (JStr "9.9.9.9")
      (store_world defaultConfig defaultEntries)
    = (Ok (success "Domain added successfully"), w')
    /\ files w' !! CUSTOM_CONFIG_FILE
       = Some (Text (configContent generatedAt defaultServer
                       ["8.8.8.8"; "1.1.1.1"]
                       {| domains :=
                            Some (addToList "www.netflix.com" "9.9.9.9"
                                    defaultEntries) |})).
Proof.
  destruct (postDomains_applies "www.netflix.com" "9.9.9.9" defaultConfig
              defaultEntries defaultServer ["8.8.8.8"; "1.1.1.1"]
              (store_world defaultConfig defaultEntries))
    as (t & now & old & w' & Hrun & _ & Hcfg & _);
    [reflexivity | by split | done | done | by vm_compute |].
  exists t, w'. by split.
Defined.

(** X11: DELETE /api/domains/:domain on a console at rest: the answer is the
    success message whether or not the domain was listed (there is no
    "not found"); the stored list is the old one without every entry of
    that domain; the forwarder configuration is generated from it; the DNS
    log ends with the line that records the removal; and GET /api/domains
    then lists the new list. *)
Theorem deleteDomains_applies
    (d : string) (c : appConfig) (l : list overrideEntry)
    (ds : dnsServerSettings) (alt : list string) (w : world) :
  calm w -> stored c l w ->
  dnsServer c = Some ds -> alternativeDNS c = Some alt ->
  d <> "" ->
  exists generatedAt now old w',
    deleteDomains d w = (Ok (success "Domain removed successfully"), w')
    /\ stored c (removeFromList d l) w'
    /\ files w' !! CUSTOM_CONFIG_FILE
       = Some (Text (configContent generatedAt ds alt
                       {| domains := Some (removeFromList d l) |}))
    /\ files w' !! Logger.dnsLogPath
       = Some (Text (old +:+ "[" +:+ now +:+ "] INFO: Removed domain " +:+ d
                     +:+ " from bypass list" +:+ Str.nl))
    /\ ApiMore.getDomains w'
       = (Ok (json_ok (JsObj [("domains",
                               JsArr (map ApiMore.jsonOfEntry
                                        (removeFromList d l)))])), w').
Proof.
  intros Hc Hst Hds Halt Hd.
  destruct (dns_removeDomain_steady d c l ds alt w Hc Hst Hds Halt)
    as (t & now & w' & Hrun & Hc' & Hst' & Hcfg & old & Hlog).
  exists t, now, old, w'. split_and!; [|done..|by eapply getDomains_stored].
  unfold deleteDomains. apply String.eqb_neq in Hd. rewrite Hd.
  eapply try_ok. by erewrite bind_ok by exact Hrun.
Qed.

Lemma deleteDomains_applies_witness :
  exists w',
    deleteDomains "hulu.com" (store_world defaultConfig defaultEntries)
    = (Ok (success "Domain removed successfully"), w')
    /\ stored defaultConfig defaultEntries w'.
Proof.
  destruct (deleteDomains_applies "hulu.com" defaultConfig
              defaultEntries defaultServer ["8.8.8.8"; "1.1.1.1"]
              (store_world defaultConfig defaultEntries))
    as (t & now & old & w' & Hrun & Hst & _);
    [reflexivity | by split | done | done | done |].
  exists w'. by split.
Defined.

End EndToEnd.

(** ** Settings and status (routes/api.js) *)

Module CalmStatus.
Import Run LoggerFacts Config ConfigRun DnsConfig Api Calm CalmStore CalmDns.

Lemma readText_calm path d w :
  calm w -> files w !! path = Some d ->
  readText path w = (Ok (Fs.text w d), w).
Proof.
  intros Hc Hf. unfold readText.
  by erewrite bind_ok by (by eapply readFile_calm).
Qed.

Lemma stat_calm path d w :
  calm w -> files w !! path = Some d -> Fs.stat path w = (Ok tt, w).
Proof. intros Hc Hf. unfold Fs.stat. rewrite io_calm by done. by rewrite Hf. Qed.

Lemma readText_missing path w :
  calm w -> files w !! path = None ->
  exists e, readText path w = (Throw e, w).
Proof.
  intros Hc Hf. unfold readText, Fs.readFile. eexists.
  eapply bind_throw. rewrite io_calm by done. by rewrite Hf.
Qed.

(** The log content the handler works on. *)
Lemma logContent_calm w :
  calm w ->
  exists w',
    try_catch (readText Logger.dnsLogPath)
      (fun _ => await Fs.writeFile Logger.dnsLogPath (Text "") in ret "") w
    = (Ok (textAt w Logger.dnsLogPath), w')
    /\ steady [Logger.dnsLogPath] w w'
    /\ (is_Some (files w !! Logger.dnsLogPath) -> w' = w).
Proof.
  intros Hc. unfold textAt.
  destruct (files w !! Logger.dnsLogPath) as [d|] eqn:Hf.
  - exists w. erewrite try_ok by (by eapply readText_calm).
    split; [done|]. split; [|done]. eapply steady_mono, steady_refl; [|done].
    intros p. by rewrite elem_of_nil.
  - destruct (readText_missing _ w Hc Hf) as (e & Hread).
    destruct (writeFile_steady Logger.dnsLogPath (Text "") w Hc)
      as (w' & Hrun & Hs & _).
    exists w'. erewrite try_throw by exact Hread.
    erewrite bind_ok by exact Hrun. split; [done|]. split; [done|].
    by intros [? [=]].
Qed.

Lemma countQueries_calm w :
  calm w ->
  exists w',
    countQueries w = (Ok (if queryLines w =? 0 then 3 else queryLines w), w')
    /\ steady [Logger.dnsLogPath] w w'
    /\ (queryLines w <> 0 -> w' = w)
    /\ (queryLines w = 0 ->
        exists t1 t2 t3,
          files w' !! Logger.dnsLogPath
          = Some (Text (join (simulatedQueries t1 t2 t3) +:+ Str.nl))).
Proof.
  intros Hc. unfold countQueries.
  destruct (logContent_calm w Hc) as (w1 & Hrun1 & Hs1 & Hsame).
  fold (textAt w Logger.dnsLogPath) in *.
  assert (queryLines w
          = Z.of_nat (length (List.filter (Str.includes "DNS QUERY:")
                                (Str.split_lines
                                   (textAt w Logger.dnsLogPath)))))
    as Hq by reflexivity.
  destruct (Z.eqb_spec (queryLines w) 0) as [Hz|Hnz].
  - destruct (date_steady w1 (steady_calm_of _ _ _ Hs1)) as (w2 & Hd1 & Hs2).
    destruct (date_steady w2 (steady_calm_of _ _ _ Hs2)) as (w3 & Hd2 & Hs3).
    destruct (date_steady w3 (steady_calm_of _ _ _ Hs3)) as (w4 & Hd3 & Hs4).
    edestruct writeFile_steady as (w5 & Hrun5 & Hs5 & Hf5);
      [exact (steady_calm_of _ _ _ Hs4)|].
    exists w5. split.
    + eapply try_ok. erewrite bind_ok by (by apply mkdir_steady).
      erewrite bind_ok by exact Hrun1. rewrite <- Hq, Hz. cbn [Z.eqb].
      erewrite bind_ok by exact Hd1. erewrite bind_ok by exact Hd2.
      erewrite bind_ok by exact Hd3. erewrite bind_ok by exact Hrun5.
      reflexivity.
    + split; [|split; [done|]].
      * eapply steady_mono;
          [|exact (steady_trans _ _ _ _ _
                     (steady_trans _ _ _ _ _
                        (steady_trans _ _ _ _ _
                           (steady_trans _ _ _ _ _ Hs1 Hs2) Hs3) Hs4) Hs5)].
        sub_paths.
      * intros _. eexists _, _, _. exact Hf5.
  - assert (is_Some (files w !! Logger.dnsLogPath)) as Hsome.
    { destruct (files w !! Logger.dnsLogPath) eqn:Hf; [eauto|].
      exfalso. apply Hnz. unfold queryLines. by rewrite Hf. }
    rewrite (Hsame Hsome) in *. exists w. split.
    + eapply try_ok. erewrite bind_ok by (by apply mkdir_steady).
      erewrite bind_ok by exact Hrun1. rewrite <- Hq.
      apply Z.eqb_neq in Hnz. by rewrite Hnz.
    + split; [done|]. split; [done|]. by intros.
Qed.

Lemma passwordOf_dropPassword (c : appConfig) :
  passwordOf (jsonOfConfig (dropPassword c)) = None
  \/ exists v, passwordOf (jsonOfConfig (dropPassword c)) = Some v
               /\ truthyJson v = false.
Proof.
  destruct c as [ds alt [[wp ea un pw]|]]; [|left; by destruct ds, alt].
  assert (forall pw',
            passwordOf
              (jsonOfConfig
                 {| dnsServer := ds; alternativeDNS := alt;
                    webInterface :=
                      Some {| webPort := wp; enableAuth := ea;
                              username := un; password := pw' |} |})
            = pw') as Hfield.
  { intros pw'. destruct ds, alt, wp, ea, un, pw'; reflexivity. }
  unfold dropPassword. cbn [webInterface password].
  destruct pw as [pw|]; [|left; by rewrite Hfield].
  destruct (truthyJson pw) eqn:Htruthy.
  - left. by rewrite Hfield.
  - right. exists pw. by rewrite Hfield.
Qed.

Lemma passwordOf_config (c : appConfig) :
  passwordOf (jsonOfConfig c) = webInterface c ≫= password.
Proof.
  destruct c as [ds alt [[wp ea un pw]|]]; [|by destruct ds, alt].
  destruct ds, alt, wp, ea, un, pw; reflexivity.
Qed.

Lemma falsy_json v :
  truthyJson v = false <-> v ∈ [JsNull; JsBool false; JsNum 0; JsStr ""].
Proof.
  rewrite !elem_of_cons, elem_of_nil. split.
  - destruct v as [|[]|n|s| |]; cbn; try done; eauto.
    + intros Hn%negb_false_iff%Z.eqb_eq. subst. eauto.
    + intros Hs%negb_false_iff%String.eqb_eq. subst. eauto 6.
  - by intros [->|[->|[->|[->|[]]]]].
Qed.

End CalmStatus.

Section SettingsAndStatus.
Import Run LoggerFacts Config DnsConfig Api Calm CalmStore CalmDns CalmStatus.

(** X12: Whatever is stored and whatever fails, the only passwords that
    GET /api/settings can return are the falsy ones: the answer either has
    no [webInterface.password], or has it equal to the stored [null],
    [false], [0] or empty string, which the truthiness test before the
    deletion lets through.  Each of these four is returned when it is the
    stored password and no I/O fault is pending. *)
Theorem getSettings_returns_no_other_password (w : world) :
  (exists r w',
     getSettings w = (Ok r, w')
     /\ forall j, body r = JsonBody j ->
          passwordOf j = None
          \/ exists v, passwordOf j = Some v
                       /\ v ∈ [JsNull; JsBool false; JsNum 0; JsStr ""])
  /\ (forall c wi v,
        calm w ->
        files w !! CONFIG_PATH = Some (Json (ConfigDoc c)) ->
        webInterface c = Some wi -> password wi = Some v ->
        v ∈ [JsNull; JsBool false; JsNum 0; JsStr ""] ->
        exists j w',
          getSettings w = (Ok (json_ok j), w') /\ passwordOf j = Some v).
Proof.
  split.
  - unfold getSettings. destruct (getConfig w) as [[c|e] w1] eqn:Hget.
    + erewrite try_ok by (by erewrite bind_ok by exact Hget).
      eexists _, _. split; [reflexivity|]. intros j [= <-].
      destruct (passwordOf_dropPassword c) as [Hnone|(v & Hv & Hfalsy)];
        [by left|right].
      exists v. split; [done|]. by apply falsy_json.
    + erewrite try_throw by (by apply bind_throw).
      destruct (error_logged ("Error in GET /api/settings: " +:+ message e)
                  w1) as (w' & Herr & _).
      erewrite bind_ok by exact Herr.
      eexists _, _. split; [reflexivity|]. intros j [= <-]. by left.
  - intros c wi v Hc Hcfg Hwi Hpw Hfalsy%falsy_json.
    destruct (ConfigRun.getConfig_calm w c Hc Hcfg) as (w' & Hget & _).
    exists (jsonOfConfig (dropPassword c)), w'. split.
    + unfold getSettings.
      by erewrite try_ok by (by erewrite bind_ok by exact Hget).
    + assert (dropPassword c = c) as ->
        by (unfold dropPassword; by rewrite Hwi, Hpw, Hfalsy).
      rewrite passwordOf_config, Hwi. cbn. exact Hpw.
Qed.

(** X13: Settings round trip, for a settings update of the settings shape:
    [dnsServer] and [webInterface] objects of scalars, [alternativeDNS] an
    array of strings.  On a console at rest such an update is stored as
    sent and the forwarder configuration is generated from it;
    GET /api/settings then answers with these settings, a truthy password
    removed.  A body of another shape is outside this statement. *)
Theorem settings_round_trip
    (c c0 : appConfig) (l : list overrideEntry)
    (ds : dnsServerSettings) (alt : list string) (wi : webInterfaceSettings)
    (w : world) :
  calm w -> stored c0 l w ->
  dnsServer c = Some ds -> alternativeDNS c = Some alt ->
  webInterface c = Some wi ->
  exists generatedAt w',
    postSettings c w = (Ok (success "Settings updated successfully"), w')
    /\ stored c l w'
    /\ files w' !! CUSTOM_CONFIG_FILE
       = Some (Text (configContent generatedAt ds alt
                       {| domains := Some l |}))
    /\ getSettings w'
       = (Ok (json_ok (jsonOfConfig (dropPassword c))), w').
Proof.
  intros Hc [Hcfg0 Hips0] Hds Halt Hwi.
  destruct (saveConfig_steady c w Hc) as (w1 & Hrun1 & Hs1 & Hf1).
  assert (stored c l w1) as Hst1.
  { split; [done|]. by rewrite (steady_files _ _ _ Hs1) by other_path. }
  destruct (update_steady c l ds alt w1 (steady_calm_of _ _ _ Hs1)
              Hst1 Hds Halt) as (w2 & Hrun2 & [Hs2 [t Hcfg] _ _]).
  assert (stored c l w2) as Hst2
    by (eapply steady_stored; [| |exact Hs2|done]; other_path).
  exists t, w2. split_and!; [|done|done|].
  - unfold postSettings. rewrite Hds, Halt, Hwi. eapply try_ok.
    erewrite bind_ok by exact Hrun1. by erewrite bind_ok by exact Hrun2.
  - unfold getSettings. eapply try_ok.
    erewrite bind_ok
      by (eapply stored_getConfig; [exact (steady_calm_of _ _ _ Hs2)|done]).
    reflexivity.
Qed.

Lemma settings_round_trip_witness :
  exists w',
    postSettings unchecked_settings (store_world defaultConfig defaultEntries)
    = (Ok (success "Settings updated successfully"), w')
    /\ getSettings w'
       = (Ok (json_ok (jsonOfConfig (dropPassword unchecked_settings))), w').
Proof.
  destruct (settings_round_trip unchecked_settings defaultConfig
              defaultEntries
              {| port := JNum 70000; cacheSize := JNum 1000;
                 logQueries := JBool true |}
              ["not an address!"]
              {| webPort := JNum 5000; enableAuth := JBool false;
                 username := JStr "admin"; password := None |}
              (store_world defaultConfig defaultEntries))
    as (t & w' & Hpost & _ & _ & Hget);
    [reflexivity | by split | done | done | done |].
  exists w'. by split.
Defined.

(** X14: The status of a console at rest reports the store: [running] tells
    whether the forwarder configuration file exists, [domainCount] is the
    number of stored overrides, [port] and [cacheEntries] are the stored
    port and cache size, and [queryCount] is the number of query lines of
    the DNS log.  With at least one query line the request changes nothing.
    With none, the answer says 3 and the request replaces the DNS log,
    whatever it held, by three simulated query lines. *)
Theorem getStatus_reports_store
    (c : appConfig) (l : list overrideEntry) (ds : dnsServerSettings)
    (w : world) :
  calm w -> stored c l w -> dnsServer c = Some ds ->
  exists uptime lastUpdate w',
    getStatus w
    = (Ok (json_ok
             (JsObj ([("running",
                       JsBool (bool_decide
                                 (is_Some (files w
                                           !! CUSTOM_CONFIG_FILE))));
                      ("version", JsStr "Smart DNS Proxy v1.0")]
                     ++ prop "port" (port ds)
                     ++ [("uptime", JsStr uptime);
                         ("lastUpdate", JsStr lastUpdate);
                         ("domainCount", JsNum (Z.of_nat (length l)));
                         ("queryCount",
                          JsNum (if queryLines w =? 0 then 3
                                 else queryLines w))]
                     ++ prop "cacheEntries" (cacheSize ds)))), w')
    /\ (queryLines w <> 0 -> files w' = files w)
    /\ (queryLines w = 0 ->
        exists t1 t2 t3,
          files w' !! Logger.dnsLogPath
          = Some (Text (join (simulatedQueries t1 t2 t3) +:+ Str.nl))).
Proof.
  intros Hc Hst Hds.
  assert (exists w0,
            try_catch (await Fs.access CUSTOM_CONFIG_FILE in ret true)
              (fun _ => ret false) w
            = (Ok (bool_decide (is_Some (files w !! CUSTOM_CONFIG_FILE))), w0)
            /\ w0 = w) as (w0 & Hrunning & ->).
  { destruct (files w !! CUSTOM_CONFIG_FILE) as [d|] eqn:Hf.
    - exists w. split; [|done]. eapply try_ok.
      erewrite bind_ok by (by eapply access_calm).
      by rewrite bool_decide_eq_true_2 by eauto.
    - exists w. split; [|done]. erewrite try_throw.
      + by rewrite bool_decide_eq_false_2 by (by intros [? [=]]).
      + eapply bind_throw. unfold Fs.access. rewrite io_calm by done.
        by rewrite Hf. }
  destruct (date_steady w Hc) as (w1 & Hd1 & Hs1).
  assert (calm w1) as Hc1 by exact (steady_calm_of _ _ _ Hs1).
  assert (stored c l w1) as Hst1
    by (eapply steady_stored; [| |exact Hs1|done]; other_path).
  destruct (date_steady w1 Hc1) as (w2 & Hd2 & Hs2).
  assert (calm w2) as Hc2 by exact (steady_calm_of _ _ _ Hs2).
  destruct (countQueries_calm w2 Hc2) as (w3 & Hcount & Hs3 & Hsame & Hnew).
  assert (queryLines w2 = queryLines w) as Hq.
  { unfold queryLines.
    rewrite (steady_files _ _ _ Hs2), (steady_files _ _ _ Hs1) by other_path.
    destruct (files w !! Logger.dnsLogPath); [|done].
    by rewrite (text_steady _ _ _ _ Hs2), (text_steady _ _ _ _ Hs1). }
  rewrite Hq in *.
  assert (stored c l w3) as Hst3.
  { eapply steady_stored; [| |exact Hs3|]; [other_path..|].
    eapply steady_stored; [| |exact Hs2|done]; other_path. }
  assert (calm w3) as Hc3 by exact (steady_calm_of _ _ _ Hs3).
  exists ("Running since " +:+ clock w (ticks w)), (clock w1 (ticks w1)), w3.
  split; [|split].
  - unfold getStatus. eapply try_ok.
    erewrite bind_ok by exact Hrunning.
    erewrite bind_ok by (by eapply stored_getDomainList). cbn [domains].
    erewrite bind_ok by exact Hd1.
    erewrite bind_ok.
    2:{ eapply try_ok. destruct Hst1 as [Hcfg1 _].
        erewrite bind_ok by (by eapply (stat_calm CONFIG_PATH)).
        exact Hd2. }
    erewrite bind_ok by exact Hcount.
    erewrite bind_ok.
    2:{ eapply try_ok. erewrite bind_ok by (by eapply stored_getConfig).
        rewrite Hds. reflexivity. }
    erewrite bind_ok by (by eapply stored_getConfig).
    rewrite Hds. reflexivity.
  - intros Hnz. rewrite (Hsame Hnz).
    unfold date_string in Hd1, Hd2. by simplify_eq.
  - exact Hnew.
Qed.

Lemma getStatus_reports_store_witness :
  exists uptime lastUpdate w' t1 t2 t3,
    getStatus (store_world defaultConfig defaultEntries)
    = (Ok (json_ok
             (JsObj [("running", JsBool false);
                     ("version", JsStr "Smart DNS Proxy v1.0");
                     ("port", JsNum 53);
                     ("uptime", JsStr uptime);
                     ("lastUpdate", JsStr lastUpdate);
                     ("domainCount", JsNum 2);
                     ("queryCount", JsNum 3);
                     ("cacheEntries", JsNum 1000)])), w')
    /\ files w' !! Logger.dnsLogPath
       = Some (Text (join (simulatedQueries t1 t2 t3) +:+ Str.nl)).
Proof.
  destruct (getStatus_reports_store defaultConfig defaultEntries
              defaultServer (store_world defaultConfig defaultEntries))
    as (uptime & lastUpdate & w' & Hrun & _ & Hnew);
    [reflexivity | by split | done |].
  destruct (Hnew eq_refl) as (t1 & t2 & t3 & Hlog).
  exists uptime, lastUpdate, w', t1, t2, t3. split; [exact Hrun | exact Hlog].
Defined.

End SettingsAndStatus.

(** ** The logger and the log endpoints (logger.js, routes/api.js) *)

Module LogFacts.
Import Run LoggerFacts Api ApiMore Calm.

Lemma warn_logged msg w :
  exists w', Logger.warn msg w = (Ok tt, w')
             /\ logged Logger.accessLogPath w w'.
Proof.
  unfold Logger.warn, Logger.formatLogMessage.
  erewrite bind_ok; [|erewrite bind_ok; reflexivity].
  erewrite bind_ok; [|reflexivity].
  edestruct append_or_report as (w' & -> & Hl).
  exists w'. split; [done|]. by eapply logged_after_console.
Qed.

Lemma readFile_ok_inv path w d w' :
  Fs.readFile path w = (Ok d, w') ->
  files w' !! path = Some d /\ files w' = files w.
Proof.
  unfold Fs.readFile, Fs.io.
  destruct (faults w) as [|[msg|] rest]; [|done|]; cbn;
    destruct (files w !! path) eqn:Hf; intros [= <- <-]; done.
Qed.

Lemma keeps_sampleData q type : keeps q (sampleData type).
Proof.
  unfold sampleData.
  destruct (String.eqb type "dns"); [|destruct (String.eqb type "access")];
    repeat first [ apply keeps_date | apply keeps_ret
                 | apply keeps_bind; intros ].
Qed.

Lemma logPathOf_cases type p :
  logPathOf type = Some p ->
  p ∈ [Logger.dnsLogPath; Logger.accessLogPath; Logger.errorLogPath].
Proof.
  unfold logPathOf.
  destruct (String.eqb type "dns"); [intros [= <-]; set_solver|].
  destruct (String.eqb type "access"); [intros [= <-]; set_solver|].
  destruct (String.eqb type "error"); [intros [= <-]; set_solver|done].
Qed.

End LogFacts.

Section Logs.
Import Run LoggerFacts Api ApiMore Calm LogFacts.

(** X15: [info], [warn] and [error] never reject, whatever fails underneath;
    each writes its line to the console and changes no file but its own
    log ([access.log] for [info] and [warn], [error.log] for [error]). *)
Theorem logger_never_rejects (msg : string) (w : world) :
  (exists w', Logger.info msg w = (Ok tt, w')
              /\ (forall p, p <> Logger.accessLogPath ->
                    files w' !! p = files w !! p)
              /\ console w `prefix_of` console w')
  /\ (exists w', Logger.warn msg w = (Ok tt, w')
                 /\ (forall p, p <> Logger.accessLogPath ->
                       files w' !! p = files w !! p)
                 /\ console w `prefix_of` console w')
  /\ (exists w', Logger.error msg w = (Ok tt, w')
                 /\ (forall p, p <> Logger.errorLogPath ->
                       files w' !! p = files w !! p)
                 /\ console w `prefix_of` console w').
Proof.
  split_and!.
  - destruct (info_logged msg w) as (w' & Hrun & [Hf Hcon _ _]). eauto.
  - destruct (warn_logged msg w) as (w' & Hrun & [Hf Hcon _ _]). eauto.
  - destruct (error_logged msg w) as (w' & Hrun & [Hf Hcon _ _] & _). eauto.
Qed.

(** X16: GET /api/logs/:type serves the three log files and nothing else.  A
    type other than [dns], [access], [error] is answered 400 and changes
    nothing, so no path can be smuggled in.  For one of the three types the
    answer is 200 or 500; a 200 answer is the text of that log file as it
    is after the request, and no other file has changed; with no I/O fault
    the answer is 200, and nothing changes when the log file was there. *)
Theorem getLogs_serves_only_logs (type : string) (w : world) :
  exists r w',
    getLogs type w = (Ok r, w')
    /\ match logPathOf type with
       | None => r = badRequest "Invalid log type" /\ w' = w
       | Some p =>
           p ∈ [Logger.dnsLogPath; Logger.accessLogPath;
                Logger.errorLogPath]
           /\ (status r = 200%nat \/ status r = 500%nat)
           /\ (status r = 200%nat ->
               (exists d, files w' !! p = Some d
                          /\ body r = TextBody (Fs.text w' d))
               /\ forall q, q <> p -> files w' !! q = files w !! q)
           /\ (calm w -> status r = 200%nat)
           /\ (calm w -> is_Some (files w !! p) -> w' = w)
       end.
Proof.
  unfold getLogs. destruct (logPathOf type) as [p|] eqn:Hp.
  2:{ eexists _, _. split; [reflexivity|]. done. }
  apply logPathOf_cases in Hp as Hin.
  set (work := await Fs.mkdir "logs" in
               await try_catch (Fs.access p)
                       (fun _ => let* data := sampleData type in
                                 Fs.writeFile p (Text data)) in
               let* logContent := readText p in
               ret (textResponse 200 logContent)).
  assert (forall q, q <> p -> keeps q work) as Hkeep.
  { intros q Hq. unfold work, readText.
    repeat first [ apply keeps_mkdir | apply keeps_access
                 | apply keeps_readFile | apply keeps_ret
                 | apply keeps_sampleData
                 | by apply keeps_writeFile
                 | apply keeps_bind; intros | apply keeps_try; intros
                 | by intros ? ].
  }
  assert (calm w ->
          exists w1, work w
                     = (Ok (textResponse 200 (textAt w1 p)), w1)
                     /\ (is_Some (files w !! p) -> w1 = w)) as Hcalm.
  { intros Hc. unfold work.
    erewrite bind_ok by (by apply mkdir_steady).
    destruct (files w !! p) as [d|] eqn:Hf.
    - exists w. erewrite bind_ok by (by eapply try_ok, access_calm).
      erewrite bind_ok by (by eapply CalmStatus.readText_calm).
      unfold textAt. rewrite Hf. done.
    - assert (exists data w1, sampleData type w = (Ok data, w1)
                              /\ steady [] w w1) as (data & w1 & Hs & Hs1).
      { unfold sampleData.
        destruct (String.eqb type "dns");
          [|destruct (String.eqb type "access")];
          try (eexists _, _; split; [reflexivity|]; by split). }
      destruct (writeFile_steady p (Text data) w1 (steady_calm_of _ _ _ Hs1))
        as (w2 & Hrun2 & Hs2 & Hf2).
      exists w2. erewrite bind_ok.
      2:{ erewrite try_throw
            by (unfold Fs.access; rewrite io_calm by done; by rewrite Hf).
          erewrite bind_ok by exact Hs. exact Hrun2. }
      erewrite bind_ok
        by (eapply CalmStatus.readText_calm;
            [exact (steady_calm_of _ _ _ Hs2)|done]).
      unfold textAt. rewrite Hf2. split; [done|]. by intros [? [=]]. }
  fold work. destruct (work w) as [[r|e] w1] eqn:Hwork.
  - erewrite try_ok by exact Hwork. exists r, w1. split; [done|].
    assert (r = textResponse 200 (textAt w1 p)
            /\ is_Some (files w1 !! p)) as [-> [d Hd]].
    { revert Hwork. unfold work. intros H.
      apply bind_ok_inv in H as (? & wa & _ & H).
      apply bind_ok_inv in H as (? & wb & _ & H).
      apply bind_ok_inv in H as (text & wc & Hread & H).
      injection H as <- <-. unfold readText in Hread.
      apply bind_ok_inv in Hread as (d & wd & Hread & H).
      injection H as <- <-.
      apply readFile_ok_inv in Hread as [Hd _].
      unfold textAt. rewrite Hd. eauto. }
    split; [done|]. split; [by left|]. split_and!.
    + intros _. split.
      * exists d. split; [done|]. unfold textAt. by rewrite Hd.
      * intros q Hq. specialize (Hkeep q Hq w). by rewrite Hwork in Hkeep.
    + done.
    + intros Hc Hsome. destruct (Hcalm Hc) as (w2 & Hrun & Hsame).
      assert (w1 = w2) as -> by congruence. by apply Hsame.
  - erewrite try_throw by exact Hwork.
    destruct (error_logged ("Error in GET /api/logs/" +:+ type +:+ ": "
                            +:+ message e) w1) as (w' & Herr & _).
    erewrite bind_ok by exact Herr.
    eexists _, w'. split; [reflexivity|]. split; [done|].
    split; [by right|]. split_and!.
    + done.
    + intros Hc. by destruct (Hcalm Hc) as (w2 & Hrun & _).
    + intros Hc. by destruct (Hcalm Hc) as (w2 & Hrun & _).
Qed.

(** X17: POST /api/logs/clear with no I/O fault empties the DNS log and the
    error log; the access log is left with exactly one line, the record of
    the clearing itself; no other file changes. *)
Theorem clearLogs_leaves_one_line (w : world) :
  calm w ->
  exists now w',
    clearLogs w = (Ok (success "Logs cleared successfully"), w')
    /\ files w' !! Logger.dnsLogPath = Some (Text "")
    /\ files w' !! Logger.errorLogPath = Some (Text "")
    /\ files w' !! Logger.accessLogPath
       = Some (Text ("[" +:+ now +:+ "] INFO: Logs cleared by user"
                     +:+ Str.nl))
    /\ forall p,
         p ∉ [Logger.dnsLogPath; Logger.accessLogPath;
              Logger.errorLogPath] ->
         files w' !! p = files w !! p.
Proof.
  intros Hc. unfold clearLogs.
  destruct (writeFile_steady Logger.dnsLogPath (Text "") w Hc)
    as (w1 & Hrun1 & Hs1 & Hf1).
  destruct (writeFile_steady Logger.accessLogPath (Text "") w1
              (steady_calm_of _ _ _ Hs1)) as (w2 & Hrun2 & Hs2 & Hf2).
  destruct (writeFile_steady Logger.errorLogPath (Text "") w2
              (steady_calm_of _ _ _ Hs2)) as (w3 & Hrun3 & Hs3 & Hf3).
  destruct (info_steady "Logs cleared by user" w3
              (steady_calm_of _ _ _ Hs3)) as (w4 & Hrun4 & Hs4 & Hf4).
  exists (clock w3 (ticks w3)), w4. split_and!.
  - eapply try_ok. erewrite bind_ok by (by apply mkdir_steady).
    erewrite bind_ok by exact Hrun1. erewrite bind_ok by exact Hrun2.
    erewrite bind_ok by exact Hrun3. erewrite bind_ok by exact Hrun4.
    reflexivity.
  - rewrite (steady_files _ _ _ Hs4), (steady_files _ _ _ Hs3),
      (steady_files _ _ _ Hs2) by other_path. done.
  - rewrite (steady_files _ _ _ Hs4) by other_path. done.
  - rewrite Hf4. unfold textAt.
    rewrite (steady_files _ _ _ Hs3), Hf2 by other_path.
    reflexivity.
  - intros p Hp. rewrite !not_elem_of_cons in Hp.
    destruct Hp as (? & ? & ? & _).
    rewrite (steady_files _ _ _ Hs4), (steady_files _ _ _ Hs3),
      (steady_files _ _ _ Hs2), (steady_files _ _ _ Hs1);
      [done|..]; rewrite not_elem_of_cons; split; try done;
      apply not_elem_of_nil.
Qed.

Lemma clearLogs_leaves_one_line_witness :
  exists now w',
    clearLogs (store_world defaultConfig defaultEntries)
    = (Ok (success "Logs cleared successfully"), w')
    /\ files w' !! Logger.accessLogPath
       = Some (Text ("[" +:+ now +:+ "] INFO: Logs cleared by user"
                     +:+ Str.nl)).
Proof.
  destruct (clearLogs_leaves_one_line
              (store_world defaultConfig defaultEntries))
    as (now & w' & Hrun & _ & _ & Hacc & _); [reflexivity|].
  exists now, w'. by split.
Defined.

End Logs.

(** ** The stored documents at the edges (config.js) *)

Module StoreFacts.
Import Run LoggerFacts Config ConfigRun DnsConfig Calm CalmStore.

Lemma create_steady path doc msg w :
  calm w ->
  exists w', createDefault path doc msg w = (Ok tt, w')
             /\ steady [Logger.accessLogPath; path] w w'
             /\ files w' !! path = Some (Json doc).
Proof.
  intros Hc. unfold createDefault.
  destruct (info_steady msg w Hc) as (w1 & Hrun1 & Hs1 & _).
  destruct (writeFile_steady path (Json doc) w1 (steady_calm_of _ _ _ Hs1))
    as (w2 & Hrun2 & Hs2 & Hf2).
  exists w2. erewrite bind_ok by exact Hrun1.
  erewrite bind_ok by (apply mkdir_steady; exact (steady_calm_of _ _ _ Hs1)).
  split; [exact Hrun2|]. split; [|done].
  exact (steady_trans _ _ _ _ _ Hs1 Hs2).
Qed.

(** One half of [ensureConfigExists] with no fault pending. *)
Lemma ensure_half path doc msg w :
  calm w ->
  exists w',
    try_catch (Fs.access path) (fun _ => createDefault path doc msg) w
    = (Ok tt, w')
    /\ steady [Logger.accessLogPath; path] w w'
    /\ (files w !! path = None -> files w' !! path = Some (Json doc))
    /\ (is_Some (files w !! path) -> w' = w).
Proof.
  intros Hc. destruct (files w !! path) as [d|] eqn:Hf.
  - exists w. erewrite try_ok by (by eapply access_calm).
    split; [done|]. split; [by split|]. by split.
  - destruct (create_steady path doc msg w Hc) as (w' & Hrun & Hs & Hf').
    exists w'.
    erewrite try_throw
      by (unfold Fs.access; rewrite io_calm by done; by rewrite Hf).
    split; [done|]. split; [done|]. split; [done|]. by intros [? [=]].
Qed.

Lemma ensureConfigExists_eq :
  ensureConfigExists
  = (await try_catch (Fs.access CONFIG_PATH)
             (fun _ => createDefault CONFIG_PATH (ConfigDoc defaultConfig)
                         "Creating default configuration file") in
     try_catch (Fs.access IPS_PATH)
       (fun _ => createDefault IPS_PATH (DomainsDoc defaultIpList)
                   "Creating default IP list file")).
Proof. reflexivity. Qed.

(** A resolver that passes the address check is the name of no inherited
    property. *)
Lemma address_is_plain_key k :
  Regex.test Regex.ipPattern k = true ->
  String.eqb k "__proto__" = false /\ k ∉ inheritedNames.
Proof.
  intros Hk.
  assert (all_chars quadChar k = true) as Hquad
    by (eapply RegexFacts.matches_within, Hk;
        apply RegexFacts.within_ipPattern).
  split.
  - apply String.eqb_neq. intros ->. by vm_compute in Hquad.
  - unfold inheritedNames. rewrite !elem_of_cons, elem_of_nil.
    intros Hin. repeat destruct Hin as [->|Hin]; try done;
      by vm_compute in Hquad.
Qed.

Lemma countServers_fold (l : list overrideEntry) (m : gmap string tally)
    (s : string) :
  Forall (fun e => Regex.test Regex.ipPattern (resolveVia e) = true) l ->
  (forall k, m !! k <> Some (Tally O) /\ m !! k <> Some NaN) ->
  let m' := fold_left countStep l m in
  (forall k, m' !! k <> Some (Tally O) /\ m' !! k <> Some NaN)
  /\ tallied (m' !! s) = (tallied (m !! s) + resolvedVia s l)%nat.
Proof.
  intros Hl. revert m. induction Hl as [|e l He _ IH]; intros m Hm; cbn zeta.
  - split; [done|]. unfold resolvedVia. cbn. lia.
  - cbn [fold_left].
    destruct (address_is_plain_key _ He) as [Hproto Hplain].
    assert (countStep m e
            = match m !! resolveVia e with
              | Some (Tally (S n)) => <[resolveVia e := Tally (S (S n))]> m
              | _ => <[resolveVia e := Tally 1]> m
              end) as Hstep.
    { unfold countStep. cbn zeta. rewrite Hproto.
      destruct (m !! resolveVia e) as [[|[|n]]|]; try done.
      by rewrite bool_decide_eq_false_2. }
    rewrite Hstep. clear Hstep.
    set (m1 := match m !! resolveVia e with
               | Some (Tally (S n)) => <[resolveVia e := Tally (S (S n))]> m
               | _ => <[resolveVia e := Tally 1]> m
               end).
    assert (forall k, m1 !! k <> Some (Tally O) /\ m1 !! k <> Some NaN)
      as Hm1.
    { intros k. unfold m1.
      destruct (m !! resolveVia e) as [[|[|n]]|] eqn:Hr;
        (destruct (decide (resolveVia e = k)) as [<-|Hne];
         [rewrite lookup_insert_eq; done
         |rewrite lookup_insert_ne by done; apply Hm]). }
    destruct (IH m1 Hm1) as [Hnz Hcount]. split; [exact Hnz|].
    rewrite Hcount. unfold resolvedVia. rewrite filter_cons.
    destruct (decide (resolveVia e = s)) as [<-|Hne].
    + cbn [length]. unfold m1.
      destruct (m !! resolveVia e) as [[|[|n]]|] eqn:Hr;
        rewrite lookup_insert_eq; cbn;
        solve [ lia | by destruct (Hm (resolveVia e)) ].
    + unfold m1.
      destruct (m !! resolveVia e) as [[|[|n]]|] eqn:Hr;
        rewrite lookup_insert_ne by done; done.
Qed.

Lemma addDomain_no_domains d rv doc w :
  calm w -> is_Some (files w !! CONFIG_PATH) ->
  files w !! IPS_PATH = Some (Json doc) ->
  domains (asDomainList doc) = None ->
  exists e, Config.addDomain d rv w = (Throw e, w) /\ kind e = TypeError.
Proof.
  intros Hc Hcfg Hips Hnone. unfold Config.addDomain.
  erewrite bind_ok by (by apply getDomainList_present).
  rewrite Hnone. by eexists.
Qed.

Lemma removeDomain_no_domains d doc w :
  calm w -> is_Some (files w !! CONFIG_PATH) ->
  files w !! IPS_PATH = Some (Json doc) ->
  domains (asDomainList doc) = None ->
  exists e, Config.removeDomain d w = (Throw e, w) /\ kind e = TypeError.
Proof.
  intros Hc Hcfg Hips Hnone. unfold Config.removeDomain.
  erewrite bind_ok by (by apply getDomainList_present).
  rewrite Hnone. by eexists.
Qed.

Lemma keeps_restart p :
  p <> Logger.accessLogPath -> p <> Logger.errorLogPath ->
  p <> Logger.dnsLogPath -> keeps p restartDnsmasq.
Proof.
  intros H1 H2 H3. unfold restartDnsmasq. apply keeps_try.
  - apply keeps_bind; [by apply keeps_info|intros _].
    apply keeps_bind; [apply keeps_date|intros now].
    apply keeps_bind; [by apply keeps_appendFile|intros _].
    apply keeps_bind; [by apply keeps_info|intros _]. apply keeps_ret.
  - intros e. apply keeps_bind; [by apply keeps_error|intros _].
    apply keeps_throw.
Qed.

End StoreFacts.

Section StoredDocuments.
Import Run LoggerFacts Config ConfigRun DnsConfig GenerateRun Api.
Import Calm CalmStore CalmDns StoreFacts.

(** X18: What [saveConfig] writes, [getConfig] reads back, and what
    [saveDomainList] writes, [getDomainList] reads back, when no I/O fault
    is pending. *)
Theorem save_then_get (c : appConfig) (l : list overrideEntry) (w : world) :
  calm w ->
  (exists w1 w2, saveConfig c w = (Ok true, w1)
                 /\ getConfig w1 = (Ok c, w2))
  /\ (exists w1 w2, saveDomainList l w = (Ok true, w1)
                    /\ getDomainList w1 = (Ok {| domains := Some l |}, w2)).
Proof.
  intros Hc. split.
  - destruct (saveConfig_steady c w Hc) as (w1 & Hrun1 & Hs1 & Hf1).
    destruct (getConfig_calm w1 c (steady_calm_of _ _ _ Hs1) Hf1)
      as (w2 & Hrun2 & _).
    by exists w1, w2.
  - destruct (saveDomainList_steady l w Hc) as (w1 & Hrun1 & Hs1 & Hf1).
    destruct (getDomainList_calm w1 _ (steady_calm_of _ _ _ Hs1) Hf1)
      as (w2 & Hrun2 & _).
    by exists w1, w2.
Qed.

Lemma save_then_get_witness :
  exists w1 w2,
    saveConfig unchecked_settings (store_world defaultConfig []) = (Ok true, w1)
    /\ getConfig w1 = (Ok unchecked_settings, w2).
Proof.
  destruct (save_then_get unchecked_settings []
              (store_world defaultConfig [])) as [H _]; [reflexivity|].
  exact H.
Defined.

(** X19: The first read on an empty disk: when the settings file is missing and
    no I/O fault is pending, [getConfig] answers the default settings and
    leaves them stored; a missing domain list is created with the two
    default entries, an existing one is left as it is. *)
Theorem getConfig_creates_defaults (w : world) :
  calm w -> files w !! CONFIG_PATH = None ->
  exists w',
    getConfig w = (Ok defaultConfig, w')
    /\ files w' !! CONFIG_PATH = Some (Json (ConfigDoc defaultConfig))
    /\ (files w !! IPS_PATH = None ->
        files w' !! IPS_PATH = Some (Json (DomainsDoc defaultIpList)))
    /\ (forall d, files w !! IPS_PATH = Some d ->
                  files w' !! IPS_PATH = Some d)
    /\ steady [Logger.accessLogPath; CONFIG_PATH; IPS_PATH] w w'.
Proof.
  intros Hc Hmissing. unfold getConfig. rewrite ensureConfigExists_eq.
  destruct (ensure_half CONFIG_PATH (ConfigDoc defaultConfig)
              "Creating default configuration file" w Hc)
    as (w1 & Hrun1 & Hs1 & Hnew1 & _).
  destruct (ensure_half IPS_PATH (DomainsDoc defaultIpList)
              "Creating default IP list file" w1 (steady_calm_of _ _ _ Hs1))
    as (w2 & Hrun2 & Hs2 & Hnew2 & Hold2).
  assert (files w2 !! CONFIG_PATH = Some (Json (ConfigDoc defaultConfig)))
    as Hcfg.
  { rewrite (steady_files _ _ _ Hs2) by other_path. by apply Hnew1. }
  assert (files w1 !! IPS_PATH = files w !! IPS_PATH) as Hips
    by (apply (steady_files _ _ _ Hs1); other_path).
  exists w2. split_and!.
  - erewrite bind_ok by (erewrite bind_ok by exact Hrun1; exact Hrun2).
    erewrite bind_ok
      by (eapply readFile_calm; [exact (steady_calm_of _ _ _ Hs2)|done]).
    reflexivity.
  - done.
  - intros Hnone. apply Hnew2. by rewrite Hips.
  - intros d Hd. rewrite (Hold2 ltac:(rewrite Hips; eauto)).
    by rewrite Hips.
  - eapply steady_mono; [|exact (steady_trans _ _ _ _ _ Hs1 Hs2)]. sub_paths.
Qed.

Lemma getConfig_creates_defaults_witness :
  exists w',
    getConfig fresh_world = (Ok defaultConfig, w')
    /\ files w' !! IPS_PATH = Some (Json (DomainsDoc defaultIpList)).
Proof.
  destruct (getConfig_creates_defaults fresh_world)
    as (w' & Hrun & _ & Hips & _); [reflexivity..|].
  exists w'. split; [exact Hrun|]. apply Hips. reflexivity.
Defined.

(** X20: A check for the settings file that fails for any reason, not only
    because the file is missing, makes the console overwrite the stored
    settings with the defaults: with that one fault pending, [getConfig]
    answers the default settings whatever was stored. *)
Theorem failed_check_resets_settings (msg : string) (w : world) :
  faults w = [Some msg] ->
  exists w',
    getConfig w = (Ok defaultConfig, w')
    /\ files w' !! CONFIG_PATH = Some (Json (ConfigDoc defaultConfig))
    /\ forall p,
         p ∉ [Logger.accessLogPath; CONFIG_PATH; IPS_PATH] ->
         files w' !! p = files w !! p.
Proof.
  intros Hfault. unfold getConfig. rewrite ensureConfigExists_eq.
  set (w0 := set_faults [] w).
  assert (calm w0) as Hc0 by done.
  destruct (create_steady CONFIG_PATH (ConfigDoc defaultConfig)
              "Creating default configuration file" w0 Hc0)
    as (w1 & Hrun1 & Hs1 & Hf1).
  destruct (ensure_half IPS_PATH (DomainsDoc defaultIpList)
              "Creating default IP list file" w1 (steady_calm_of _ _ _ Hs1))
    as (w2 & Hrun2 & Hs2 & _).
  assert (files w2 !! CONFIG_PATH = Some (Json (ConfigDoc defaultConfig)))
    as Hcfg by (rewrite (steady_files _ _ _ Hs2) by other_path; done).
  exists w2. split_and!.
  - erewrite bind_ok.
    2:{ erewrite bind_ok; [exact Hrun2|].
        erewrite try_throw; [exact Hrun1|].
        unfold Fs.access, Fs.io. by rewrite Hfault. }
    erewrite bind_ok
      by (eapply readFile_calm; [exact (steady_calm_of _ _ _ Hs2)|done]).
    reflexivity.
  - done.
  - intros p Hp.
    rewrite (steady_files _ _ _ (steady_trans _ _ _ _ _ Hs1 Hs2)); [done|].
    revert Hp. rewrite !not_elem_of_app, !not_elem_of_cons. tauto.
Qed.

Lemma failed_check_resets_settings_witness :
  files check_fails_world !! CONFIG_PATH
  = Some (Json (ConfigDoc unchecked_settings))
  /\ exists w',
       getConfig check_fails_world = (Ok defaultConfig, w')
       /\ files w' !! CONFIG_PATH = Some (Json (ConfigDoc defaultConfig)).
Proof.
  split; [reflexivity|].
  destruct (failed_check_resets_settings
              "EMFILE: too many open files, access" check_fails_world)
    as (w' & Hrun & Hcfg & _); [reflexivity|].
  exists w'. by split.
Defined.

(** X21: A stored domain list without a [domains] property cannot be edited:
    adding an accepted entry and removing a domain are both answered 500
    with a type error, and nothing but the error log changes.  (Reading
    such a list and generating the configuration from it both work.) *)
Theorem missing_domains_rejects_edits (d rv : jsval) (name : string)
    (doc : jsonDoc) (w : world) :
  calm w -> is_Some (files w !! CONFIG_PATH) ->
  files w !! IPS_PATH = Some (Json doc) ->
  domains (asDomainList doc) = None ->
  entryAccepted d rv = true -> name <> "" ->
  (exists e w',
     postDomains d rv w = (Ok (serverError "Failed to add domain" e), w')
     /\ kind e = TypeError
     /\ steady [Logger.errorLogPath] w w')
  /\ (exists e w',
        deleteDomains name w
        = (Ok (serverError "Failed to remove domain" e), w')
        /\ kind e = TypeError
        /\ steady [Logger.errorLogPath] w w').
Proof.
  intros Hc Hcfg Hips Hnone Hacc Hname. split.
  - destruct (addDomain_no_domains (toStr d) (toStr rv) doc w Hc Hcfg Hips
                Hnone) as (e & Hrun & Hkind).
    destruct (error_steady ("Failed to add domain: " +:+ message e) w Hc)
      as (w1 & Hrun1 & Hs1).
    destruct (error_steady ("Error in POST /api/domains: " +:+ message e) w1
                (steady_calm_of _ _ _ Hs1)) as (w2 & Hrun2 & Hs2).
    exists e, w2. split_and!; [|done|].
    + unfold entryAccepted in Hacc.
      apply andb_prop in Hacc as [Hacc Hip].
      apply andb_prop in Hacc as [Hacc Hdom].
      apply andb_prop in Hacc as [Hd Hrv].
      unfold postDomains. rewrite Hd, Hrv, Hdom, Hip. cbn [negb orb].
      erewrite try_throw.
      2:{ eapply bind_throw. unfold DnsConfig.addDomain.
          erewrite try_throw by (eapply bind_throw; exact Hrun).
          erewrite bind_ok by exact Hrun1. reflexivity. }
      erewrite bind_ok by exact Hrun2. reflexivity.
    + eapply steady_mono; [|exact (steady_trans _ _ _ _ _ Hs1 Hs2)].
      sub_paths.
  - destruct (removeDomain_no_domains name doc w Hc Hcfg Hips Hnone)
      as (e & Hrun & Hkind).
    destruct (error_steady ("Failed to remove domain: " +:+ message e) w Hc)
      as (w1 & Hrun1 & Hs1).
    destruct (error_steady ("Error in DELETE /api/domains/" +:+ name +:+ ": "
                            +:+ message e) w1
                (steady_calm_of _ _ _ Hs1)) as (w2 & Hrun2 & Hs2).
    exists e, w2. split_and!; [|done|].
    + unfold deleteDomains.
      apply String.eqb_neq in Hname. rewrite Hname.
      erewrite try_throw.
      2:{ eapply bind_throw. unfold DnsConfig.removeDomain.
          erewrite try_throw by (eapply bind_throw; exact Hrun).
          erewrite bind_ok by exact Hrun1. reflexivity. }
      erewrite bind_ok by exact Hrun2. reflexivity.
    + eapply steady_mono; [|exact (steady_trans _ _ _ _ _ Hs1 Hs2)].
      sub_paths.
Qed.

Lemma missing_domains_rejects_edits_witness :
  exists e w',
    postDomains (JStr "netflix.com") (JStr "1.1.1.1") no_domains_world
    = (Ok (serverError "Failed to add domain" e), w')
    /\ kind e = TypeError.
Proof.
  destruct (missing_domains_rejects_edits
              (JStr "netflix.com") (JStr "1.1.1.1") "netflix.com"
              (DomainsDoc {| domains := None |}) no_domains_world)
    as [(e & w' & Hrun & Hkind & _) _];
    [reflexivity|by eexists|reflexivity|reflexivity|by vm_compute|done|].
  by exists e, w'.
Defined.

End StoredDocuments.

(** ** The bypass report and the reload (dnsconfig.js) *)

Section Report.
Import Run LoggerFacts Config ConfigRun DnsConfig GenerateRun.
Import Calm CalmStore CalmDns StoreFacts.

(** X22: The report's table of resolvers holds, for every resolver, the
    number of entries resolved via it, and has no key for a resolver that
    no entry uses.  The entries are taken to have resolvers that pass the
    address check of POST /api/domains, so that no resolver is the name of
    a property every object has. *)
Theorem countServers_counts (l : list overrideEntry) (s : string) :
  Forall (fun e => Regex.test Regex.ipPattern (resolveVia e) = true) l ->
  countServers l !! s
  = match resolvedVia s l with
    | O => None
    | S n => Some (Tally (S n))
    end.
Proof.
  intros Hl. destruct (countServers_fold l ∅ s Hl) as [Hnz Hcount].
  { intros k. by rewrite lookup_empty. }
  fold (countServers l) in Hnz, Hcount.
  rewrite lookup_empty in Hcount. cbn in Hcount. rewrite <- Hcount.
  destruct (Hnz s) as [H0 Hnan].
  by destruct (countServers l !! s) as [[|[|n]]|].
Qed.

Lemma countServers_counts_witness :
  countServers defaultEntries !! "1.1.1.1" = Some (Tally 1)
  /\ countServers defaultEntries !! "9.9.9.9" = None.
Proof.
  split.
  - apply (countServers_counts defaultEntries "1.1.1.1").
    repeat constructor.
  - apply (countServers_counts defaultEntries "9.9.9.9").
    repeat constructor.
Defined.

(** X23: [generateBypassReport] never rejects, whatever the domain list and
    whatever fails underneath.  It changes no file but the report and the
    two logs, and the report file is afterwards as it was, or the report
    of the list's entries, or, when the write failed on the way, the
    beginning of that report's text. *)
Theorem report_never_rejects (dl : domainList) (w : world) :
  exists w',
    generateBypassReport dl w = (Ok tt, w')
    /\ (forall p,
          p ∉ [REPORT_PATH; Logger.accessLogPath; Logger.errorLogPath] ->
          files w' !! p = files w !! p)
    /\ (files w' !! REPORT_PATH = files w !! REPORT_PATH
        \/ exists now l,
             domains dl = Some l
             /\ (files w' !! REPORT_PATH
                 = Some (Json (ReportDoc (reportOf now l)))
                 \/ exists n,
                      files w' !! REPORT_PATH
                      = Some (Text (String.substring 0 n
                                      (JSON_stringify w
                                         (ReportDoc (reportOf now l))))))).
Proof.
  unfold generateBypassReport.
  assert (forall msg w1,
            (forall p, p <> REPORT_PATH -> files w1 !! p = files w !! p) ->
            exists w',
              Logger.error msg w1 = (Ok tt, w')
              /\ (forall p,
                    p ∉ [REPORT_PATH; Logger.accessLogPath;
                         Logger.errorLogPath] ->
                    files w' !! p = files w !! p)
              /\ files w' !! REPORT_PATH = files w1 !! REPORT_PATH) as Herr.
  { intros msg w1 Hsame.
    destruct (error_logged msg w1) as (w' & Hrun & [Hf _ _ _] & _).
    exists w'. split; [done|]. split.
    - intros p Hp. rewrite !not_elem_of_cons in Hp.
      destruct Hp as (? & ? & ? & _). rewrite Hf, Hsame; done.
    - by rewrite Hf. }
  destruct (domains dl) as [l|] eqn:Hdl.
  - destruct (Fs.writeFile REPORT_PATH
                (Json (ReportDoc {| timestamp := clock w (ticks w);
                                    totalDomains := length l;
                                    reportDomains := l;
                                    dnsServers := countServers l |}))
                (set_ticks (S (ticks w)) w)) as [r w1] eqn:Hwrite.
    destruct (writeFile_outcome _ _ _ _ _ Hwrite)
      as [[-> Hfiles]|[(e & -> & Hfiles)|(e & n & -> & Hfiles)]].
    + destruct (info_logged ("Bypass report generated at " +:+ REPORT_PATH)
                  w1) as (w' & Hrun & [Hf _ _ _]).
      exists w'. split_and!.
      * erewrite try_ok; [done|].
        erewrite bind_ok by reflexivity.
        erewrite bind_ok by exact Hwrite. exact Hrun.
      * intros p Hp. rewrite !not_elem_of_cons in Hp.
        destruct Hp as (? & ? & ? & _).
        rewrite Hf, Hfiles by done. cbn. by rewrite lookup_insert_ne.
      * right. exists (clock w (ticks w)), l. split; [done|]. left.
        rewrite Hf, Hfiles by done. by rewrite lookup_insert_eq.
    + destruct (Herr ("Failed to generate bypass report: " +:+ message e) w1)
        as (w' & Hrun & Hframe & Hsame); [by rewrite Hfiles|].
      exists w'. split_and!; [|done|left; by rewrite Hsame, Hfiles].
      erewrite try_throw; [exact Hrun|].
      erewrite bind_ok by reflexivity. eapply bind_throw. exact Hwrite.
    + destruct (Herr ("Failed to generate bypass report: " +:+ message e) w1)
        as (w' & Hrun & Hframe & Hsame).
      { intros p Hp. rewrite Hfiles. cbn. by rewrite lookup_insert_ne. }
      exists w'. split_and!; [|done|].
      * erewrite try_throw; [exact Hrun|].
        erewrite bind_ok by reflexivity. eapply bind_throw. exact Hwrite.
      * right. exists (clock w (ticks w)), l. split; [done|].
        rewrite Hsame, Hfiles, lookup_insert_eq.
        unfold Fs.tornData. cbn [Fs.text JSON_stringify set_ticks].
        match goal with
        | |- context [(n <? ?len)%nat] => destruct (n <? len)%nat
        end; [right; by exists n|by left].
  - destruct (Herr ("Failed to generate bypass report: "
                    +:+ "Cannot read properties of undefined (reading 'length')")
                (set_ticks (S (ticks w)) w))
      as (w' & Hrun & Hframe & Hsame); [done|].
    exists w'. split_and!; [|done|by left].
    erewrite try_throw
      by (erewrite bind_ok by reflexivity; unfold typeError, throw;
          reflexivity).
    exact Hrun.
Qed.

(** X24: A reload is not undone when it fails half-way: if the settings and the
    list are read, the configuration is generated and the restart then
    fails, [updateDNSConfig] rejects with the restart's error, the newly
    generated configuration file stays on disk, and the bypass report is
    not renewed. *)
Theorem failed_restart_keeps_new_file (c : appConfig) (dl : domainList)
    (e : error) (w w1 w2 w3 w4 : world) :
  getConfig w = (Ok c, w1) ->
  getDomainList w1 = (Ok dl, w2) ->
  generateDnsmasqConfig c dl w2 = (Ok tt, w3) ->
  restartDnsmasq w3 = (Throw e, w4) ->
  exists w',
    updateDNSConfig w = (Throw e, w')
    /\ (exists generatedAt ds alt,
          files w' !! CUSTOM_CONFIG_FILE
          = Some (Text (configContent generatedAt ds alt dl)))
    /\ files w' !! REPORT_PATH = files w3 !! REPORT_PATH.
Proof.
  intros Hcfg Hlist Hgen Hrestart.
  destruct (error_logged ("Failed to update DNS configuration: "
                          +:+ message e) w4)
    as (w' & Herr & [Hf _ _ _] & _).
  exists w'. split_and!.
  - unfold updateDNSConfig. erewrite try_throw.
    2:{ erewrite bind_ok by exact Hcfg. erewrite bind_ok by exact Hlist.
        erewrite bind_ok by exact Hgen. eapply bind_throw. exact Hrestart. }
    erewrite bind_ok by exact Herr. reflexivity.
  - destruct (generate_inv _ _ _ _ Hgen) as (n & ds & alt & _ & _ & Hfile).
    exists (clock w2 n), ds, alt. rewrite Hf by done.
    pose proof (keeps_restart CUSTOM_CONFIG_FILE
                  ltac:(done) ltac:(done) ltac:(done) w3) as Hk.
    rewrite Hrestart in Hk. cbn in Hk. by rewrite Hk.
  - rewrite Hf by done.
    pose proof (keeps_restart REPORT_PATH
                  ltac:(done) ltac:(done) ltac:(done) w3) as Hk.
    rewrite Hrestart in Hk. cbn in Hk. by rewrite Hk.
Qed.

Lemma failed_restart_keeps_new_file_witness :
  exists e w' generatedAt ds alt,
    updateDNSConfig restart_fails_world = (Throw e, w')
    /\ files restart_fails_world !! CUSTOM_CONFIG_FILE = None
    /\ files w' !! CUSTOM_CONFIG_FILE
       = Some (Text (configContent generatedAt ds alt defaultIpList)).
Proof.
  pose (w1 := (getConfig restart_fails_world).2).
  pose (w2 := (getDomainList w1).2).
  pose (w3 := (generateDnsmasqConfig defaultConfig defaultIpList w2).2).
  pose (w4 := (restartDnsmasq w3).2).
  pose (e := {| kind := IOError; message := "EIO: i/o error, write" |}).
  destruct (failed_restart_keeps_new_file defaultConfig defaultIpList e
              restart_fails_world w1 w2 w3 w4)
    as (w' & Hrun & (t & ds & alt & Hfile) & _);
    [vm_compute; reflexivity..|].
  exists e, w', t, ds, alt. split; [exact Hrun|]. split; [reflexivity|].
  exact Hfile.
Defined.

End Report.

(** ** Start-up: the listen callback (app.js) and the script
    (scripts/configure-dnsmasq.js) *)

Module StartFacts.
Import Run LoggerFacts Config ConfigRun DnsConfig Api Script.
Import Calm CalmStore CalmDns CalmStatus.

Lemma init_steady c l ds alt w :
  calm w -> stored c l w ->
  dnsServer c = Some ds -> alternativeDNS c = Some alt ->
  exists generatedAt w',
    initializeDNSConfig w = (Ok true, w')
    /\ steady [Logger.accessLogPath; DnsConfig.CUSTOM_CONFIG_FILE] w w'
    /\ files w' !! DnsConfig.CUSTOM_CONFIG_FILE
       = Some (Text (configContent generatedAt ds alt {| domains := Some l |})).
Proof.
  intros Hc Hst Hds Halt. unfold initializeDNSConfig.
  destruct (info_steady "Initializing DNS configuration" w Hc)
    as (w1 & Hrun1 & Hs1 & _).
  assert (stored c l w1) as Hst1
    by (eapply steady_stored; [| |exact Hs1|exact Hst]; other_path).
  pose proof (steady_calm_of _ _ _ Hs1) as Hc1.
  destruct (generate_steady c {| domains := Some l |} ds alt w1 Hc1 Hds Halt)
    as (t & w2 & Hrun2 & Hs2 & Hf2).
  destruct (info_steady "DNS configuration initialized successfully" w2
              (steady_calm_of _ _ _ Hs2)) as (w3 & Hrun3 & Hs3 & _).
  exists t, w3. split_and!.
  - erewrite bind_ok by exact Hrun1. eapply try_ok.
    erewrite bind_ok by (by apply mkdir_steady).
    erewrite bind_ok by (by eapply stored_getConfig).
    erewrite bind_ok by (by eapply stored_getDomainList).
    erewrite bind_ok by exact Hrun2.
    erewrite bind_ok by exact Hrun3. reflexivity.
  - eapply steady_mono;
      [|exact (steady_trans _ _ _ _ _ Hs1 (steady_trans _ _ _ _ _ Hs2 Hs3))].
    sub_paths.
  - rewrite (steady_files _ _ _ Hs3) by other_path. done.
Qed.

Lemma includes_app_r needle a b :
  Str.includes needle b = true -> Str.includes needle (a +:+ b) = true.
Proof.
  intros Hb. induction a as [|c a IH]; [done|].
  change (String c a +:+ b) with (String c (a +:+ b)).
  cbn [Str.includes]. rewrite IH. apply orb_true_r.
Qed.

(** [ensureConfDir] with no fault pending. *)
Lemma ensureConfDir_steady w :
  calm w ->
  exists w',
    ensureConfDir w = (Ok tt, w')
    /\ steady [DNSMASQ_CONFIG_PATH] w w'
    /\ is_Some (files w' !! DNSMASQ_CONFIG_PATH)
    /\ Str.includes confDirDirective (textAt w' DNSMASQ_CONFIG_PATH) = true
    /\ (textAt w' DNSMASQ_CONFIG_PATH = textAt w DNSMASQ_CONFIG_PATH
        \/ textAt w' DNSMASQ_CONFIG_PATH
           = textAt w DNSMASQ_CONFIG_PATH +:+ includeLines)
    /\ (is_Some (files w !! DNSMASQ_CONFIG_PATH) ->
        Str.includes confDirDirective (textAt w DNSMASQ_CONFIG_PATH) = true ->
        w' = w)
    /\ (Str.includes confDirDirective (textAt w DNSMASQ_CONFIG_PATH) = false ->
        files w' !! DNSMASQ_CONFIG_PATH
        = Some (Text (textAt w DNSMASQ_CONFIG_PATH +:+ includeLines))).
Proof.
  intros Hc. unfold ensureConfDir.
  assert (exists w0,
            try_catch (readText DNSMASQ_CONFIG_PATH)
              (fun _ =>
                 await console_log ("Creating main dnsmasq configuration at "
                                    +:+ DNSMASQ_CONFIG_PATH) in
                 ret "") w
            = (Ok (textAt w DNSMASQ_CONFIG_PATH), w0)
            /\ steady [] w w0
            /\ (is_Some (files w !! DNSMASQ_CONFIG_PATH) -> w0 = w))
    as (w0 & Hread & Hs0 & Hsame0).
  { unfold textAt. destruct (files w !! DNSMASQ_CONFIG_PATH) as [d|] eqn:Hf.
    - exists w. erewrite try_ok by (by eapply readText_calm).
      split; [done|]. split; [by split|done].
    - destruct (readText_missing DNSMASQ_CONFIG_PATH w Hc Hf) as (e & Hthrow).
      erewrite try_throw by exact Hthrow.
      eexists. split; [reflexivity|]. split; [by split|].
      by intros [? [=]]. }
  erewrite bind_ok by exact Hread.
  pose proof (steady_calm_of _ _ _ Hs0) as Hc0.
  assert (textAt w0 DNSMASQ_CONFIG_PATH = textAt w DNSMASQ_CONFIG_PATH)
    as Htext0 by (eapply textAt_steady; [exact Hs0|apply not_elem_of_nil]).
  destruct (Str.includes confDirDirective (textAt w DNSMASQ_CONFIG_PATH))
    eqn:Hinc; cbn [negb].
  - exists w0. split; [done|]. split_and!.
    + eapply steady_mono; [|exact Hs0]. sub_paths.
    + rewrite (steady_files _ _ _ Hs0) by apply not_elem_of_nil.
      unfold textAt in Hinc.
      destruct (files w !! DNSMASQ_CONFIG_PATH); [eauto|done].
    + by rewrite Htext0.
    + by left.
    + intros Hsome _. by apply Hsame0.
    + done.
  - destruct (writeFile_steady DNSMASQ_CONFIG_PATH
                (Text (textAt w DNSMASQ_CONFIG_PATH +:+ includeLines)) w0 Hc0)
      as (w1 & Hrun1 & Hs1 & Hf1).
    destruct (console_steady Stdout "Updated main dnsmasq configuration" w1
                (steady_calm_of _ _ _ Hs1)) as (w2 & Hrun2 & Hs2).
    assert (files w2 !! DNSMASQ_CONFIG_PATH
            = Some (Text (textAt w DNSMASQ_CONFIG_PATH +:+ includeLines)))
      as Hf2 by (rewrite (steady_files _ _ _ Hs2) by apply not_elem_of_nil;
                 done).
    exists w2. erewrite bind_ok by exact Hrun1. split; [exact Hrun2|].
    split_and!.
    + eapply steady_mono;
        [|exact (steady_trans _ _ _ _ _ Hs0
                   (steady_trans _ _ _ _ _ Hs1 Hs2))].
      sub_paths.
    + rewrite Hf2. eauto.
    + unfold textAt at 1. rewrite Hf2. cbn [Fs.text].
      apply includes_app_r. by vm_compute.
    + right. unfold textAt at 1. by rewrite Hf2.
    + intros _ Habs. done.
    + intros _. exact Hf2.
Qed.

(** One run of the script on a well-formed store with no fault pending. *)
Lemma configureService_steady c l ds alt w :
  calm w -> stored c l w ->
  dnsServer c = Some ds -> alternativeDNS c = Some alt ->
  exists generatedAt w',
    configureService w = (Ok 0, w')
    /\ steady [Script.CUSTOM_CONFIG_FILE; DNSMASQ_CONFIG_PATH] w w'
    /\ files w' !! Script.CUSTOM_CONFIG_FILE
       = Some (Text (dnsmasqConfig generatedAt ds alt l))
    /\ is_Some (files w' !! DNSMASQ_CONFIG_PATH)
    /\ Str.includes confDirDirective (textAt w' DNSMASQ_CONFIG_PATH) = true
    /\ (textAt w' DNSMASQ_CONFIG_PATH = textAt w DNSMASQ_CONFIG_PATH
        \/ textAt w' DNSMASQ_CONFIG_PATH
           = textAt w DNSMASQ_CONFIG_PATH +:+ includeLines)
    /\ (is_Some (files w !! DNSMASQ_CONFIG_PATH) ->
        Str.includes confDirDirective (textAt w DNSMASQ_CONFIG_PATH) = true ->
        files w' !! DNSMASQ_CONFIG_PATH = files w !! DNSMASQ_CONFIG_PATH)
    /\ (Str.includes confDirDirective (textAt w DNSMASQ_CONFIG_PATH) = false ->
        files w' !! DNSMASQ_CONFIG_PATH
        = Some (Text (textAt w DNSMASQ_CONFIG_PATH +:+ includeLines))).
Proof.
  intros Hc [Hcfg Hips] Hds Halt. unfold configureService.
  destruct (console_steady Stdout "Configuring dnsmasq service..." w Hc)
    as (w1 & Hrun1 & Hs1).
  pose proof (steady_calm_of _ _ _ Hs1) as Hc1.
  assert (readOrCreate w1
          = (Ok (Json (ConfigDoc c),
                 Json (DomainsDoc {| domains := Some l |})), w1)) as Hread.
  { unfold readOrCreate. eapply try_ok.
    erewrite bind_ok
      by (eapply readFile_calm; [done|];
          rewrite (steady_files _ _ _ Hs1) by apply not_elem_of_nil;
          exact Hcfg).
    erewrite bind_ok
      by (eapply readFile_calm; [done|];
          rewrite (steady_files _ _ _ Hs1) by apply not_elem_of_nil;
          exact Hips).
    reflexivity. }
  destruct (date_steady w1 Hc1) as (w2 & Hrun2 & Hs2).
  pose proof (steady_calm_of _ _ _ Hs2) as Hc2.
  destruct (writeFile_steady Script.CUSTOM_CONFIG_FILE
              (Text (dnsmasqConfig (clock w1 (ticks w1)) ds alt l)) w2 Hc2)
    as (w3 & Hrun3 & Hs3 & Hf3).
  destruct (console_steady Stdout
              ("Dnsmasq configuration written to "
               +:+ Script.CUSTOM_CONFIG_FILE) w3 (steady_calm_of _ _ _ Hs3))
    as (w4 & Hrun4 & Hs4).
  destruct (ensureConfDir_steady w4 (steady_calm_of _ _ _ Hs4))
    as (w5 & Hrun5 & Hs5 & Hsome5 & Hinc5 & Htext5 & Hsame5 & Hnew5).
  destruct (console_steady Stdout
              "Dnsmasq configuration completed successfully" w5
              (steady_calm_of _ _ _ Hs5)) as (w6 & Hrun6 & Hs6).
  assert (steady [Script.CUSTOM_CONFIG_FILE] w w4) as Hs04.
  { eapply steady_mono;
      [|exact (steady_trans _ _ _ _ _ Hs1
                 (steady_trans _ _ _ _ _ Hs2
                    (steady_trans _ _ _ _ _ Hs3 Hs4)))].
    sub_paths. }
  assert (textAt w4 DNSMASQ_CONFIG_PATH = textAt w DNSMASQ_CONFIG_PATH)
    as Htext4 by (eapply textAt_steady; [exact Hs04|other_path]).
  assert (textAt w6 DNSMASQ_CONFIG_PATH = textAt w5 DNSMASQ_CONFIG_PATH)
    as Htext6 by (eapply textAt_steady; [exact Hs6|apply not_elem_of_nil]).
  exists (clock w1 (ticks w1)), w6. split_and!.
  - eapply try_ok. erewrite bind_ok by exact Hrun1.
    erewrite bind_ok by exact Hread. cbn [fst snd].
    erewrite bind_ok by reflexivity. erewrite bind_ok by reflexivity.
    erewrite bind_ok by exact Hrun2. cbn [asConfig asDomainList domains].
    rewrite Hds, Halt.
    erewrite bind_ok by (by apply mkdir_steady).
    erewrite bind_ok by exact Hrun3. erewrite bind_ok by exact Hrun4.
    erewrite bind_ok by exact Hrun5. erewrite bind_ok by exact Hrun6.
    reflexivity.
  - eapply steady_mono;
      [|exact (steady_trans _ _ _ _ _ Hs04
                 (steady_trans _ _ _ _ _ Hs5 Hs6))].
    sub_paths.
  - rewrite (steady_files _ _ _ Hs6) by apply not_elem_of_nil.
    rewrite (steady_files _ _ _ Hs5) by other_path.
    rewrite (steady_files _ _ _ Hs4) by apply not_elem_of_nil. done.
  - rewrite (steady_files _ _ _ Hs6) by apply not_elem_of_nil. done.
  - by rewrite Htext6.
  - rewrite Htext6, <- Htext4. exact Htext5.
  - intros Hsome Hinc.
    assert (files w4 !! DNSMASQ_CONFIG_PATH = files w !! DNSMASQ_CONFIG_PATH)
      as Hf4 by (apply (steady_files _ _ _ Hs04); other_path).
    rewrite (steady_files _ _ _ Hs6) by apply not_elem_of_nil.
    rewrite (Hsame5 ltac:(by rewrite Hf4) ltac:(by rewrite Htext4)).
    exact Hf4.
  - intros Hinc.
    rewrite (steady_files _ _ _ Hs6) by apply not_elem_of_nil.
    rewrite <- Htext4. apply Hnew5. by rewrite Htext4.
Qed.

End StartFacts.

Section StartUp.
Import Run LoggerFacts Config ConfigRun DnsConfig Api Script App.
Import Calm CalmStore CalmDns StartFacts.

(** X25: The listen callback never rejects: a failed initialisation is logged
    and the server goes on.  With a well-formed store on disk and no I/O
    fault, the forwarder configuration of the stored settings and entries
    is on disk afterwards. *)
Theorem onListen_never_rejects (PORT : string) (w : world) :
  exists w',
    onListen PORT w = (Ok tt, w')
    /\ forall c l ds alt,
         calm w -> stored c l w ->
         dnsServer c = Some ds -> alternativeDNS c = Some alt ->
         exists generatedAt,
           files w' !! DnsConfig.CUSTOM_CONFIG_FILE
           = Some (Text (configContent generatedAt ds alt
                           {| domains := Some l |})).
Proof.
  unfold onListen.
  destruct (info_logged ("Server started on port " +:+ PORT) w)
    as (w1 & Hrun1 & _).
  erewrite bind_ok by exact Hrun1.
  assert (exists w',
            try_catch
              (await initializeDNSConfig in
               Logger.info "DNS configuration initialized successfully")
              (fun err =>
                 Logger.error ("Failed to initialize DNS configuration: "
                               +:+ message err)) w1 = (Ok tt, w'))
    as (w' & Hrun).
  { destruct (initializeDNSConfig w1) as [[b|e] w2] eqn:Hinit.
    - destruct (info_logged "DNS configuration initialized successfully" w2)
        as (w3 & Hrun3 & _).
      exists w3. eapply try_ok. erewrite bind_ok by exact Hinit. exact Hrun3.
    - destruct (error_logged ("Failed to initialize DNS configuration: "
                              +:+ message e) w2) as (w3 & Hrun3 & _).
      exists w3. erewrite try_throw by (eapply bind_throw; exact Hinit).
      exact Hrun3. }
  exists w'. split; [exact Hrun|].
  intros c l ds alt Hc Hst Hds Halt.
  destruct (info_steady ("Server started on port " +:+ PORT) w Hc)
    as (v1 & Hv1 & Hs1 & _).
  assert (v1 = w1) as -> by congruence.
  assert (stored c l w1) as Hst1
    by (eapply steady_stored; [| |exact Hs1|exact Hst]; other_path).
  destruct (init_steady c l ds alt w1 (steady_calm_of _ _ _ Hs1) Hst1 Hds Halt)
    as (t & w2 & Hrun2 & Hs2 & Hf2).
  destruct (info_steady "DNS configuration initialized successfully" w2
              (steady_calm_of _ _ _ Hs2)) as (w3 & Hrun3 & Hs3 & _).
  assert (w' = w3) as ->.
  { erewrite try_ok in Hrun
      by (erewrite bind_ok by exact Hrun2; exact Hrun3).
    congruence. }
  exists t. rewrite (steady_files _ _ _ Hs3) by other_path. done.
Qed.

(** X26: The start-up script on a well-formed store with no I/O fault ends
    with status 0, leaves its forwarder file on disk and makes the main
    configuration hold the text [conf-dir=/etc/dnsmasq.d].  When the main
    configuration already holds that text anywhere (the test is a
    substring test, which a commented-out line satisfies too), the file is
    not touched; when it does not, or is missing, the include lines are
    appended to what it held.  A second run changes neither the main
    configuration nor the store. *)
Theorem script_includes_conf_dir_once (c : appConfig)
    (l : list overrideEntry) (ds : dnsServerSettings) (alt : list string)
    (w : world) :
  calm w -> stored c l w ->
  dnsServer c = Some ds -> alternativeDNS c = Some alt ->
  exists w1 w2,
    configureService w = (Ok 0, w1)
    /\ configureService w1 = (Ok 0, w2)
    /\ (exists generatedAt,
          files w1 !! Script.CUSTOM_CONFIG_FILE
          = Some (Text (dnsmasqConfig generatedAt ds alt l)))
    /\ Str.includes confDirDirective (textAt w1 DNSMASQ_CONFIG_PATH) = true
    /\ (Str.includes confDirDirective (textAt w DNSMASQ_CONFIG_PATH) = true ->
        files w1 !! DNSMASQ_CONFIG_PATH = files w !! DNSMASQ_CONFIG_PATH)
    /\ (Str.includes confDirDirective (textAt w DNSMASQ_CONFIG_PATH) = false ->
        files w1 !! DNSMASQ_CONFIG_PATH
        = Some (Text (textAt w DNSMASQ_CONFIG_PATH +:+ includeLines)))
    /\ files w2 !! DNSMASQ_CONFIG_PATH = files w1 !! DNSMASQ_CONFIG_PATH
    /\ stored c l w2.
Proof.
  intros Hc Hst Hds Halt.
  destruct (configureService_steady c l ds alt w Hc Hst Hds Halt)
    as (t1 & w1 & Hrun1 & Hs1 & Hf1 & Hsome1 & Hinc1 & Htext1 & Hsame1
        & Hnew1).
  assert (stored c l w1) as Hst1
    by (eapply steady_stored; [| |exact Hs1|exact Hst]; other_path).
  destruct (configureService_steady c l ds alt w1 (steady_calm_of _ _ _ Hs1)
              Hst1 Hds Halt)
    as (t2 & w2 & Hrun2 & Hs2 & _ & _ & _ & _ & Hsame2 & _).
  exists w1, w2. split_and!; try done.
  - by exists t1.
  - intros Hinc. apply Hsame1; [|done].
    unfold textAt in Hinc.
    destruct (files w !! DNSMASQ_CONFIG_PATH); [eauto|done].
  - by apply Hsame2.
  - eapply steady_stored; [| |exact Hs2|exact Hst1]; other_path.
Qed.

Lemma script_includes_conf_dir_once_witness :
  exists w1 w2,
    configureService (store_world defaultConfig defaultEntries) = (Ok 0, w1)
    /\ configureService w1 = (Ok 0, w2)
    /\ files w2 !! DNSMASQ_CONFIG_PATH = files w1 !! DNSMASQ_CONFIG_PATH.
Proof.
  destruct (script_includes_conf_dir_once defaultConfig defaultEntries
              defaultServer ["8.8.8.8"; "1.1.1.1"]
              (store_world defaultConfig defaultEntries))
    as (w1 & w2 & H1 & H2 & _ & _ & _ & _ & Hsame & _);
    [reflexivity|by split|reflexivity|reflexivity|].
  by exists w1, w2.
Defined.

End StartUp.

(** ** What the two validation patterns accept (routes/api.js) *)

Module ShapeFacts.
Import Regex.

Lemma app_String_inv s1 s2 c s :
  s1 +:+ s2 = String c s ->
  (s1 = "" /\ s2 = String c s)
  \/ exists s1', s1 = String c s1' /\ s = s1' +:+ s2.
Proof.
  destruct s1 as [|c1 s1]; [by left|].
  intros H. change (String c1 (s1 +:+ s2) = String c s) in H.
  injection H as -> <-. right. eauto.
Qed.

Lemma app_nil_inv s1 s2 : s1 +:+ s2 = "" -> s1 = "" /\ s2 = "".
Proof. by destruct s1. Qed.

Lemma length_app s1 s2 :
  String.length (s1 +:+ s2) = (String.length s1 + String.length s2)%nat.
Proof.
  induction s1 as [|c s1 IH]; [done|].
  change (S (String.length (s1 +:+ s2))
          = S (String.length s1 + String.length s2)).
  by rewrite IH.
Qed.

Lemma all_chars_app P s1 s2 :
  all_chars P (s1 +:+ s2) = all_chars P s1 && all_chars P s2.
Proof.
  induction s1 as [|c s1 IH]; [done|].
  change (P c && all_chars P (s1 +:+ s2)
          = P c && all_chars P s1 && all_chars P s2).
  by rewrite IH, andb_assoc.
Qed.

Lemma all_chars_impl (P Q : ascii -> bool) s :
  (forall c, P c = true -> Q c = true) ->
  all_chars P s = true -> all_chars Q s = true.
Proof.
  intros HPQ. induction s as [|c s IH]; [done|]. cbn.
  intros [Hc Hs]%andb_true_iff. by rewrite (HPQ c Hc), IH.
Qed.

Lemma split_at n s :
  (n <= String.length s)%nat ->
  exists s1 s2, s = s1 +:+ s2 /\ String.length s1 = n.
Proof.
  revert s. induction n as [|n IH]; intros s Hn.
  - by exists "", s.
  - destruct s as [|c s]; [cbn in Hn; lia|].
    destruct (IH s) as (s1 & s2 & -> & Hlen); [cbn in Hn; lia|].
    exists (String c s1), s2. split; [done|]. cbn. by rewrite Hlen.
Qed.

(** *** Inversion *)

Lemma lang_void_inv s : ~ lang Void s.
Proof. inversion 1. Qed.

Lemma lang_eps_inv s : lang Eps s -> s = "".
Proof. by inversion 1. Qed.

Lemma lang_class_inv p s :
  lang (Class p) s -> exists c, s = String c "" /\ p c = true.
Proof. inversion 1; subst. eauto. Qed.

Lemma lang_cat_inv r1 r2 s :
  lang (Cat r1 r2) s ->
  exists s1 s2, s = s1 +:+ s2 /\ lang r1 s1 /\ lang r2 s2.
Proof. inversion 1; subst. eauto. Qed.

Lemma lang_alt_inv r1 r2 s : lang (Alt r1 r2) s -> lang r1 s \/ lang r2 s.
Proof. inversion 1; subst; eauto. Qed.

Lemma lang_cat_nil_l r s : lang r s -> lang (Cat Eps r) s.
Proof. intros H. change s with ("" +:+ s). by constructor; [constructor|]. Qed.

Lemma lang_cat_iff r1 r2 s : lang (cat r1 r2) s <-> lang (Cat r1 r2) s.
Proof.
  destruct r1, r2; cbn; try done;
    try (split; [intros []%lang_void_inv
                |intros (s1 & s2 & _ & H1 & H2)%lang_cat_inv;
                 solve [ by apply lang_void_inv in H1
                       | by apply lang_void_inv in H2 ]]);
    (split; [apply lang_cat_nil_l
            |intros (s1 & s2 & -> & ->%lang_eps_inv & H2)%lang_cat_inv;
             exact H2]).
Qed.

Lemma lang_alt_iff r1 r2 s : lang (alt r1 r2) s <-> lang (Alt r1 r2) s.
Proof.
  destruct r1, r2; cbn; try done;
    (split;
     [intros H; first [ by apply lang_alt_l | by apply lang_alt_r ]
     |intros [H|H]%lang_alt_inv;
      solve [ done | by apply lang_void_inv in H ]]).
Qed.

Lemma nullable_lang r : nullable r = true <-> lang r "".
Proof.
  induction r as [| |p|r1 IH1 r2 IH2|r1 IH1 r2 IH2|r0 IH]; cbn.
  - split; [done|by intros []%lang_void_inv].
  - split; [constructor|done].
  - split; [done|]. by intros (c & [=] & _)%lang_class_inv.
  - rewrite andb_true_iff, IH1, IH2. split.
    + intros [H1 H2]. change "" with ("" +:+ ""). by constructor.
    + intros (s1 & s2 & Heq & H1 & H2)%lang_cat_inv.
      symmetry in Heq. apply app_nil_inv in Heq as [-> ->]. done.
  - rewrite orb_true_iff, IH1, IH2. split.
    + intros [H|H]; [by apply lang_alt_l|by apply lang_alt_r].
    + apply lang_alt_inv.
  - split; [constructor|done].
Qed.

Lemma lang_star_String_inv r' t :
  lang r' t ->
  forall r c s, r' = Star r -> t = String c s ->
  exists s1 s2, s = s1 +:+ s2 /\ lang r (String c s1) /\ lang (Star r) s2.
Proof.
  induction 1 as [| | | | | |r0 s1 s2 H1 _ H2 IH2]; intros r' x s' Hr Ht;
    try discriminate.
  injection Hr as ->.
  apply app_String_inv in Ht as [[-> ->]|(s1' & -> & ->)].
  - by eapply IH2.
  - eauto.
Qed.

Lemma deriv_lang c r s : lang (deriv c r) s <-> lang r (String c s).
Proof.
  revert s.
  induction r as [| |p|r1 IH1 r2 IH2|r1 IH1 r2 IH2|r0 IH]; intros s; cbn.
  - split; by intros []%lang_void_inv.
  - split; [by intros []%lang_void_inv|]. by intros [=]%lang_eps_inv.
  - destruct (p c) eqn:Hp.
    + split.
      * intros ->%lang_eps_inv. by constructor.
      * intros (c' & [= <- ->] & _)%lang_class_inv. constructor.
    + split; [by intros []%lang_void_inv|].
      intros (c' & [= <- ->] & Hp')%lang_class_inv. congruence.
  - assert (lang (cat (deriv c r1) r2) s
            <-> exists s1 s2, s = s1 +:+ s2 /\ lang r1 (String c s1)
                              /\ lang r2 s2) as Hcat.
    { rewrite lang_cat_iff. split.
      - intros (s1 & s2 & -> & H1 & H2)%lang_cat_inv.
        exists s1, s2. by rewrite <- IH1.
      - intros (s1 & s2 & -> & H1 & H2). constructor; [by apply IH1|done]. }
    assert (lang (Cat r1 r2) (String c s)
            <-> (lang r1 "" /\ lang r2 (String c s))
                \/ exists s1 s2, s = s1 +:+ s2 /\ lang r1 (String c s1)
                                 /\ lang r2 s2) as Hfull.
    { split.
      - intros (s1 & s2 & Heq & H1 & H2)%lang_cat_inv.
        symmetry in Heq.
        apply app_String_inv in Heq as [[-> ->]|(s1' & -> & ->)];
          [by left|right; eauto].
      - intros [[H1 H2]|(s1 & s2 & -> & H1 & H2)].
        + change (String c s) with ("" +:+ String c s). by constructor.
        + change (String c (s1 +:+ s2)) with (String c s1 +:+ s2).
          by constructor. }
    rewrite Hfull. destruct (nullable r1) eqn:Hn.
    + rewrite lang_alt_iff. split.
      * intros [H|H]%lang_alt_inv; [right; by apply Hcat|left].
        split; [by apply nullable_lang|by apply IH2].
      * intros [[_ H2]|H]; [apply lang_alt_r; by apply IH2|].
        apply lang_alt_l. by apply Hcat.
    + rewrite Hcat. split; [by right|].
      intros [[H1 _]|H]; [|done].
      apply nullable_lang in H1. congruence.
  - rewrite lang_alt_iff. split.
    + intros [H|H]%lang_alt_inv;
        [apply lang_alt_l; by apply IH1|apply lang_alt_r; by apply IH2].
    + intros [H|H]%lang_alt_inv;
        [apply lang_alt_l; by apply IH1|apply lang_alt_r; by apply IH2].
  - rewrite lang_cat_iff. split.
    + intros (s1 & s2 & -> & H1 & H2)%lang_cat_inv.
      change (String c (s1 +:+ s2)) with (String c s1 +:+ s2).
      constructor; [by apply IH|done].
    + intros H.
      destruct (lang_star_String_inv _ _ H r0 c s eq_refl eq_refl)
        as (s1 & s2 & -> & H1 & H2).
      constructor; [by apply IH|done].
Qed.

Lemma matches_lang r s : matches r s = true <-> lang r s.
Proof.
  revert r. induction s as [|c s IH]; intros r; cbn.
  - apply nullable_lang.
  - rewrite IH. apply deriv_lang.
Qed.


(** *** Repetitions of a character class *)

Lemma lang_times_class n p s :
  lang (times n (Class p)) s
  <-> String.length s = n /\ all_chars p s = true.
Proof.
  revert s. induction n as [|n IH]; intros s; cbn.
  - split; [by intros ->%lang_eps_inv|].
    intros [Hlen _]. destruct s; [constructor|done].
  - split.
    + intros (s1 & s2 & -> & (c & -> & Hc)%lang_class_inv
              & [Hlen Hall]%IH)%lang_cat_inv.
      change (String c "" +:+ s2) with (String c s2).
      cbn. by rewrite Hlen, Hc, Hall.
    + intros [Hlen Hall]. destruct s as [|c s]; [done|].
      cbn in Hlen, Hall. apply andb_true_iff in Hall as [Hc Hall].
      change (String c s) with (String c "" +:+ s).
      constructor; [by constructor|]. apply IH. split; [lia|done].
Qed.

Lemma lang_upto_class n p s :
  lang (upto n (Class p)) s
  <-> (String.length s <= n)%nat /\ all_chars p s = true.
Proof.
  revert s. induction n as [|n IH]; intros s; cbn.
  - split; [by intros ->%lang_eps_inv|].
    intros [Hlen _]. destruct s; [constructor|cbn in Hlen; lia].
  - split.
    + intros [->%lang_eps_inv|H]%lang_alt_inv; [cbn; split; [lia|done]|].
      apply lang_cat_inv in H
        as (s1 & s2 & -> & (c & -> & Hc)%lang_class_inv & [Hlen Hall]%IH).
      change (String c "" +:+ s2) with (String c s2).
      cbn. rewrite Hc, Hall. split; [lia|done].
    + intros [Hlen Hall]. destruct s as [|c s]; [apply lang_alt_l; constructor|].
      cbn in Hlen, Hall. apply andb_true_iff in Hall as [Hc Hall].
      apply lang_alt_r. change (String c s) with (String c "" +:+ s).
      constructor; [by constructor|]. apply IH. split; [lia|done].
Qed.

Lemma lang_star_class_inv r s p :
  lang r s -> r = Star (Class p) -> all_chars p s = true.
Proof.
  induction 1 as [| | | | | |r0 s1 s2 H1 _ H2 IH2]; intros Hr;
    try discriminate; [done|].
  injection Hr as ->.
  apply lang_class_inv in H1 as (c & -> & Hc).
  change (String c "" +:+ s2) with (String c s2).
  cbn. by rewrite Hc, IH2.
Qed.

Lemma lang_star_class p s :
  lang (Star (Class p)) s <-> all_chars p s = true.
Proof.
  split; [intros H; by eapply lang_star_class_inv|].
  induction s as [|c s IH]; [constructor|]. cbn.
  intros [Hc Hall]%andb_true_iff.
  change (String c s) with (String c "" +:+ s).
  constructor; [by constructor|by apply IH].
Qed.

Lemma lang_range_class lo hi p s :
  (lo <= hi)%nat ->
  lang (range lo hi (Class p)) s
  <-> (lo <= String.length s <= hi)%nat /\ all_chars p s = true.
Proof.
  intros Hle. unfold range. split.
  - intros (s1 & s2 & -> & [Hlen1 Hall1]%lang_times_class
            & [Hlen2 Hall2]%lang_upto_class)%lang_cat_inv.
    rewrite length_app, all_chars_app, Hall1, Hall2. split; [lia|done].
  - intros [Hlen Hall].
    destruct (split_at lo s) as (s1 & s2 & -> & Hlen1); [lia|].
    rewrite length_app in Hlen.
    rewrite all_chars_app in Hall. apply andb_true_iff in Hall as [H1 H2].
    constructor; [by apply lang_times_class|].
    apply lang_upto_class. split; [lia|done].
Qed.

Lemma lang_atLeast_class lo p s :
  lang (atLeast lo (Class p)) s
  <-> (lo <= String.length s)%nat /\ all_chars p s = true.
Proof.
  unfold atLeast. split.
  - intros (s1 & s2 & -> & [Hlen1 Hall1]%lang_times_class
            & Hall2%lang_star_class)%lang_cat_inv.
    rewrite length_app, all_chars_app, Hall1, Hall2. split; [lia|done].
  - intros [Hlen Hall].
    destruct (split_at lo s) as (s1 & s2 & -> & Hlen1); [lia|].
    rewrite all_chars_app in Hall. apply andb_true_iff in Hall as [H1 H2].
    constructor; [by apply lang_times_class|by apply lang_star_class].
Qed.

(** *** Splitting at dots *)

Lemma fields_nonempty s : fields s <> [].
Proof.
  destruct s as [|c s]; [done|]. cbn.
  destruct (dot c); [done|]. by destruct (fields s).
Qed.

Lemma concat_dot_cons l labels :
  concat_dot (l :: labels) = String "." (l +:+ concat_dot labels).
Proof.
  unfold concat_dot. cbn [Str.concat_map fold_right].
  by rewrite StrFacts.app_assoc.
Qed.

Lemma dot_eq c : dot c = true -> c = "."%char.
Proof. unfold dot. by intros ?%Ascii.eqb_eq. Qed.

(** A string is its fields joined by dots, and no field holds a dot. *)
Lemma fields_decomp s :
  exists first labels,
    fields s = first :: labels
    /\ s = first +:+ concat_dot labels
    /\ no_dot first = true
    /\ Forall (fun l => no_dot l = true) labels.
Proof.
  induction s as [|c s (first & labels & Hf & Hs & Hfirst & Hlabels)].
  - by exists "", [].
  - cbn [fields]. destruct (dot c) eqn:Hc.
    + exists "", (first :: labels). rewrite Hf. split; [done|].
      rewrite concat_dot_cons, <- Hs, (dot_eq c Hc).
      split; [done|]. split; [done|]. by constructor.
    + exists (String c first), labels. rewrite Hf. split; [done|].
      split; [by rewrite Hs|]. split; [|done].
      unfold no_dot. cbn. by rewrite Hc.
Qed.

(** Joining dot-free fields by dots and splitting again gives the fields
    back. *)
Lemma fields_unique first labels :
  no_dot first = true -> Forall (fun l => no_dot l = true) labels ->
  fields (first +:+ concat_dot labels) = first :: labels.
Proof.
  intros Hfirst Hlabels. revert first Hfirst.
  induction Hlabels as [|l labels Hl _ IH]; intros first Hfirst.
  - change (concat_dot []) with "". rewrite StrFacts.app_nil_r.
    induction first as [|c first IHf]; [done|].
    unfold no_dot in Hfirst. cbn in Hfirst.
    apply andb_true_iff in Hfirst as [Hc Hfirst].
    cbn [fields]. rewrite (negb_true_iff _) in Hc. rewrite Hc.
    by rewrite IHf.
  - rewrite concat_dot_cons.
    induction first as [|c first IHf].
    + change ("" +:+ String "." (l +:+ concat_dot labels))
        with (String "." (l +:+ concat_dot labels)).
      cbn [fields]. change (dot ".") with true. cbn iota.
      by rewrite IH.
    + unfold no_dot in Hfirst. cbn in Hfirst.
      apply andb_true_iff in Hfirst as [Hc Hfirst].
      change (String c first +:+ String "." (l +:+ concat_dot labels))
        with (String c (first +:+ String "." (l +:+ concat_dot labels))).
      cbn [fields]. rewrite (negb_true_iff _) in Hc. rewrite Hc.
      by rewrite IHf.
Qed.

Lemma digit_no_dot c : digit c = true -> negb (dot c) = true.
Proof.
  unfold dot. destruct (Ascii.eqb_spec c ".") as [->|]; [by vm_compute|done].
Qed.

Lemma alnumDash_no_dot c : alnumDash c = true -> negb (dot c) = true.
Proof.
  unfold dot. destruct (Ascii.eqb_spec c ".") as [->|]; [by vm_compute|done].
Qed.

Lemma letter_alnumDash c : letter c = true -> alnumDash c = true.
Proof. unfold alnumDash, alnum. by intros ->. Qed.

Lemma alnum_alnumDash c : alnum c = true -> alnumDash c = true.
Proof. unfold alnumDash. by intros ->. Qed.

Lemma digitGroup_no_dot x : digitGroup x = true -> no_dot x = true.
Proof.
  unfold digitGroup. intros [_ H]%andb_true_iff.
  eapply all_chars_impl; [|exact H]. apply digit_no_dot.
Qed.

Lemma letterLabel_no_dot x : letterLabel x = true -> no_dot x = true.
Proof.
  unfold letterLabel. intros [_ H]%andb_true_iff.
  eapply all_chars_impl; [|exact H].
  intros c Hc. by apply alnumDash_no_dot, letter_alnumDash.
Qed.

Lemma firstLabel_no_dot x : firstLabel x = true -> no_dot x = true.
Proof.
  unfold firstLabel. destruct x as [|h rest]; [done|].
  intros [_ H]%andb_true_iff.
  eapply all_chars_impl; [|exact H]. apply alnumDash_no_dot.
Qed.

Lemma forallb_Forall {A} (f : A -> bool) (l : list A) :
  forallb f l = true <-> Forall (fun x => f x = true) l.
Proof.
  induction l as [|x l IH]; cbn; [by split; [constructor|]|].
  by rewrite andb_true_iff, IH, Forall_cons.
Qed.

(** *** The two patterns *)

Lemma lang_digitGroup x :
  lang (range 1 3 (Class digit)) x <-> digitGroup x = true.
Proof.
  rewrite lang_range_class by lia. unfold digitGroup.
  rewrite !andb_true_iff, !Nat.leb_le. tauto.
Qed.

Lemma lang_group_dot x :
  lang (Cat (range 1 3 (Class digit)) (Class dot)) x
  <-> exists a, x = a +:+ "." /\ digitGroup a = true.
Proof.
  split.
  - intros (a & d & -> & Ha%lang_digitGroup
            & (c & -> & ->%dot_eq)%lang_class_inv)%lang_cat_inv.
    eauto.
  - intros (a & -> & Ha). constructor; [by apply lang_digitGroup|].
    by constructor.
Qed.

Lemma lang_ipPattern s :
  lang ipPattern s
  <-> exists a b c d,
        s = a +:+ concat_dot [b; c; d]
        /\ digitGroup a = true /\ digitGroup b = true
        /\ digitGroup c = true /\ digitGroup d = true.
Proof.
  unfold ipPattern. cbn [times]. split.
  - intros (x & d & -> & Hx & Hd%lang_digitGroup)%lang_cat_inv.
    apply lang_cat_inv in Hx
      as (xa & x1 & -> & (a & -> & Ha)%lang_group_dot & Hx).
    apply lang_cat_inv in Hx
      as (xb & x2 & -> & (b & -> & Hb)%lang_group_dot & Hx).
    apply lang_cat_inv in Hx
      as (xc & x3 & -> & (c & -> & Hc)%lang_group_dot & ->%lang_eps_inv).
    exists a, b, c, d. split; [|done].
    rewrite !concat_dot_cons. change (concat_dot []) with "".
    rewrite !StrFacts.app_assoc, !StrFacts.app_nil_r. reflexivity.
  - intros (a & b & c & d & -> & Ha & Hb & Hc & Hd).
    rewrite !concat_dot_cons. change (concat_dot []) with "".
    rewrite StrFacts.app_nil_r.
    replace (a +:+ String "." (b +:+ String "." (c +:+ String "." d)))
      with (((a +:+ ".") +:+ ((b +:+ ".") +:+ ((c +:+ ".") +:+ ""))) +:+ d)
      by (rewrite !StrFacts.app_assoc; reflexivity).
    constructor; [|by apply lang_digitGroup].
    constructor; [apply lang_group_dot; eauto|].
    constructor; [apply lang_group_dot; eauto|].
    constructor; [apply lang_group_dot; eauto|constructor].
Qed.

Lemma last_char_app h m t : last_char h (m +:+ String t "") = t.
Proof.
  revert h. induction m as [|c m IH]; intros h; [done|].
  change (String c m +:+ String t "") with (String c (m +:+ String t "")).
  cbn. apply IH.
Qed.

Lemma last_char_split h rest :
  rest <> "" -> exists m, rest = m +:+ String (last_char h rest) "".
Proof.
  revert h. induction rest as [|c rest IH]; intros h Hne; [done|].
  destruct rest as [|c' rest'].
  - by exists "".
  - destruct (IH c ltac:(done)) as (m & Hm).
    exists (String c m). cbn [last_char] in *.
    change (String c m +:+ String (last_char c' rest') "")
      with (String c (m +:+ String (last_char c' rest') "")).
    by rewrite <- Hm.
Qed.

Lemma firstLabel_iff x :
  firstLabel x = true
  <-> exists h m t,
        x = String h (m +:+ String t "")
        /\ alnum h = true /\ alnum t = true
        /\ (1 <= String.length m <= 61)%nat
        /\ all_chars alnumDash m = true.
Proof.
  split.
  - unfold firstLabel. destruct x as [|h rest]; [done|].
    rewrite !andb_true_iff, !Nat.leb_le.
    intros ((((Hlo & Hhi) & Hh) & Ht) & Hall).
    destruct (last_char_split h rest) as (m & Hm).
    { intros ->. cbn in Hlo. lia. }
    exists h, m, (last_char h rest). rewrite <- Hm.
    cbn in Hall. apply andb_true_iff in Hall as [_ Hall].
    rewrite Hm, all_chars_app in Hall.
    apply andb_true_iff in Hall as [Hall _].
    cbn in Hlo, Hhi. rewrite Hm, length_app in Hlo, Hhi. cbn in Hlo, Hhi.
    split_and!; try done; lia.
  - intros (h & m & t & -> & Hh & Ht & Hlen & Hall).
    unfold firstLabel. rewrite last_char_app.
    cbn [String.length all_chars].
    rewrite length_app, all_chars_app. cbn [String.length all_chars].
    rewrite Hh, Ht, Hall, (alnum_alnumDash h Hh), (alnum_alnumDash t Ht).
    rewrite !andb_true_r, andb_true_iff, !Nat.leb_le. lia.
Qed.

Lemma lang_letterLabel x :
  lang (Cat (Class dot) (atLeast 2 (Class letter))) x
  <-> exists l, x = String "." l /\ letterLabel l = true.
Proof.
  unfold letterLabel. split.
  - intros (d & l & -> & (c & -> & ->%dot_eq)%lang_class_inv
            & [Hlen Hall]%lang_atLeast_class)%lang_cat_inv.
    exists l. split; [done|]. rewrite andb_true_iff, Nat.leb_le. done.
  - intros (l & -> & [Hlen Hall]%andb_true_iff).
    change (String "." l) with ("." +:+ l).
    constructor; [by constructor|].
    apply lang_atLeast_class. by rewrite Nat.leb_le in Hlen.
Qed.

Lemma lang_labels_inv r s :
  lang r s ->
  r = Star (Cat (Class dot) (atLeast 2 (Class letter))) ->
  exists labels,
    s = concat_dot labels /\ Forall (fun l => letterLabel l = true) labels.
Proof.
  induction 1 as [| | | | | |r0 s1 s2 H1 _ H2 IH2]; intros Hr;
    try discriminate.
  - by exists [].
  - injection Hr as ->.
    apply lang_letterLabel in H1 as (l & -> & Hl).
    destruct (IH2 eq_refl) as (labels & -> & Hlabels).
    exists (l :: labels). rewrite concat_dot_cons. split; [done|].
    by constructor.
Qed.

Lemma lang_labels labels :
  Forall (fun l => letterLabel l = true) labels ->
  lang (Star (Cat (Class dot) (atLeast 2 (Class letter))))
    (concat_dot labels).
Proof.
  induction 1 as [|l labels Hl _ IH]; [constructor|].
  rewrite concat_dot_cons.
  change (String "." (l +:+ concat_dot labels))
    with (String "." l +:+ concat_dot labels).
  constructor; [|done]. apply lang_letterLabel. eauto.
Qed.

Lemma lang_domainPattern s :
  lang domainPattern s
  <-> exists first l labels,
        s = first +:+ concat_dot (l :: labels)
        /\ firstLabel first = true
        /\ Forall (fun l => letterLabel l = true) (l :: labels).
Proof.
  unfold domainPattern, plus. split.
  - intros (x & s1 & -> & (h & -> & Hh)%lang_class_inv & H)%lang_cat_inv.
    apply lang_cat_inv in H
      as (m & s2 & -> & [Hlen Hall]%lang_range_class & H); [|lia].
    apply lang_cat_inv in H
      as (x1 & s3 & -> & (t & -> & Ht)%lang_class_inv & H).
    apply lang_cat_inv in H
      as (x2 & s4 & -> & (l & -> & Hl)%lang_letterLabel & H).
    destruct (lang_labels_inv _ _ H eq_refl) as (labels & -> & Hlabels).
    exists (String h (m +:+ String t "")), l, labels. split_and!.
    + rewrite concat_dot_cons.
      change (String h "" +:+ m +:+ String t "" +:+ String "." l
              +:+ concat_dot labels)
        with (String h (m +:+ String t (String "." l +:+ concat_dot labels))).
      change (String h (m +:+ String t "")
              +:+ String "." (l +:+ concat_dot labels))
        with (String h ((m +:+ String t "")
                        +:+ String "." (l +:+ concat_dot labels))).
      by rewrite StrFacts.app_assoc.
    + apply firstLabel_iff. exists h, m, t. done.
    + by constructor.
  - intros (first & l & labels & -> & Hfirst & Hlabels).
    apply firstLabel_iff in Hfirst
      as (h & m & t & -> & Hh & Ht & Hlen & Hall).
    apply Forall_cons in Hlabels as [Hl Hlabels].
    rewrite concat_dot_cons.
    replace (String h (m +:+ String t "")
             +:+ String "." (l +:+ concat_dot labels))
      with (String h "" +:+ m +:+ String t "" +:+ String "." l
            +:+ concat_dot labels).
    2:{ change (String h (m +:+ String t (String "." l +:+ concat_dot labels))
                = String h ((m +:+ String t "")
                            +:+ String "." (l +:+ concat_dot labels))).
        by rewrite StrFacts.app_assoc. }
    constructor; [by constructor|].
    constructor; [apply lang_range_class; [lia|done]|].
    constructor; [by constructor|].
    constructor; [apply lang_letterLabel; eauto|by apply lang_labels].
Qed.

End ShapeFacts.

Section Patterns.
Import Regex ShapeFacts.

(** X27: The check of the resolver address accepts exactly four groups of one
    to three digits separated by dots: the groups are not checked to be
    at most 255. *)
Theorem ipPattern_accepts (s : string) :
  test ipPattern s = dottedQuad s.
Proof.
  apply Bool.eq_true_iff_eq. unfold test.
  rewrite matches_lang, lang_ipPattern. unfold dottedQuad. split.
  - intros (a & b & c & d & -> & Ha & Hb & Hc & Hd).
    rewrite fields_unique.
    + by rewrite Ha, Hb, Hc, Hd.
    + by apply digitGroup_no_dot.
    + repeat constructor; by apply digitGroup_no_dot.
  - destruct (fields_decomp s) as (first & labels & Hf & Hs & _).
    rewrite Hf. destruct labels as [|b [|c [|d [|]]]]; try done.
    rewrite !andb_true_iff. intros (((Ha & Hb) & Hc) & Hd).
    by exists first, b, c, d.
Qed.

(** X28: The check of the domain accepts exactly the names made of a first
    label of 3 to 63 letters, digits and dashes that neither starts nor
    ends with a dash, followed by one or more labels of two or more
    letters: digits and dashes are accepted in the first label only. *)
Theorem domainPattern_accepts (s : string) :
  test domainPattern s = domainShape s.
Proof.
  apply Bool.eq_true_iff_eq. unfold test.
  rewrite matches_lang, lang_domainPattern. unfold domainShape. split.
  - intros (first & l & labels & -> & Hfirst & Hlabels).
    rewrite fields_unique.
    + rewrite Hfirst. by apply forallb_Forall in Hlabels as ->.
    + by apply firstLabel_no_dot.
    + eapply Forall_impl; [exact Hlabels|]. apply letterLabel_no_dot.
  - destruct (fields_decomp s) as (first & labels & Hf & Hs & _).
    rewrite Hf. destruct labels as [|l labels]; [done|].
    intros [Hfirst Hlabels]%andb_true_iff.
    exists first, l, labels. split; [done|]. split; [done|].
    by apply forallb_Forall.
Qed.

End Patterns.
